(** * Sub_Auto.py: subdomain discovery, live check and screenshot driver

    A shallow embedding of [src/Sub_Auto.py].  The script is sequential
    glue around external tools, so the embedding is a state-and-exception
    monad over an explicit world: the files (a finite map from path to
    what the file holds: its text, or bytes that do not decode), whatever
    else the external tools depend on (an opaque component only the
    operating system reads and changes: the network, what is installed,
    which directories there are), the pending lines of standard input,
    and a chronological trace of what the script did (console lines,
    commands launched, files written and removed).

    Python text is modelled by [string]; one [ascii] stands for one code
    point below 256, which covers the host names and tool diagnostics the
    script handles.  [str.strip], [str.lower], [str.splitlines] and the
    ordering used by [sorted] are written out for that range. *)

From Stdlib Require Import ZArith Ascii String.
From stdpp Require Import gmap strings list sorting.

Local Open Scope string_scope.
Local Open Scope Z_scope.
Local Open Scope list_scope.

#[local] Set Warnings "-clear-no-such-hyp".

(** ** Python text primitives *)

Module Py.

(** [str.isspace] on one character: TAB..CR, FS..US, space, NEL, NBSP. *)
Definition is_space (c : ascii) : bool :=
  let n := N_of_ascii c in
  ((9 <=? n) && (n <=? 13) || (28 <=? n) && (n <=? 32)
   || (n =? 133) || (n =? 160))%N.

(** The line boundaries of [str.splitlines]: LF, VT, FF, CR, FS, GS, RS, NEL. *)
Definition is_linebreak (c : ascii) : bool :=
  let n := N_of_ascii c in
  ((10 <=? n) && (n <=? 13) || (28 <=? n) && (n <=? 30) || (n =? 133))%N.

Definition LF : ascii := ascii_of_N 10.
Definition CR : ascii := ascii_of_N 13.

Fixpoint lstrip (s : string) : string :=
  match s with
  | EmptyString => EmptyString
  | String c s' => if is_space c then lstrip s' else s
  end.

Fixpoint rstrip (s : string) : string :=
  match s with
  | EmptyString => EmptyString
  | String c s' =>
      match rstrip s' with
      | EmptyString => if is_space c then EmptyString else String c EmptyString
      | r => String c r
      end
  end.

(** [s.strip()] *)
Definition strip (s : string) : string := rstrip (lstrip s).

(** [str.lower] on one character: A..Z and the accented capitals. *)
Definition lower_char (c : ascii) : ascii :=
  let n := N_of_ascii c in
  if ((65 <=? n) && (n <=? 90)
      || (192 <=? n) && (n <=? 222) && negb (n =? 215))%N
  then ascii_of_N (n + 32) else c.

Fixpoint lower (s : string) : string :=
  match s with
  | EmptyString => EmptyString
  | String c s' => String (lower_char c) (lower s')
  end.

(** [needle in hay] *)
Fixpoint contains (needle hay : string) : bool :=
  String.prefix needle hay ||
  match hay with
  | EmptyString => false
  | String _ hay' => contains needle hay'
  end.

(** Puts one more character in front of the first line of [ls]. *)
Definition push_char (c : ascii) (ls : list string) : list string :=
  match ls with
  | [] => [String c EmptyString]
  | l :: ls' => String c l :: ls'
  end.

(** [s.splitlines()]: boundaries are dropped, CR LF counts once, and a
    final boundary opens no further line. *)
Fixpoint splitlines (s : string) : list string :=
  match s with
  | EmptyString => []
  | String c s' =>
      if is_linebreak c then
        match s' with
        | String c' s'' =>
            if Ascii.eqb c CR && Ascii.eqb c' LF
            then EmptyString :: splitlines s''
            else EmptyString :: splitlines s'
        | EmptyString => [EmptyString]
        end
      else push_char c (splitlines s')
  end.

(** [for line in f] on a file opened in text mode: every line keeps its
    terminator, and CR and CR LF are read as LF. *)
Fixpoint iter_lines (s : string) : list string :=
  match s with
  | EmptyString => []
  | String c s' =>
      if Ascii.eqb c LF then String LF EmptyString :: iter_lines s'
      else if Ascii.eqb c CR then
        match s' with
        | String c' s'' =>
            if Ascii.eqb c' LF
            then String LF EmptyString :: iter_lines s''
            else String LF EmptyString :: iter_lines s'
        | EmptyString => [String LF EmptyString]
        end
      else push_char c (iter_lines s')
  end.

(** [s.split(' ')[0]] *)
Fixpoint first_word (s : string) : string :=
  match s with
  | EmptyString => EmptyString
  | String c s' =>
      if Ascii.eqb c " " then EmptyString else String c (first_word s')
  end.

(** [sorted(l)]: the order on text is lexicographic on code points,
    which is [String.le]. *)
Definition sorted (l : list string) : list string := merge_sort String.le l.

(** Truth value of an optional text: [None] and the empty text are false. *)
Definition truthy (o : option string) : bool :=
  match o with
  | Some (String _ _) => true
  | _ => false
  end.

End Py.

(** ** The world the script runs in *)

(** Lines the script prints, one constructor per [print] of the source. *)
Inductive Msg : Type :=
| MsgToolMissing (error_message : string)     (* line 20 *)
| MsgCommandMissing (program : string)        (* line 24 *)
| MsgUnexpected (e : string)                  (* line 27 *)
| MsgStarting (target_domain : string)
| MsgRunningInitialTools
| MsgRunningTool (tool_name : string)
| MsgToolCompleted (tool_name output_file : string)
| MsgToolFailed (tool_name stderr : string)
| MsgFoundInitially (count : nat)
| MsgStartingRecursive
| MsgProgress (sub : string) (done total : nat)
| MsgNewline
| MsgAfterRecursion (count : nat)
| MsgCheckingLive
| MsgLiveSaved (live_subdomains_file : string)
| MsgLiveCount (live_count : nat)
| MsgProbeFailed (stderr : string)
| MsgInputFileMissing (input_file : string)
| MsgStartingScreenshots (input_file : string)
| MsgScreenshotDir (output_dir : string)
| MsgScreenshotsDone (output_dir : string)
| MsgScreenshotsFailed (stderr : string)
| MsgWelcome
| MsgAbout
| MsgRule
| MsgDomainEmpty
| MsgMenuTitle
| MsgMenuItem (n : nat)
| MsgFindingCompleted (live_subdomains_file : string)
| MsgFindingFailed
| MsgScreenshotFinished
| MsgGoodbye
| MsgInvalidChoice.

Inductive Prompt : Type :=
| PromptDomain
| PromptScreenshotFile (default_input_file : string)
| PromptChoice.

(** What the script does to the outside, in the order it does it.
    [EvRun] records a call of [subprocess.run], whether or not the launch
    succeeds. *)
Inductive Event : Type :=
| EvPrint (m : Msg)
| EvInput (p : Prompt) (answer : string)
| EvRun (command : string)
| EvWrite (path content : string)
| EvRemove (path : string)
| EvSleep.

(** Exceptions of the model: those [subprocess.run], [open], [os.remove]
    and [input] raise. *)
Inductive Exn : Type :=
| FileNotFoundError
| OtherException (msg : string)
| EOFError.

(** What [subprocess.run(command, shell=True, capture_output=True,
    text=True, check=False)] comes back with. *)
Inductive Launch : Type :=
| Completed (stdout stderr : string) (returncode : Z)
| Failed (e : Exn).

(** What is at a path: a file with the text its bytes decode to in the
    encoding of the locale, or a file whose bytes do not decode. *)
Inductive File : Type :=
| Text (text : string)
| Undecodable.

(** Why [open(path, 'w')] fails: the directory the path lies in is not
    there, or another [OSError] with its text (no permission, say). *)
Inductive OpenError : Type :=
| NoSuchDirectory
| OtherOSError (msg : string).

(** The exception [open(path, 'w')] raises for each. *)
Definition raised_by_open (e : OpenError) : Exn :=
  match e with
  | NoSuchDirectory => FileNotFoundError
  | OtherOSError msg => OtherException msg
  end.

(** The exception a read in text mode raises on bytes that do not
    decode. *)
Definition UnicodeDecodeError : Exn := OtherException "UnicodeDecodeError".

Inductive Res (A : Type) : Type :=
| Ok (a : A)
| Raise (e : Exn).
Arguments Ok {A} a.
Arguments Raise {A} e.

Section Program.

(** [Ext] is everything outside the files that an external tool may read
    or change (the network, what is installed, the directories); [shell]
    is the operating system running one command line, and [open_w] the
    operating system asked to open a path for writing: [None] when it
    does, the error otherwise. *)
Context {Ext : Type}.
Variable shell :
  string → gmap string File → Ext → Launch * gmap string File * Ext.
Variable open_w : string → Ext → option OpenError.

Record World : Type := mkWorld {
  files : gmap string File;
  ext : Ext;
  stdin : list string;
  trace : list Event;
}.

Definition M (A : Type) : Type := World → Res A * World.

Definition ret {A} (a : A) : M A := λ w, (Ok a, w).

Definition bind {A B} (m : M A) (k : A → M B) : M B :=
  λ w, match m w with
       | (Ok a, w') => k a w'
       | (Raise e, w') => (Raise e, w')
       end.

Notation "'let*' x ':=' m 'in' k" := (bind m (λ x, k))
  (at level 10, x pattern, m at level 100, k at level 200).
Notation "m >> k" := (bind m (λ _, k))
  (at level 100, k at level 200, right associativity).

Definition raise {A} (e : Exn) : M A := λ w, (Raise e, w).

(** [try: m except FileNotFoundError: h1 except Exception as e: h2 e].
    [EOFError] is an [Exception] too; its text is empty. *)
Definition try_except {A} (m : M A) (on_fnf : M A) (on_exn : string → M A)
  : M A :=
  λ w, match m w with
       | (Ok a, w') => (Ok a, w')
       | (Raise FileNotFoundError, w') => on_fnf w'
       | (Raise (OtherException msg), w') => on_exn msg w'
       | (Raise EOFError, w') => on_exn "" w'
       end.

Definition log (e : Event) : M unit :=
  λ w, (Ok tt, mkWorld (files w) (ext w) (stdin w) (trace w ++ [e])).

Definition print (m : Msg) : M unit := log (EvPrint m).

(** [time.sleep(0.1)] *)
Definition sleep : M unit := log EvSleep.

(** [input(prompt)]: the next line of standard input, [EOFError] at its end. *)
Definition input (p : Prompt) : M string :=
  λ w, match stdin w with
       | [] => (Raise EOFError, w)
       | a :: rest =>
           (Ok a, mkWorld (files w) (ext w) rest (trace w ++ [EvInput p a]))
       end.

(** [os.path.exists(path)] *)
Definition path_exists (path : string) : M bool :=
  λ w, (Ok (bool_decide (is_Some (files w !! path))), w).

(** The whole text of [open(path, 'r')], read in text mode: the read
    raises when the bytes do not decode.  (The script keeps nothing of
    the lines read before the bytes that do not decode: the set they
    went into is local to the call the exception leaves.) *)
Definition read_file (path : string) : M string :=
  λ w, match files w !! path with
       | Some (Text content) => (Ok content, w)
       | Some Undecodable => (Raise UnicodeDecodeError, w)
       | None => (Raise FileNotFoundError, w)
       end.

(** [open(path, 'w')] followed by the writes that make up [content];
    when the open fails nothing is written. *)
Definition write_file (path content : string) : M unit :=
  λ w, match open_w path (ext w) with
       | None =>
           (Ok tt, mkWorld (<[path := Text content]> (files w)) (ext w)
                     (stdin w) (trace w ++ [EvWrite path content]))
       | Some e => (Raise (raised_by_open e), w)
       end.

(** [os.remove(path)] *)
Definition remove (path : string) : M unit :=
  λ w, match files w !! path with
       | Some _ => (Ok tt, mkWorld (delete path (files w)) (ext w) (stdin w)
                                   (trace w ++ [EvRemove path]))
       | None => (Raise FileNotFoundError, w)
       end.

(** [subprocess.run(command, shell=True, capture_output=True, text=True,
    check=False)]: returns the completed process or raises. *)
Definition subprocess_run (command : string) : M (string * string * Z) :=
  λ w, match shell command (files w) (ext w) with
       | (Completed out err rc, fs', x') =>
           (Ok (out, err, rc),
            mkWorld fs' x' (stdin w) (trace w ++ [EvRun command]))
       | (Failed e, fs', x') =>
           (Raise e, mkWorld fs' x' (stdin w) (trace w ++ [EvRun command]))
       end.

(** ** [run_command] *)

Definition run_command (command error_message : string)
  : M (option string * string * Z) :=
  try_except
    (let* (stdout, stderr, returncode) := subprocess_run command in
     if negb (returncode =? 0) && Py.contains "not found" (Py.lower stderr)
     then print (MsgToolMissing error_message) >>
          ret (None, stderr, returncode)
     else ret (Some stdout, stderr, returncode))
    (print (MsgCommandMissing (Py.first_word command)) >>
     ret (None, "FileNotFoundError", 127))
    (λ e, print (MsgUnexpected e) >> ret (None, e, 1)).

(** ** [find_subdomains] *)

Definition nl : string := String Py.LF EmptyString.

(** The two command lines of the [tools] dictionary. *)
Definition subfinder_command (target_domain : string) : string :=
  "subfinder -d " +:+ target_domain
  +:+ " -o " +:+ target_domain +:+ "_subfinder.txt".

Definition amass_command (target_domain : string) : string :=
  "amass enum -d " +:+ target_domain
  +:+ " -o " +:+ target_domain +:+ "_amass.txt".

(** The [tools] dictionary, in insertion order. *)
Definition tools (target_domain : string) : list (string * string) :=
  [ ("subfinder", subfinder_command target_domain);
    ("amass", amass_command target_domain) ].

Definition tool_output_file (target_domain tool_name : string) : string :=
  target_domain +:+ "_" +:+ tool_name +:+ ".txt".

Definition temp_subdomain_file (target_domain : string) : string :=
  target_domain +:+ "_all_unique_subdomains.txt".

Definition live_subdomains_file (target_domain : string) : string :=
  target_domain +:+ "_subdomains.txt".

Definition httpx_command (target_domain : string) : string :=
  "cat " +:+ temp_subdomain_file target_domain +:+ " | httpx -silent -o "
  +:+ live_subdomains_file target_domain.

(** [a == 0 and os.path.exists(path)], the right operand evaluated only
    when the left one holds. *)
Definition zero_and_exists (returncode : Z) (path : string) : M bool :=
  if returncode =? 0 then path_exists path else ret false.

(** Lines 54-56: [for line in f: unique_subdomains.add(line.strip())]. *)
Definition add_file_lines (unique : gset string) (content : string)
  : gset string :=
  foldl (λ acc line, {[Py.strip line]} ∪ acc) unique (Py.iter_lines content).

(** Lines 46-60: the loop over the two tools.  [None] is the early
    [return None] of line 60. *)
Fixpoint initial_loop (target_domain : string) (todo : list (string * string))
    (unique_subdomains : gset string) (initial_subdomain_files : list string)
  : M (option (gset string * list string)) :=
  match todo with
  | [] => ret (Some (unique_subdomains, initial_subdomain_files))
  | (tool_name, command) :: todo' =>
      let output_file := tool_output_file target_domain tool_name in
      let initial_subdomain_files :=
        initial_subdomain_files ++ [output_file] in
      print (MsgRunningTool tool_name) >>
      let* (stdout, stderr, returncode) :=
        run_command command ("Tool '" +:+ tool_name +:+ "'") in
      let* ok := zero_and_exists returncode output_file in
      if ok then
        print (MsgToolCompleted tool_name output_file) >>
        let* content := read_file output_file in
        initial_loop target_domain todo'
          (add_file_lines unique_subdomains content) initial_subdomain_files
      else
        print (MsgToolFailed tool_name (Py.strip stderr)) >>
        if Py.contains "not found" (Py.lower stderr) then ret None
        else initial_loop target_domain todo'
               unique_subdomains initial_subdomain_files
  end.

(** Lines 35-65: initial discovery, ending with the target domain added. *)
Definition initial_discovery (target_domain : string)
  : M (option (gset string * list string)) :=
  print (MsgStarting target_domain) >>
  print MsgRunningInitialTools >>
  let* r := initial_loop target_domain (tools target_domain) ∅ [] in
  match r with
  | None => ret None
  | Some (unique_subdomains, initial_subdomain_files) =>
      let unique_subdomains := {[target_domain]} ∪ unique_subdomains in
      print (MsgFoundInitially (size unique_subdomains)) >>
      ret (Some (unique_subdomains, initial_subdomain_files))
  end.

(** Lines 86-89 and 92-95: fold the lines of one captured output into
    the newly found set.  [None.splitlines()] would raise. *)
Definition add_stdout_lines (newly_found : gset string) (lines : list string)
  : gset string :=
  foldl (λ acc line,
           if decide (Py.strip line = "") then acc
           else {[Py.strip line]} ∪ acc) newly_found lines.

Definition absorb (stdout : option string) (returncode : Z)
    (newly_found : gset string) : M (gset string) :=
  if (returncode =? 0) && Py.truthy stdout then
    match stdout with
    | Some out => ret (add_stdout_lines newly_found (Py.splitlines out))
    | None => raise (OtherException "AttributeError")
    end
  else ret newly_found.

(** Lines 73-96: the loop over the copied list; [i] is the index
    [enumerate] hands out. *)
Fixpoint recursive_loop (target_domain : string) (total : nat) (i : nat)
    (subs : list string) (newly_found : gset string) : M (gset string) :=
  match subs with
  | [] => ret newly_found
  | sub :: subs' =>
      if decide (sub = target_domain)
      then recursive_loop target_domain total (S i) subs' newly_found
      else
        print (MsgProgress sub (S i) total) >>
        let* (stdout_subfinder, _, returncode_subfinder) :=
          run_command ("subfinder -d " +:+ sub) "subfinder" in
        let* newly_found :=
          absorb stdout_subfinder returncode_subfinder newly_found in
        let* (stdout_amass, _, returncode_amass) :=
          run_command ("amass enum -d " +:+ sub) "amass" in
        let* newly_found :=
          absorb stdout_amass returncode_amass newly_found in
        sleep >>
        recursive_loop target_domain total (S i) subs' newly_found
  end.

(** Lines 68-100.  A Python set is iterated in an order the language
    leaves open; [elements] stands for it. *)
Definition recursive_expansion (target_domain : string)
    (unique_subdomains : gset string) : M (gset string) :=
  print MsgStartingRecursive >>
  let subdomains_to_process_recursively := elements unique_subdomains in
  let total_recursive_targets := length subdomains_to_process_recursively in
  let* newly_found := recursive_loop target_domain total_recursive_targets 0
                   subdomains_to_process_recursively ∅ in
  print MsgNewline >>
  let unique_subdomains := unique_subdomains ∪ newly_found in
  print (MsgAfterRecursion (size unique_subdomains)) >>
  ret unique_subdomains.

(** The text lines 103-105 write: every member followed by a newline. *)
Definition full_set_text (unique_subdomains : gset string) : string :=
  foldr (λ sub rest, sub +:+ nl +:+ rest) ""
        (Py.sorted (elements unique_subdomains)).

(** [for f in initial_subdomain_files: if os.path.exists(f): os.remove(f)] *)
Definition remove_if_exists (path : string) : M unit :=
  let* present := path_exists path in
  if present then remove path else ret tt.

Fixpoint cleanup (paths : list string) : M unit :=
  match paths with
  | [] => ret tt
  | f :: paths' => remove_if_exists f >> cleanup paths'
  end.

(** Lines 108-135. *)
Definition live_filter (target_domain : string)
    (initial_subdomain_files : list string) : M (option string) :=
  print MsgCheckingLive >>
  let live_subdomains_file := live_subdomains_file target_domain in
  let* (stdout, stderr, returncode) :=
    run_command (httpx_command target_domain) "httpx-toolkit" in
  let* ok := zero_and_exists returncode live_subdomains_file in
  if ok then
    print (MsgLiveSaved live_subdomains_file) >>
    cleanup initial_subdomain_files >>
    remove_if_exists (temp_subdomain_file target_domain) >>
    let* content := read_file live_subdomains_file in
    print (MsgLiveCount (length (Py.iter_lines content))) >>
    ret (Some live_subdomains_file)
  else
    print (MsgProbeFailed (Py.strip stderr)) >>
    cleanup initial_subdomain_files >>
    remove_if_exists (temp_subdomain_file target_domain) >>
    ret None.

Definition find_subdomains (target_domain : string) : M (option string) :=
  let* r := initial_discovery target_domain in
  match r with
  | None => ret None
  | Some (unique_subdomains, initial_subdomain_files) =>
      let* unique_subdomains :=
        recursive_expansion target_domain unique_subdomains in
      write_file (temp_subdomain_file target_domain)
                 (full_set_text unique_subdomains) >>
      live_filter target_domain initial_subdomain_files
  end.

(** ** [screenshot_subdomains] *)

Definition eyewitness_command (input_file output_dir : string) : string :=
  "eyewitness -f " +:+ input_file +:+ " --web -d " +:+ output_dir.

Definition screenshot_subdomains (target_domain : string) : M unit :=
  let default_input_file := target_domain +:+ "_subdomains.txt" in
  let* answer := input (PromptScreenshotFile default_input_file) in
  let input_file := Py.strip answer in
  let input_file :=
    if decide (input_file = "") then default_input_file else input_file in
  let* present := path_exists input_file in
  if negb present then print (MsgInputFileMissing input_file)
  else
    let output_dir := "screenshots_" +:+ target_domain in
    print (MsgStartingScreenshots input_file) >>
    print (MsgScreenshotDir output_dir) >>
    let* (stdout, stderr, returncode) :=
      run_command (eyewitness_command input_file output_dir) "eyewitness" in
    if returncode =? 0 then print (MsgScreenshotsDone output_dir)
    else
      print (MsgScreenshotsFailed (Py.strip stderr)) >>
      if Py.contains "not found" (Py.lower stderr) then ret tt else ret tt.

(** ** [main] *)

(** One pass through the body of [while True]; [true] is [break]. *)
Definition menu_step (target_domain : string) : M bool :=
  print MsgMenuTitle >>
  print (MsgMenuItem 1) >>
  print (MsgMenuItem 2) >>
  print (MsgMenuItem 3) >>
  let* answer := input PromptChoice in
  let choice := Py.strip answer in
  if decide (choice = "1") then
    let* live_subdomains_file := find_subdomains target_domain in
    (if Py.truthy live_subdomains_file
     then print (MsgFindingCompleted (default "" live_subdomains_file))
     else print MsgFindingFailed) >>
    ret false
  else if decide (choice = "2") then
    screenshot_subdomains target_domain >>
    print MsgScreenshotFinished >>
    ret false
  else if decide (choice = "3") then
    print MsgGoodbye >>
    ret true
  else
    print MsgInvalidChoice >>
    ret false.

(** [while True: ...] run for at most [fuel] passes; the result says
    whether the loop was left ([true]) or the passes ran out ([false]). *)
Fixpoint menu_loop (fuel : nat) (target_domain : string) : M bool :=
  match fuel with
  | O => ret false
  | S fuel' =>
      let* stop := menu_step target_domain in
      if stop then ret true else menu_loop fuel' target_domain
  end.

(** Every pass reads a line of standard input, so one pass more than
    there are lines is never used up. *)
Definition main : M bool :=
  print MsgWelcome >>
  print MsgAbout >>
  print MsgRule >>
  let* answer := input PromptDomain in
  let target_domain := Py.strip answer in
  if decide (target_domain = "") then
    print MsgDomainEmpty >>
    ret true
  else
    λ w, menu_loop (S (length (stdin w))) target_domain w.

End Program.

(** ** Concrete hosts

    Operating systems and worlds on which the embedding is run below. *)

Module Demo.

Definition target : string := "example.com".

Definition empty_world {Ext : Type} (x : Ext) : @World Ext :=
  mkWorld ∅ x [] [].

(** [open(path, 'w')] on a host whose working directory holds no
    directory: a path with a "/" in it lies in a directory that is not
    there.  (The hosts below are asked for no path through "." or "..",
    nor from the root.) *)
Definition open_flat {Ext : Type} (path : string) (x : Ext)
  : option OpenError :=
  if Py.contains "/" path then Some NoSuchDirectory else None.

(** A host on which both tools and the probe work: subfinder reports
    a.example.com and b.example.com, amass reports b.example.com and
    example.com, expanding a.example.com finds x.a.example.com, and the
    probe keeps a.example.com.  Anything else is not installed. *)
Definition shell_ok (command : string) (fs : gmap string File) (x : unit)
  : Launch * gmap string File * unit :=
  if decide (command = subfinder_command target) then
    (Completed "" "" 0,
     <[tool_output_file target "subfinder" :=
         Text ("a.example.com" +:+ nl +:+ "b.example.com" +:+ nl)]> fs, x)
  else if decide (command = amass_command target) then
    (Completed "" "" 0,
     <[tool_output_file target "amass" :=
         Text ("b.example.com" +:+ nl +:+ "example.com" +:+ nl)]> fs, x)
  else if decide (command = "subfinder -d a.example.com") then
    (Completed ("x.a.example.com" +:+ nl) "" 0, fs, x)
  else if decide (command = httpx_command target) then
    (Completed "" "" 0,
     <[live_subdomains_file target := Text ("a.example.com" +:+ nl)]> fs, x)
  else (Completed "" "sh: 1: eyewitness: not found" 127, fs, x).

(** A host without a command interpreter: every launch fails with
    [FileNotFoundError]. *)
Definition shell_no_launcher (command : string) (fs : gmap string File)
    (x : unit) : Launch * gmap string File * unit :=
  (Failed FileNotFoundError, fs, x).

(** A host on which only the first launch fails that way; the outside
    counts the launches, and from the second on the host is [shell_ok]. *)
Definition shell_late_launcher (command : string) (fs : gmap string File)
    (launches : nat) : Launch * gmap string File * nat :=
  match launches with
  | O => (Failed FileNotFoundError, fs, 1%nat)
  | S _ => let '(l, fs', _) := shell_ok command fs tt in (l, fs', S launches)
  end.

(** A host on which subfinder leaves a file with a blank line in it and
    every other command exits with code 1, saying nothing. *)
Definition shell_blank_line (command : string) (fs : gmap string File)
    (x : unit) : Launch * gmap string File * unit :=
  if decide (command = subfinder_command target) then
    (Completed "" "" 0,
     <[tool_output_file target "subfinder" :=
         Text ("a.example.com" +:+ nl +:+ nl)]> fs, x)
  else (Completed "" "" 1, fs, x).

(** A host on which the probe writes its output file and then exits with
    code 1; every other command exits with code 1, saying nothing. *)
Definition shell_probe_crash (command : string) (fs : gmap string File)
    (x : unit) : Launch * gmap string File * unit :=
  if decide (command = httpx_command target) then
    (Completed "" "killed" 1,
     <[live_subdomains_file target := Text ("example.com" +:+ nl)]> fs, x)
  else (Completed "" "" 1, fs, x).

(** A host on which every command exits with code 0 and does nothing. *)
Definition shell_idle (command : string) (fs : gmap string File)
    (x : unit) : Launch * gmap string File * unit :=
  (Completed "" "" 0, fs, x).

(** A host on which every command exits with code 1 and does nothing. *)
Definition shell_failing (command : string) (fs : gmap string File)
    (x : unit) : Launch * gmap string File * unit :=
  (Completed "" "" 1, fs, x).

(** A world that still holds the final file of an earlier run. *)
Definition stale_world : @World unit :=
  mkWorld {[live_subdomains_file target := Text ("old.example.com" +:+ nl)]}
          tt [] [].

(** The run of [find_subdomains] on [shell_ok], phase by phase. *)
Definition discovered : gset string :=
  {["a.example.com"; "b.example.com"; "example.com"]}.

Definition initial_files : list string :=
  [tool_output_file target "subfinder"; tool_output_file target "amass"].

Definition after_discovery : @World unit :=
  (initial_discovery shell_ok target (empty_world tt)).2.

Definition expanded : gset string := discovered ∪ {["x.a.example.com"]}.

Definition after_expansion : @World unit :=
  (recursive_expansion shell_ok target discovered after_discovery).2.

(** A world at the menu prompt: the user picks the screenshot step and
    takes the default file, which is not there, then leaves. *)
Definition at_menu : @World unit := mkWorld ∅ tt [" 2"; ""; "3"] [].

End Demo.

(** ** More concrete hosts *)

Module Hosts.

(** A host with none of the tools installed: the shell answers every
    command with exit code 127 and "not found". *)
Definition shell_nothing_installed (command : string)
    (fs : gmap string File) (x : unit)
  : Launch * gmap string File * unit :=
  (Completed "" "sh: 1: subfinder: not found" 127, fs, x).

(** A host with subfinder but without amass. *)
Definition shell_no_amass (command : string) (fs : gmap string File)
    (x : unit) : Launch * gmap string File * unit :=
  if decide (command = subfinder_command Demo.target) then
    (Completed "" "" 0,
     <[tool_output_file Demo.target "subfinder" :=
         Text ("a.example.com" +:+ nl)]> fs, x)
  else (Completed "" "sh: 1: amass: not found" 127, fs, x).

(** A host on which subfinder writes part of its output and then gives
    up with exit code 1, amass works, and everything else exits with
    code 1. *)
Definition shell_subfinder_crash (command : string)
    (fs : gmap string File) (x : unit)
  : Launch * gmap string File * unit :=
  if decide (command = subfinder_command Demo.target) then
    (Completed "" "timeout" 1,
     <[tool_output_file Demo.target "subfinder" :=
         Text ("partial.example.com" +:+ nl)]> fs, x)
  else if decide (command = amass_command Demo.target) then
    (Completed "" "" 0,
     <[tool_output_file Demo.target "amass" :=
         Text ("b.example.com" +:+ nl)]> fs, x)
  else (Completed "" "" 1, fs, x).

(** A world with the final file in place and one empty answer waiting
    on standard input. *)
Definition with_final_file : @World unit :=
  mkWorld {[live_subdomains_file Demo.target := Text ("a.example.com" +:+ nl)]}
          tt [EmptyString] [].

(** A host on which subfinder exits with code 0 and leaves an output
    file whose bytes do not decode; every other command exits with code
    1, saying nothing. *)
Definition shell_garbled_tool (command : string)
    (fs : gmap string File) (x : unit)
  : Launch * gmap string File * unit :=
  if decide (command = subfinder_command Demo.target) then
    (Completed "" "" 0,
     <[tool_output_file Demo.target "subfinder" := Undecodable]> fs, x)
  else (Completed "" "" 1, fs, x).

(** A host on which the probe exits with code 0 and leaves a final file
    whose bytes do not decode; every other command exits with code 1,
    saying nothing. *)
Definition shell_garbled_probe (command : string)
    (fs : gmap string File) (x : unit)
  : Launch * gmap string File * unit :=
  if decide (command = httpx_command Demo.target) then
    (Completed "" "" 0,
     <[live_subdomains_file Demo.target := Undecodable]> fs, x)
  else (Completed "" "" 1, fs, x).

(** A target domain with a "/" in it, and the world in which the user
    types a URL for the domain, picks discovery and then wants to
    leave. *)
Definition slash_target : string := "a/b".

Definition url_session : @World unit :=
  mkWorld ∅ tt ["http://example.com"; "1"; "3"] [].

End Hosts.

(** * Properties *)

(** What [run_command] hands back, and what it prints, for each way the
    launch can end; [run_command_eq] below proves the two agree. *)
Definition outcome_of (command error_message : string) (l : Launch)
  : (option string * string * Z) * list Msg :=
  match l with
  | Completed stdout stderr returncode =>
      if negb (returncode =? 0) && Py.contains "not found" (Py.lower stderr)
      then ((None, stderr, returncode), [MsgToolMissing error_message])
      else ((Some stdout, stderr, returncode), [])
  | Failed FileNotFoundError =>
      ((None, "FileNotFoundError", 127),
       [MsgCommandMissing (Py.first_word command)])
  | Failed (OtherException e) => ((None, e, 1), [MsgUnexpected e])
  | Failed EOFError => ((None, "", 1), [MsgUnexpected ""])
  end.

(** The commands launched, in order. *)
Definition commands_of (t : list Event) : list string :=
  omap (λ e, match e with EvRun c => Some c | _ => None end) t.

(** The paths the script itself wrote or removed, in order. *)
Definition touched_of (t : list Event) : list string :=
  omap (λ e, match e with
             | EvWrite p _ | EvRemove p => Some p
             | _ => None
             end) t.

(** The two commands one round of expansion launches against [sub]. *)
Definition expansion_commands (sub : string) : list string :=
  ["subfinder -d " +:+ sub; "amass enum -d " +:+ sub].

(** The members recursive expansion launches the tools against. *)
Definition expansion_targets (target_domain : string)
    (unique_subdomains : gset string) : list string :=
  filter (λ sub, sub ≠ target_domain) (elements unique_subdomains).

(** What one launch of an expansion round adds to the newly found set. *)
Definition contribution (command error_message : string) (l : Launch)
    (newly_found : gset string) : gset string :=
  let '(stdout, _, returncode) := (outcome_of command error_message l).1 in
  if (returncode =? 0) && Py.truthy stdout
  then add_stdout_lines newly_found (Py.splitlines (default "" stdout))
  else newly_found.

(** The success test of lines 52 and 114 on what a launch left behind. *)
Definition tool_ok (output_file : string) (l : Launch)
    (fs : gmap string File) : bool :=
  match l with
  | Completed _ _ returncode =>
      (returncode =? 0) && bool_decide (is_Some (fs !! output_file))
  | Failed _ => false
  end.

(** The error text [run_command] hands back for a launch. *)
Definition stderr_of (command error_message : string) (l : Launch) : string :=
  (outcome_of command error_message l).1.1.2.

(** The text at a path; empty when there is no file or no text. *)
Definition text_at (fs : gmap string File) (path : string) : string :=
  match fs !! path with
  | Some (Text text) => text
  | _ => ""
  end.

(** The lines the initial phase reads from a tool's output file: those of
    the file the tool left when the success test holds, none otherwise. *)
Definition lines_read (output_file : string) (l : Launch)
    (fs : gmap string File) : list string :=
  if tool_ok output_file l fs
  then Py.iter_lines (text_at fs output_file)
  else [].

(** The read that follows a passed success test (lines 54-56 and
    123-124) raises: the file is there and its bytes do not decode. *)
Definition unreadable (output_file : string) (l : Launch)
    (fs : gmap string File) : bool :=
  tool_ok output_file l fs
  && match fs !! output_file with
     | Some Undecodable => true
     | _ => false
     end.

(** How lines 114-135 end, by the probe's launch and what it left. *)
Definition probe_result (live : string) (l : Launch)
    (fs : gmap string File) : Res (option string) :=
  if unreadable live l fs then Raise UnicodeDecodeError
  else Ok (if tool_ok live l fs then Some live else None).

(** [sub] is a trimmed line of the text a tool left at [output_file],
    the tool having exited with code zero. *)
Definition line_of_output (output_file : string) (l : Launch)
    (fs : gmap string File) (sub : string) : Prop :=
  ∃ stdout stderr text line,
    l = Completed stdout stderr 0
    ∧ fs !! output_file = Some (Text text)
    ∧ line ∈ Py.iter_lines text
    ∧ sub = Py.strip line.

(** [sub] is a trimmed line of what a launch printed on its standard
    output, the launch having exited with code zero. *)
Definition line_of_stdout (l : Launch) (sub : string) : Prop :=
  ∃ stdout stderr line,
    l = Completed stdout stderr 0
    ∧ line ∈ Py.splitlines stdout
    ∧ sub = Py.strip line.

(** The early return of line 60: the success test failed and the error
    text handed back contains "not found". *)
Definition aborts (output_file command error_message : string) (l : Launch)
    (fs : gmap string File) : bool :=
  negb (tool_ok output_file l fs)
  && Py.contains "not found" (Py.lower (stderr_of command error_message l)).

(** A set of lines, trimmed and without repetition. *)
Definition trimmed (lines : list string) : gset string :=
  list_to_set (Py.strip <$> lines).

(** The world after the script read its input down to [rest] and did
    [events], the files and the outside left as they were. *)
Definition advance {Ext : Type} (w : @World Ext) (rest : list string)
    (events : list Event) : @World Ext :=
  mkWorld (files w) (ext w) rest (trace w ++ events).

(** The four lines of the menu. *)
Definition menu_banner : list Event :=
  [EvPrint MsgMenuTitle; EvPrint (MsgMenuItem 1); EvPrint (MsgMenuItem 2);
   EvPrint (MsgMenuItem 3)].

(** The file the screenshot step settles on for an answer to its prompt. *)
Definition chosen_input_file (target_domain answer : string) : string :=
  if decide (Py.strip answer = "") then target_domain +:+ "_subdomains.txt"
  else Py.strip answer.

(** The files written, with their text, in order. *)
Definition written_of (t : list Event) : list (string * string) :=
  omap (λ e, match e with EvWrite p c => Some (p, c) | _ => None end) t.

(** A text without a line feed or carriage return in it. *)
Fixpoint one_line (s : string) : bool :=
  match s with
  | EmptyString => true
  | String c s' =>
      negb (Ascii.eqb c Py.LF) && negb (Ascii.eqb c Py.CR) && one_line s'
  end.

(** A launch the expansion loop gets nothing from: it failed, or exited
    with a code other than zero, or printed nothing. *)
Definition fruitless (l : Launch) : Prop :=
  match l with
  | Completed stdout _ returncode => returncode ≠ 0 ∨ stdout = ""
  | Failed _ => True
  end.

(** The world in which the probe is launched: the full set has just
    been written to the temporary file. *)
Definition probe_world {Ext : Type} (target_domain : string)
    (unique_subdomains : gset string) (w : @World Ext) : @World Ext :=
  mkWorld (<[temp_subdomain_file target_domain :=
               Text (full_set_text unique_subdomains)]> (files w))
          (ext w) (stdin w)
          (trace w ++ [EvWrite (temp_subdomain_file target_domain)
                               (full_set_text unique_subdomains)]).

Section Frame.

Context {Ext : Type}.
Variable shell :
  string → gmap string File → Ext → Launch * gmap string File * Ext.

(** A property of the file system and the outside that every command
    keeps; between two worlds related by [via_shell] nothing but launched
    commands changed them. *)
Definition shell_closed (P : gmap string File → Ext → Prop) : Prop :=
  ∀ command fs x, P fs x → P (shell command fs x).1.2 (shell command fs x).2.

Definition via_shell (w w' : @World Ext) : Prop :=
  ∀ P, shell_closed P → P (files w) (ext w) → P (files w') (ext w').

(** [sub] is a trimmed line of the standard output of a launch of
    [command] that exited with code zero, in a state commands led to
    from [w]. *)
Definition captured_from (w : @World Ext) (command sub : string) : Prop :=
  ∃ w0, via_shell w w0
        ∧ line_of_stdout (shell command (files w0) (ext w0)).1.1 sub.

End Frame.

(** ** Facts about the pure parts *)

Example strip_example :
  Py.strip (" a.example.com  " +:+ nl) = "a.example.com"
  ∧ Py.strip ("   " +:+ nl) = "".
Proof. split; reflexivity. Qed.

Example splitlines_example :
  Py.splitlines ("a" +:+ nl +:+ nl +:+ "b" +:+ nl) = ["a"; ""; "b"]
  ∧ Py.splitlines "" = [] ∧ Py.splitlines nl = [""].
Proof. repeat split; reflexivity. Qed.

Example iter_lines_example :
  Py.iter_lines ("a" +:+ String Py.CR nl +:+ nl +:+ "b")
  = ["a" +:+ nl; nl; "b"].
Proof. reflexivity. Qed.

Example sorted_example :
  Py.sorted ["b.x"; ""; "a.x"; "B"] = [""; "B"; "a.x"; "b.x"].
Proof. reflexivity. Qed.

Example not_found_example :
  Py.contains "not found" (Py.lower "sh: 1: subfinder: Not Found") = true
  ∧ Py.contains "not found" (Py.lower "FileNotFoundError") = false
  ∧ Py.first_word "cat a.txt | httpx -silent" = "cat".
Proof. repeat split; reflexivity. Qed.

Lemma commands_of_app t1 t2 :
  commands_of (t1 ++ t2) = commands_of t1 ++ commands_of t2.
Proof. apply omap_app. Qed.

Lemma touched_of_app t1 t2 :
  touched_of (t1 ++ t2) = touched_of t1 ++ touched_of t2.
Proof. apply omap_app. Qed.

Lemma commands_of_prints msgs : commands_of (EvPrint <$> msgs) = [].
Proof. induction msgs; [done|]. by cbn. Qed.

Lemma touched_of_prints msgs : touched_of (EvPrint <$> msgs) = [].
Proof. induction msgs; [done|]. by cbn. Qed.

(** [add_file_lines] is a union with the trimmed lines. *)
Lemma add_file_lines_eq unique content :
  add_file_lines unique content = unique ∪ trimmed (Py.iter_lines content).
Proof.
  unfold add_file_lines, trimmed.
  generalize (Py.iter_lines content) as ls. intros ls. revert unique.
  induction ls as [|l ls IH]; intros unique; cbn.
  - set_solver.
  - rewrite IH. set_solver.
Qed.

(** The three artifact paths are pairwise unlike the final file's. *)
Lemma live_not_tool_output target_domain tool_name :
  tool_name = "subfinder" ∨ tool_name = "amass" →
  live_subdomains_file target_domain ≠ tool_output_file target_domain tool_name.
Proof.
  unfold live_subdomains_file, tool_output_file.
  by intros [-> | ->] ?%(inj (String.app _)).
Qed.

Lemma live_not_temp target_domain :
  live_subdomains_file target_domain ≠ temp_subdomain_file target_domain.
Proof.
  unfold live_subdomains_file, temp_subdomain_file.
  by intros ?%(inj (String.app _)).
Qed.

Lemma live_not_initial target_domain :
  live_subdomains_file target_domain
  ∉ [tool_output_file target_domain "subfinder";
     tool_output_file target_domain "amass"].
Proof.
  intros Hin. apply elem_of_cons in Hin as [Heq|Hin].
  { by apply live_not_tool_output in Heq; auto. }
  apply elem_of_cons in Hin as [Heq|Hin].
  { by apply live_not_tool_output in Heq; auto. }
  by apply elem_of_nil in Hin.
Qed.


Lemma lookup_foldl_delete (fs : gmap string File) paths p :
  foldl (λ fs p, delete p fs) fs paths !! p =
  if decide (p ∈ paths) then None else fs !! p.
Proof.
  revert fs. induction paths as [|f paths IH]; intros fs; cbn [foldl].
  - by rewrite decide_False by set_solver.
  - rewrite IH. destruct (decide (p = f)) as [->|Hne].
    + rewrite lookup_delete_eq. rewrite (decide_True (P := f ∈ f :: paths))
        by set_solver. by destruct (decide _).
    + rewrite lookup_delete_ne by done.
      destruct (decide (p ∈ paths)).
      * by rewrite decide_True by set_solver.
      * by rewrite decide_False by set_solver.
Qed.

(** A completed launch with a code other than zero and "not found" in
    its error text is such an abort. *)
Lemma aborts_on_not_found f command label stdout stderr returncode fs :
  returncode ≠ 0 →
  Py.contains "not found" (Py.lower stderr) →
  aborts f command label (Completed stdout stderr returncode) fs.
Proof.
  intros Hrc Hnf. unfold aborts, tool_ok, stderr_of, outcome_of.
  apply Z.eqb_neq in Hrc. rewrite Hrc. cbn [negb andb].
  destruct (Py.contains "not found" (Py.lower stderr)) eqn:E; [|done].
  cbn [fst snd]. by rewrite E.
Qed.

(** The members come out of [sorted] in order, each once. *)
Lemma sorted_members (unique : gset string) :
  Sorted String.le (Py.sorted (elements unique))
  ∧ NoDup (Py.sorted (elements unique))
  ∧ ∀ sub, sub ∈ Py.sorted (elements unique) ↔ sub ∈ unique.
Proof.
  unfold Py.sorted. split; [apply Sorted_merge_sort; apply _|]. split.
  - rewrite merge_sort_Permutation. apply NoDup_elements.
  - intros sub. by rewrite merge_sort_Permutation, elem_of_elements.
Qed.

(** Read back line by line, the full-set text is its members in sorted
    order, one to a line; the line of an empty member is blank. *)
Lemma iter_lines_line s rest :
  one_line s →
  Py.iter_lines (s +:+ nl +:+ rest) = (s +:+ nl) :: Py.iter_lines rest.
Proof.
  induction s as [|c s IH]; intros Hs; [done|].
  cbn [one_line] in Hs.
  apply andb_prop_elim in Hs as [[Hlf Hcr]%andb_prop_elim Hs].
  apply negb_prop_elim, Is_true_false in Hlf, Hcr.
  change (String c s +:+ nl +:+ rest) with (String c (s +:+ nl +:+ rest)).
  cbn [Py.iter_lines]. rewrite Hlf, Hcr, IH by done. done.
Qed.

Lemma full_set_text_lines (unique : gset string) :
  (∀ sub, sub ∈ unique → one_line sub) →
  Py.iter_lines (full_set_text unique)
  = (λ sub, sub +:+ nl) <$> Py.sorted (elements unique).
Proof.
  intros Hone. unfold full_set_text.
  assert (Hall : ∀ sub, sub ∈ Py.sorted (elements unique) → one_line sub).
  { intros sub Hsub. apply Hone. by apply sorted_members. }
  induction (Py.sorted (elements unique)) as [|sub l IH]; [done|].
  cbn [foldr fmap list_fmap].
  rewrite iter_lines_line by (apply Hall; set_solver).
  f_equal. apply IH. intros sub' Hsub'. apply Hall. set_solver.
Qed.

Lemma expansion_targets_spec target_domain (unique : gset string) :
  NoDup (expansion_targets target_domain unique)
  ∧ (∀ sub, sub ∈ expansion_targets target_domain unique
            ↔ sub ∈ unique ∧ sub ≠ target_domain).
Proof.
  unfold expansion_targets. split.
  - apply NoDup_filter, NoDup_elements.
  - intros sub. rewrite list_elem_of_filter, elem_of_elements. naive_solver.
Qed.

Lemma fruitless_contribution command label l newly_found :
  fruitless l → contribution command label l newly_found = newly_found.
Proof.
  unfold fruitless, contribution, outcome_of.
  destruct l as [out err rc|[ |msg| ]]; [|done..].
  intros [Hrc | ->].
  - apply Z.eqb_neq in Hrc.
    destruct (negb _ && _); cbn [fst]; by rewrite Hrc.
  - destruct (negb _ && _); cbn [fst Py.truthy]; by rewrite andb_false_r.
Qed.

Section Facts.

Context {Ext : Type}.
Variable shell :
  string → gmap string File → Ext → Launch * gmap string File * Ext.

Local Abbreviation World := (@World Ext).

Lemma run_command_eq command error_message (w : World) :
  run_command shell command error_message w =
  let '(l, fs, x) := shell command (files w) (ext w) in
  let '(r, msgs) := outcome_of command error_message l in
  (Ok r, mkWorld fs x (stdin w)
           ((trace w ++ [EvRun command]) ++ (EvPrint <$> msgs))).
Proof.
  unfold run_command, try_except, bind, subprocess_run, outcome_of.
  destruct (shell command (files w) (ext w)) as [[l fs] x].
  destruct l as [out err rc|[ |msg| ]]; cbn.
  - destruct (negb (rc =? 0) && Py.contains "not found" (Py.lower err)); cbn.
    + reflexivity.
    + by rewrite app_nil_r.
  - reflexivity.
  - reflexivity.
  - reflexivity.
Qed.

Lemma via_shell_refl w : via_shell shell w w.
Proof. by intros P _ H. Qed.

Lemma via_shell_trans w1 w2 w3 :
  via_shell shell w1 w2 → via_shell shell w2 w3 → via_shell shell w1 w3.
Proof. intros H12 H23 P HP H. by apply H23, H12. Qed.

Lemma via_shell_same w w' :
  files w' = files w → ext w' = ext w → via_shell shell w w'.
Proof. intros Hf Hx P _ H. by rewrite Hf, Hx. Qed.

Lemma via_shell_step command w l fs x i t :
  shell command (files w) (ext w) = (l, fs, x) →
  via_shell shell w (mkWorld fs x i t).
Proof.
  intros Hs P HP H. specialize (HP command _ _ H).
  by rewrite Hs in HP.
Qed.

Lemma via_shell_launch command w w' l :
  shell command (files w) (ext w) = (l, files w', ext w') →
  via_shell shell w w'.
Proof.
  intros Hs. eapply via_shell_trans.
  - by eapply (via_shell_step _ _ _ _ _ [] []).
  - by apply via_shell_same.
Qed.

(** [absorb] never raises: the guard excludes the missing output. *)
Lemma absorb_eq stdout returncode newly_found (w : World) :
  absorb stdout returncode newly_found w =
  (Ok (if (returncode =? 0) && Py.truthy stdout
       then add_stdout_lines newly_found (Py.splitlines (default "" stdout))
       else newly_found), w).
Proof.
  unfold absorb.
  destruct (returncode =? 0); [|done].
  destruct stdout as [[|c out]|]; done.
Qed.

(** One target of the expansion loop, in terms of the two launches. *)
Lemma recursive_loop_cons target_domain total i sub subs newly_found
    (w : World) :
  sub ≠ target_domain →
  recursive_loop shell target_domain total i (sub :: subs) newly_found w =
  let c1 := "subfinder -d " +:+ sub in
  let c2 := "amass enum -d " +:+ sub in
  let '(l1, fs1, x1) := shell c1 (files w) (ext w) in
  let '(l2, fs2, x2) := shell c2 fs1 x1 in
  recursive_loop shell target_domain total (S i) subs
    (contribution c2 "amass" l2 (contribution c1 "subfinder" l1 newly_found))
    (mkWorld fs2 x2 (stdin w)
       (((((trace w ++ [EvPrint (MsgProgress sub (S i) total)])
           ++ [EvRun c1]) ++ (EvPrint <$> (outcome_of c1 "subfinder" l1).2))
          ++ [EvRun c2]) ++ (EvPrint <$> (outcome_of c2 "amass" l2).2)
        ++ [EvSleep])).
Proof.
  intros Hne. cbn [recursive_loop]. rewrite decide_False by done.
  unfold bind at 1. cbn [print log].
  unfold bind at 1. rewrite run_command_eq. cbn [files ext stdin trace].
  destruct (shell _ (files w) (ext w)) as [[l1 fs1] x1].
  unfold contribution at 2.
  destruct (outcome_of _ "subfinder" l1) as [[[o1 e1] r1] m1].
  unfold bind at 1. rewrite absorb_eq.
  unfold bind at 1. rewrite run_command_eq. cbn [files ext stdin trace].
  destruct (shell _ fs1 x1) as [[l2 fs2] x2].
  unfold contribution.
  destruct (outcome_of _ "amass" l2) as [[[o2 e2] r2] m2].
  unfold bind at 1. rewrite absorb_eq.
  unfold bind at 1. cbn [sleep log files ext stdin trace fst snd].
  by rewrite <-!(assoc_L (++)).
Qed.

Lemma recursive_loop_skip target_domain total i subs newly_found (w : World) :
  recursive_loop shell target_domain total i (target_domain :: subs)
    newly_found w =
  recursive_loop shell target_domain total (S i) subs newly_found w.
Proof. cbn [recursive_loop]. by rewrite decide_True. Qed.

(** The expansion loop always runs to its end: it launches the two
    commands of every member other than the target domain, in order,
    reads no input and touches no file itself. *)
Lemma recursive_loop_runs target_domain total subs :
  ∀ i newly_found (w : World),
  ∃ newly_found' w',
    recursive_loop shell target_domain total i subs newly_found w
      = (Ok newly_found', w')
    ∧ stdin w' = stdin w
    ∧ commands_of (trace w') =
        commands_of (trace w)
        ++ (filter (λ sub, sub ≠ target_domain) subs ≫= expansion_commands)
    ∧ touched_of (trace w') = touched_of (trace w)
    ∧ via_shell shell w w'.
Proof.
  induction subs as [|sub subs IH]; intros i newly_found w.
  - exists newly_found, w. cbn. rewrite app_nil_r.
    auto using via_shell_refl.
  - destruct (decide (sub = target_domain)) as [->|Hne].
    + rewrite recursive_loop_skip, filter_cons_False by naive_solver.
      apply IH.
    + rewrite recursive_loop_cons by done. cbn zeta.
      destruct (shell _ (files w) (ext w)) as [[l1 fs1] x1] eqn:H1.
      destruct (shell _ fs1 x1) as [[l2 fs2] x2] eqn:H2.
      edestruct IH as (n' & w' & -> & Hin & Hc & Ht & Hv).
      exists n', w'. split; [done|]. rewrite Hin, Hc, Ht.
      cbn [stdin trace]. rewrite filter_cons_True by done.
      rewrite !commands_of_app, !touched_of_app,
        !commands_of_prints, !touched_of_prints.
      cbn. rewrite !app_nil_r. repeat split; [by rewrite <-!(assoc_L (++))|].
      eapply via_shell_trans; [|exact Hv].
      eapply via_shell_trans; [by eapply (via_shell_step _ w _ _ _ [] [])|].
      by eapply via_shell_step.
Qed.

Lemma recursive_expansion_runs target_domain unique_subdomains (w : World) :
  ∃ newly_found w',
    recursive_expansion shell target_domain unique_subdomains w
      = (Ok (unique_subdomains ∪ newly_found), w')
    ∧ stdin w' = stdin w
    ∧ commands_of (trace w') =
        commands_of (trace w)
        ++ (expansion_targets target_domain unique_subdomains
              ≫= expansion_commands)
    ∧ touched_of (trace w') = touched_of (trace w)
    ∧ via_shell shell w w'.
Proof.
  unfold recursive_expansion, expansion_targets.
  unfold bind at 1. cbn [print log].
  unfold bind at 1.
  edestruct (recursive_loop_runs target_domain
               (length (elements unique_subdomains))
               (elements unique_subdomains) 0%nat ∅)
    as (n' & w' & -> & Hin & Hc & Ht & Hv).
  eexists n', _. split; [reflexivity|].
  cbn [stdin trace files ext]. rewrite Hin.
  rewrite !commands_of_app, !touched_of_app, Hc, Ht.
  cbn [stdin trace files ext]. rewrite !commands_of_app, !touched_of_app.
  cbn. rewrite !app_nil_r. repeat split.
  intros P HP H. apply (Hv P HP H).
Qed.

(** One tool of the initial loop, in terms of its launch. *)
Lemma initial_loop_cons target_domain tool_name command todo unique fl
    (w : World) :
  initial_loop shell target_domain ((tool_name, command) :: todo) unique fl w =
  let label := "Tool '" +:+ tool_name +:+ "'" in
  let f := tool_output_file target_domain tool_name in
  let '(l, fs, x) := shell command (files w) (ext w) in
  let t := (trace w ++ [EvPrint (MsgRunningTool tool_name); EvRun command])
           ++ (EvPrint <$> (outcome_of command label l).2) in
  if tool_ok f l fs then
    let w' := mkWorld fs x (stdin w)
                (t ++ [EvPrint (MsgToolCompleted tool_name f)]) in
    if unreadable f l fs then (Raise UnicodeDecodeError, w')
    else initial_loop shell target_domain todo
           (unique ∪ trimmed (lines_read f l fs)) (fl ++ [f]) w'
  else
    let w' := mkWorld fs x (stdin w)
                (t ++ [EvPrint (MsgToolFailed tool_name
                                  (Py.strip (stderr_of command label l)))]) in
    if Py.contains "not found" (Py.lower (stderr_of command label l))
    then (Ok None, w')
    else initial_loop shell target_domain todo unique (fl ++ [f]) w'.
Proof.
  cbn [initial_loop]. cbn zeta.
  unfold bind at 1. cbn [print log].
  unfold bind at 1. rewrite run_command_eq. cbn [files ext stdin trace].
  destruct (shell command (files w) (ext w)) as [[l fs] x].
  unfold lines_read, stderr_of, unreadable, text_at.
  assert (Hok : ∀ o e r m,
            outcome_of command ("Tool '" +:+ tool_name +:+ "'") l = (o, e, r, m) →
            (r =? 0) && bool_decide (is_Some (fs !! tool_output_file target_domain tool_name))
            = tool_ok (tool_output_file target_domain tool_name) l fs).
  { intros o e r m Ho. unfold outcome_of in Ho.
    destruct l as [out err rc|[ |msg| ]]; cbn.
    - destruct (negb _ && _); by simplify_eq.
    - by simplify_eq.
    - by simplify_eq.
    - by simplify_eq. }
  destruct (outcome_of command _ l) as [[[o e] r] m] eqn:Ho.
  specialize (Hok _ _ _ _ eq_refl). rewrite <-Hok. clear Hok.
  cbn [fst snd].
  unfold bind at 1. unfold zero_and_exists.
  rewrite <-!(assoc_L (++)). cbn [app].
  destruct (r =? 0); cbn [andb path_exists files ret].
  - destruct (bool_decide _) eqn:Hex.
    + unfold bind at 1. cbn [print log files ext stdin trace].
      unfold bind at 1. unfold read_file. cbn [files].
      apply bool_decide_eq_true in Hex as [c Hc]. rewrite Hc.
      destruct c as [text|]; cbn [andb].
      * rewrite add_file_lines_eq. by rewrite <-!(assoc_L (++)).
      * by rewrite <-!(assoc_L (++)).
    + unfold bind at 1. cbn [print log files ext stdin trace].
      rewrite <-!(assoc_L (++)). cbn [app].
      by destruct (Py.contains _ _).
  - unfold bind at 1. cbn [print log files ext stdin trace].
    rewrite <-!(assoc_L (++)). cbn [app].
    by destruct (Py.contains _ _).
Qed.

(** Initial discovery in terms of the two launches: it stops after the
    first tool or after the second, with no result or on a file that
    does not decode, or hands on the union; it reads no input and
    touches no file itself. *)
Lemma initial_discovery_cases target_domain (w : World) :
  let c1 := subfinder_command target_domain in
  let c2 := amass_command target_domain in
  let f1 := tool_output_file target_domain "subfinder" in
  let f2 := tool_output_file target_domain "amass" in
  let '(l1, fs1, x1) := shell c1 (files w) (ext w) in
  let '(l2, fs2, x2) := shell c2 fs1 x1 in
  ∃ w',
    (if aborts f1 c1 "Tool 'subfinder'" l1 fs1 then
       initial_discovery shell target_domain w = (Ok None, w')
       ∧ files w' = fs1 ∧ ext w' = x1
       ∧ commands_of (trace w') = commands_of (trace w) ++ [c1]
     else if unreadable f1 l1 fs1 then
       initial_discovery shell target_domain w = (Raise UnicodeDecodeError, w')
       ∧ files w' = fs1 ∧ ext w' = x1
       ∧ commands_of (trace w') = commands_of (trace w) ++ [c1]
     else if aborts f2 c2 "Tool 'amass'" l2 fs2 then
       initial_discovery shell target_domain w = (Ok None, w')
       ∧ files w' = fs2 ∧ ext w' = x2
       ∧ commands_of (trace w') = commands_of (trace w) ++ [c1; c2]
     else if unreadable f2 l2 fs2 then
       initial_discovery shell target_domain w = (Raise UnicodeDecodeError, w')
       ∧ files w' = fs2 ∧ ext w' = x2
       ∧ commands_of (trace w') = commands_of (trace w) ++ [c1; c2]
     else
       initial_discovery shell target_domain w =
         (Ok (Some ({[target_domain]}
                    ∪ (trimmed (lines_read f1 l1 fs1)
                       ∪ trimmed (lines_read f2 l2 fs2)),
                    [f1; f2])), w')
       ∧ files w' = fs2 ∧ ext w' = x2
       ∧ commands_of (trace w') = commands_of (trace w) ++ [c1; c2])
    ∧ stdin w' = stdin w
    ∧ touched_of (trace w') = touched_of (trace w).
Proof.
  cbn zeta.
  destruct (shell _ (files w) (ext w)) as [[l1 fs1] x1] eqn:H1.
  destruct (shell _ fs1 x1) as [[l2 fs2] x2] eqn:H2.
  remember (initial_discovery shell target_domain w) as res eqn:Hres.
  unfold initial_discovery in Hres.
  unfold bind at 1 in Hres. cbn [print log] in Hres.
  unfold bind at 1 in Hres. cbn [print log files ext stdin trace] in Hres.
  unfold bind at 1 in Hres. unfold tools in Hres.
  rewrite initial_loop_cons in Hres. cbn [files ext stdin trace] in Hres.
  rewrite H1 in Hres. cbn zeta in Hres. unfold aborts.
  change ("Tool '" +:+ "subfinder" +:+ "'") with "Tool 'subfinder'" in Hres.
  set (f1 := tool_output_file target_domain "subfinder") in *.
  set (f2 := tool_output_file target_domain "amass") in *.
  assert (Hl1 : tool_ok f1 l1 fs1 = false → lines_read f1 l1 fs1 = []).
  { unfold lines_read. by intros ->. }
  assert (Hl2 : tool_ok f2 l2 fs2 = false → lines_read f2 l2 fs2 = []).
  { unfold lines_read. by intros ->. }
  assert (Hu1 : tool_ok f1 l1 fs1 = false → unreadable f1 l1 fs1 = false).
  { unfold unreadable. by intros ->. }
  assert (Hu2 : tool_ok f2 l2 fs2 = false → unreadable f2 l2 fs2 = false).
  { unfold unreadable. by intros ->. }
  destruct (tool_ok f1 l1 fs1) eqn:Hok1; cbn [negb andb].
  1: destruct (unreadable f1 l1 fs1) eqn:Hur1.
  3: rewrite (Hu1 eq_refl);
     destruct (Py.contains _ (Py.lower (stderr_of _ "Tool 'subfinder'" l1))).
  1,3: exists res.2; subst res; unfold ret; cbn [snd];
       repeat split; cbn [files ext stdin trace];
       rewrite ?commands_of_app, ?touched_of_app,
         ?commands_of_prints, ?touched_of_prints; cbn;
       by rewrite !app_nil_r.
  all: rewrite initial_loop_cons in Hres; cbn [files ext stdin trace] in Hres;
    rewrite H2 in Hres; cbn zeta in Hres; fold f2 in Hres;
    change ("Tool '" +:+ "amass" +:+ "'") with "Tool 'amass'" in Hres.
  all: destruct (tool_ok f2 l2 fs2) eqn:Hok2; cbn [negb andb].
  1,3: destruct (unreadable f2 l2 fs2) eqn:Hur2.
  5,6: rewrite (Hu2 eq_refl);
       destruct (Py.contains _ (Py.lower (stderr_of _ "Tool 'amass'" l2))).
  all: cbn [initial_loop ret] in Hres.
  all: try (unfold bind at 1 in Hres; cbn [print log ret] in Hres).
  all: exists res.2; subst res; unfold ret; cbn [snd].
  all: repeat split; cbn [files ext stdin trace].
  all: try (rewrite !commands_of_app, !commands_of_prints; cbn;
            by rewrite !app_nil_r, <-?(assoc_L (++))).
  all: try (rewrite !touched_of_app, !touched_of_prints; cbn;
            by rewrite !app_nil_r).
  all: try rewrite (Hl1 eq_refl); try rewrite (Hl2 eq_refl).
  all: do 3 f_equal; f_equal.
  all: unfold trimmed; cbn [fmap list_fmap list_to_set]; set_solver.
Qed.

(** What a handed-on set tells about the two launches. *)
Lemma initial_discovery_some target_domain (w : World) unique fl w1 :
  initial_discovery shell target_domain w = (Ok (Some (unique, fl)), w1) →
  let c1 := subfinder_command target_domain in
  let c2 := amass_command target_domain in
  let f1 := tool_output_file target_domain "subfinder" in
  let f2 := tool_output_file target_domain "amass" in
  let '(l1, fs1, x1) := shell c1 (files w) (ext w) in
  let '(l2, fs2, x2) := shell c2 fs1 x1 in
  unique = {[target_domain]}
           ∪ (trimmed (lines_read f1 l1 fs1) ∪ trimmed (lines_read f2 l2 fs2))
  ∧ fl = [f1; f2]
  ∧ files w1 = fs2 ∧ ext w1 = x2 ∧ stdin w1 = stdin w
  ∧ commands_of (trace w1) = commands_of (trace w) ++ [c1; c2]
  ∧ touched_of (trace w1) = touched_of (trace w)
  ∧ unreadable f1 l1 fs1 = false ∧ unreadable f2 l2 fs2 = false.
Proof.
  intros Hd. cbn zeta.
  pose proof (initial_discovery_cases target_domain w) as Hin.
  cbn zeta in Hin.
  destruct (shell _ (files w) (ext w)) as [[l1 fs1] x1].
  destruct (shell _ fs1 x1) as [[l2 fs2] x2].
  destruct Hin as (w' & Hin & Hi & Ht).
  destruct (aborts _ _ "Tool 'subfinder'" l1 fs1);
    [|destruct (unreadable _ l1 fs1);
      [|destruct (aborts _ _ "Tool 'amass'" l2 fs2);
        [|destruct (unreadable _ l2 fs2)]]];
    destruct Hin as (Hin & Hf & Hx & Hc); rewrite Hin in Hd; [done..|].
  injection Hd as <- <- <-. done.
Qed.

Lemma remove_if_exists_eq path (w : World) :
  remove_if_exists path w =
  (Ok tt, mkWorld (delete path (files w)) (ext w) (stdin w)
            (trace w ++ if bool_decide (is_Some (files w !! path))
                        then [EvRemove path] else [])).
Proof.
  unfold remove_if_exists, bind, path_exists, remove.
  destruct (files w !! path) as [c|] eqn:Hp.
  - rewrite !bool_decide_true by done. by rewrite Hp.
  - rewrite !bool_decide_false by (by intros [? ?]).
    rewrite delete_id, app_nil_r by done. by destruct w.
Qed.

(** The clean-up loop never raises; afterwards none of its paths is
    there and every other path is as before. *)
Lemma cleanup_runs paths :
  ∀ w : World, ∃ w',
    cleanup paths w = (Ok tt, w')
    ∧ files w' = foldl (λ fs p, delete p fs) (files w) paths
    ∧ ext w' = ext w ∧ stdin w' = stdin w
    ∧ commands_of (trace w') = commands_of (trace w)
    ∧ (∀ p, p ∈ touched_of (trace w') → p ∈ touched_of (trace w) ∨ p ∈ paths).
Proof.
  induction paths as [|f paths IH]; intros w.
  - exists w. cbn. naive_solver.
  - cbn [cleanup]. unfold bind. rewrite remove_if_exists_eq.
    edestruct IH as (w' & -> & Hf & Hx & Hi & Hc & Ht).
    exists w'. rewrite Hf, Hx, Hi, Hc. cbn [files ext stdin trace foldl].
    repeat split.
    + rewrite commands_of_app. destruct (bool_decide _); cbn;
        by rewrite app_nil_r.
    + intros p [Hp|Hp]%Ht; [|set_solver]. cbn [trace] in Hp.
      rewrite touched_of_app in Hp. destruct (bool_decide _); cbn in Hp;
        set_solver.
Qed.

(** The live filter in terms of the probe's launch: the result follows
    the success test, but for a final file that does not decode, on
    which the count of line 124 raises; the intermediate files are
    removed in every case and nothing else is touched. *)
Lemma live_filter_cases target_domain fl (w : World) :
  live_subdomains_file target_domain ∉ fl →
  let live := live_subdomains_file target_domain in
  let '(l, fs, x) := shell (httpx_command target_domain) (files w) (ext w) in
  ∃ w',
    live_filter shell target_domain fl w = (probe_result live l fs, w')
    ∧ files w' = delete (temp_subdomain_file target_domain)
                   (foldl (λ fs p, delete p fs) fs fl)
    ∧ ext w' = x ∧ stdin w' = stdin w
    ∧ commands_of (trace w') =
        commands_of (trace w) ++ [httpx_command target_domain]
    ∧ (∀ p, p ∈ touched_of (trace w') →
            p ∈ touched_of (trace w) ∨ p ∈ fl
            ∨ p = temp_subdomain_file target_domain).
Proof.
  intros Hfl. cbn zeta.
  destruct (shell _ (files w) (ext w)) as [[l fs] x] eqn:Hs.
  remember (live_filter shell target_domain fl w) as res eqn:Hres.
  unfold live_filter in Hres.
  unfold bind at 1 in Hres. cbn [print log] in Hres.
  unfold bind at 1 in Hres. rewrite run_command_eq in Hres.
  cbn [files ext stdin trace] in Hres. rewrite Hs in Hres.
  set (live := live_subdomains_file target_domain) in *.
  unfold probe_result, unreadable.
  assert (Hok : ∀ o e r m,
            outcome_of (httpx_command target_domain) "httpx-toolkit" l
              = (o, e, r, m) →
            (r =? 0) && bool_decide (is_Some (fs !! live)) = tool_ok live l fs).
  { intros o e r m Ho. unfold outcome_of in Ho.
    destruct l as [out err rc|[ |msg| ]]; cbn.
    - destruct (negb _ && _); by simplify_eq.
    - by simplify_eq.
    - by simplify_eq.
    - by simplify_eq. }
  destruct (outcome_of _ "httpx-toolkit" l) as [[[o e] r] m] eqn:Ho.
  specialize (Hok _ _ _ _ eq_refl). rewrite <-Hok. clear Hok.
  unfold bind at 1 in Hres. unfold zero_and_exists in Hres.
  set (t0 := _ ++ (EvPrint <$> m)) in Hres.
  assert (Ht0c : commands_of t0 =
                 commands_of (trace w) ++ [httpx_command target_domain]).
  { unfold t0. rewrite !commands_of_app, commands_of_prints. cbn.
    by rewrite !app_nil_r. }
  assert (Ht0t : touched_of t0 = touched_of (trace w)).
  { unfold t0. rewrite !touched_of_app, touched_of_prints. cbn.
    by rewrite !app_nil_r. }
  assert (Hgo : ∀ w1 : World,
            files w1 = fs → ext w1 = x → stdin w1 = stdin w →
            commands_of (trace w1) = commands_of t0 →
            touched_of (trace w1) = touched_of t0 →
            ∃ w2, bind (cleanup fl)
                    (λ _, remove_if_exists (temp_subdomain_file target_domain))
                    w1 = (Ok tt, w2)
              ∧ files w2 = delete (temp_subdomain_file target_domain)
                             (foldl (λ fs p, delete p fs) fs fl)
              ∧ ext w2 = x ∧ stdin w2 = stdin w
              ∧ commands_of (trace w2) =
                  commands_of (trace w) ++ [httpx_command target_domain]
              ∧ (∀ p, p ∈ touched_of (trace w2) →
                      p ∈ touched_of (trace w) ∨ p ∈ fl
                      ∨ p = temp_subdomain_file target_domain)).
  { intros w1 Hf Hx Hi Hc Ht. unfold bind.
    destruct (cleanup_runs fl w1) as (w2 & -> & Hf2 & Hx2 & Hi2 & Hc2 & Ht2).
    rewrite remove_if_exists_eq. eexists. split; [reflexivity|].
    cbn [files ext stdin trace]. rewrite Hf2, Hx2, Hi2, Hf, Hx, Hi.
    repeat split.
    - rewrite commands_of_app, Hc2, Hc, Ht0c.
      destruct (bool_decide _); cbn; by rewrite app_nil_r.
    - intros p. rewrite touched_of_app. intros [Hp|Hp]%elem_of_app.
      + apply Ht2 in Hp as [Hp|Hp]; [|by auto].
        rewrite Ht, Ht0t in Hp. by auto.
      + destruct (bool_decide _); cbn in Hp; set_solver. }
  destruct ((r =? 0) && bool_decide (is_Some (fs !! live))) eqn:Htest.
  - assert (Hex : is_Some (fs !! live)).
    { apply andb_true_iff in Htest as [_ Hb]. by apply bool_decide_eq_true in Hb. }
    apply andb_true_iff in Htest as [Hr _]. rewrite Hr in Hres.
    cbn [path_exists files] in Hres.
    rewrite bool_decide_true in Hres by done.
    unfold bind at 1 in Hres. cbn [print log files ext stdin trace] in Hres.
    edestruct (Hgo (mkWorld fs x (stdin w) (t0 ++ [EvPrint (MsgLiveSaved live)])))
      as (w2 & Hrun & Hf2 & Hx2 & Hi2 & Hc2 & Ht2); cbn [files ext stdin trace];
      try done.
    { rewrite commands_of_app. cbn. by rewrite app_nil_r. }
    { rewrite touched_of_app. cbn. by rewrite app_nil_r. }
    unfold bind at 1 in Hres. unfold bind at 1 in Hrun.
    destruct (cleanup fl _) as [[[]|ex] w1'] eqn:Hcl; [|done].
    unfold bind at 1 in Hres. rewrite Hrun in Hres.
    unfold bind at 1 in Hres. unfold read_file in Hres.
    assert (Hlive : files w2 !! live = fs !! live).
    { rewrite Hf2, lookup_delete_ne by (symmetry; apply live_not_temp).
      rewrite lookup_foldl_delete. by rewrite decide_False. }
    rewrite Hlive in Hres. destruct Hex as [c Hc]. rewrite Hc in Hres.
    rewrite Hc. destruct c as [text|]; cbn [andb].
    2: { exists w2. by subst res. }
    unfold bind at 1 in Hres. cbn [print log ret] in Hres.
    exists res.2. subst res. unfold ret. cbn [snd files ext stdin trace].
    repeat split; try done.
    + rewrite commands_of_app, Hc2. cbn. by rewrite app_nil_r.
    + intros p. rewrite touched_of_app. cbn. rewrite app_nil_r. apply Ht2.
  - assert (Hres' : res =
        bind (print (MsgProbeFailed (Py.strip e)))
          (λ _, bind (cleanup fl)
             (λ _, bind (remove_if_exists (temp_subdomain_file target_domain))
                (λ _, ret None)))
          (mkWorld fs x (stdin w) t0)).
    { rewrite Hres. apply andb_false_iff in Htest as [Hr | Hb].
      - by rewrite Hr.
      - destruct (r =? 0); [|done]. cbn [path_exists files]. by rewrite Hb. }
    clear Hres. unfold bind at 1 in Hres'.
    cbn [print log files ext stdin trace] in Hres'.
    edestruct (Hgo (mkWorld fs x (stdin w) (t0 ++ [EvPrint (MsgProbeFailed (Py.strip e))])))
      as (w2 & Hrun & Hf2 & Hx2 & Hi2 & Hc2 & Ht2); cbn [files ext stdin trace];
      try done.
    { rewrite commands_of_app. cbn. by rewrite app_nil_r. }
    { rewrite touched_of_app. cbn. by rewrite app_nil_r. }
    unfold bind at 1 in Hres'. unfold bind at 1 in Hrun.
    destruct (cleanup fl _) as [[[]|ex] w1'] eqn:Hcl; [|done].
    unfold bind at 1 in Hres'. rewrite Hrun in Hres'.
    exists w2. subst res. by unfold ret.
Qed.

(** The screenshot step on a missing input file. *)
Lemma screenshot_missing target_domain (w : World) answer rest :
  stdin w = answer :: rest →
  files w !! chosen_input_file target_domain answer = None →
  screenshot_subdomains shell target_domain w =
  (Ok tt,
   advance w rest
     [EvInput (PromptScreenshotFile (target_domain +:+ "_subdomains.txt")) answer;
      EvPrint (MsgInputFileMissing (chosen_input_file target_domain answer))]).
Proof.
  intros Hin Hmiss. unfold screenshot_subdomains, chosen_input_file in *.
  unfold bind at 1. unfold input. rewrite Hin.
  unfold bind at 1. unfold path_exists. cbn [files].
  rewrite bool_decide_false by (rewrite Hmiss; by intros [? ?]).
  cbn [negb]. unfold print, log, advance. cbn [files ext stdin trace].
  by rewrite <-(assoc_L (++)).
Qed.

(** The screenshot step reads at most its one answer. *)
Lemma screenshot_stdin target_domain (w : World) :
  (length (stdin (screenshot_subdomains shell target_domain w).2)
   ≤ length (stdin w))%nat.
Proof.
  unfold screenshot_subdomains. unfold bind at 1. unfold input.
  destruct (stdin w) as [|answer rest] eqn:Hin; cbn [snd]; [by rewrite Hin|].
  unfold bind at 1. unfold path_exists. cbn [files].
  destruct (bool_decide _); cbn [negb].
  - do 2 (unfold bind at 1; cbn [print log files ext stdin trace]).
    unfold bind at 1. rewrite run_command_eq. cbn [files ext stdin trace].
    destruct (shell _ _ _) as [[l fs] x].
    destruct (outcome_of _ _ l) as [[[o e] r] m].
    destruct (r =? 0); [cbn; lia|].
    unfold bind at 1. cbn [print log files ext stdin trace].
    destruct (Py.contains _ _); cbn; lia.
  - cbn. lia.
Qed.

End Facts.

Section WholeRun.

Context {Ext : Type}.
Variable shell :
  string → gmap string File → Ext → Launch * gmap string File * Ext.
Variable open_w : string → Ext → option OpenError.

Local Abbreviation World := (@World Ext).

(** [find_subdomains] is the three phases in a row; it stops early
    where initial discovery does, and where the full-set file cannot be
    opened for writing. *)
Lemma find_subdomains_phases target_domain (w : World) :
  match initial_discovery shell target_domain w with
  | (Ok (Some (unique, fl)), w1) =>
      ∃ newly_found w2,
        recursive_expansion shell target_domain unique w1
          = (Ok (unique ∪ newly_found), w2)
        ∧ find_subdomains shell open_w target_domain w =
            match open_w (temp_subdomain_file target_domain) (ext w2) with
            | None =>
                live_filter shell target_domain fl
                  (probe_world target_domain (unique ∪ newly_found) w2)
            | Some e => (Raise (raised_by_open e), w2)
            end
        ∧ stdin w2 = stdin w1
        ∧ commands_of (trace w2) =
            commands_of (trace w1)
            ++ (expansion_targets target_domain unique ≫= expansion_commands)
        ∧ touched_of (trace w2) = touched_of (trace w1)
        ∧ via_shell shell w1 w2
  | (Ok None, w1) => find_subdomains shell open_w target_domain w = (Ok None, w1)
  | (Raise e, w1) => find_subdomains shell open_w target_domain w = (Raise e, w1)
  end.
Proof.
  unfold find_subdomains.
  destruct (initial_discovery shell target_domain w)
    as [[[[unique fl]|]|e] w1] eqn:Hd.
  2,3: by unfold bind at 1; rewrite Hd.
  destruct (recursive_expansion_runs shell target_domain unique w1)
    as (newly & w2 & Hrec & Hrest).
  exists newly, w2. split; [done|]. split; [|done].
  unfold bind at 1. rewrite Hd.
  unfold bind at 1. rewrite Hrec.
  unfold bind at 1. unfold write_file, probe_world.
  by destruct (open_w _ (ext w2)).
Qed.

(** The whole run once initial discovery has handed on its set and the
    full-set file could be opened for writing: the result follows the
    probe, the three intermediate files are gone, and the rest of the
    files are as the probe left them. *)
Lemma find_subdomains_outcome target_domain (w : World) unique fl w1
    unique' w2 :
  initial_discovery shell target_domain w = (Ok (Some (unique, fl)), w1) →
  recursive_expansion shell target_domain unique w1 = (Ok unique', w2) →
  open_w (temp_subdomain_file target_domain) (ext w2) = None →
  let f1 := tool_output_file target_domain "subfinder" in
  let f2 := tool_output_file target_domain "amass" in
  let temp := temp_subdomain_file target_domain in
  let live := live_subdomains_file target_domain in
  let pw := probe_world target_domain unique' w2 in
  let '(l, fs, x) := shell (httpx_command target_domain) (files pw) (ext pw) in
  ∃ w',
    find_subdomains shell open_w target_domain w = (probe_result live l fs, w')
    ∧ files w' = delete temp (delete f2 (delete f1 fs))
    ∧ ext w' = x ∧ stdin w' = stdin w
    ∧ commands_of (trace w') =
        commands_of (trace w1)
        ++ (expansion_targets target_domain unique ≫= expansion_commands)
        ++ [httpx_command target_domain]
    ∧ (∀ p, p ∈ touched_of (trace w') →
            p ∈ touched_of (trace w) ∨ p ∈ [f1; f2; temp])
    ∧ via_shell shell w w2.
Proof.
  intros Hd Hrec Hopen. cbn zeta.
  pose proof (find_subdomains_phases target_domain w) as Hph.
  rewrite Hd in Hph.
  destruct Hph as (newly & w2' & Hrec' & -> & Hi2 & Hc2 & Ht2 & Hv2).
  rewrite Hrec in Hrec'. injection Hrec' as -> <-. rewrite Hopen.
  pose proof (initial_discovery_some shell target_domain w _ _ _ Hd) as Hin.
  cbn zeta in Hin.
  destruct (shell _ (files w) (ext w)) as [[l1 fs1] x1] eqn:Hs1.
  destruct (shell _ fs1 x1) as [[l2 fs2] x2] eqn:Hs2.
  destruct Hin as (_ & -> & Hf1 & Hx1 & Hi1 & Hc1 & Ht1 & _).
  set (pw := probe_world _ _ _).
  pose proof (live_filter_cases shell target_domain
                [tool_output_file target_domain "subfinder";
                 tool_output_file target_domain "amass"] pw) as Hlf.
  cbn zeta in Hlf.
  destruct (shell _ (files pw) (ext pw)) as [[l fs] x].
  destruct Hlf as (w' & -> & Hf3 & Hx3 & Hi3 & Hc3 & Ht3).
  { apply live_not_initial. }
  exists w'. split; [done|]. rewrite Hf3, Hx3, Hi3, Hc3.
  unfold pw, probe_world. cbn [stdin trace foldl].
  rewrite Hi2, Hi1, commands_of_app, Hc2. cbn.
  rewrite app_nil_r, <-(assoc_L (++)). repeat split.
  - intros p [Hp|[Hp|Hp]]%Ht3.
    + unfold pw, probe_world in Hp. cbn [trace] in Hp.
      rewrite touched_of_app, Ht2, Ht1 in Hp. cbn in Hp. set_solver.
    + set_solver.
    + set_solver.
  - eapply via_shell_trans; [|exact Hv2].
    eapply via_shell_trans.
    + by eapply (via_shell_step _ _ w _ _ _ [] []).
    + eapply via_shell_launch. cbn [files ext]. by rewrite Hs2, Hf1, Hx1.
Qed.

(** The run when the full-set file cannot be opened for writing: the
    exception of line 103 ends it in the world expansion left. *)
Lemma find_subdomains_unwritable target_domain (w : World) unique fl w1
    unique' w2 e :
  initial_discovery shell target_domain w = (Ok (Some (unique, fl)), w1) →
  recursive_expansion shell target_domain unique w1 = (Ok unique', w2) →
  open_w (temp_subdomain_file target_domain) (ext w2) = Some e →
  find_subdomains shell open_w target_domain w = (Raise (raised_by_open e), w2).
Proof.
  intros Hd Hrec Hopen.
  pose proof (find_subdomains_phases target_domain w) as Hph.
  rewrite Hd in Hph.
  destruct Hph as (newly & w2' & Hrec' & -> & _).
  rewrite Hrec in Hrec'. injection Hrec' as -> <-. by rewrite Hopen.
Qed.

(** Whatever its end, a run writes and removes nothing but the three
    intermediate files, reads no input (so it never stops on the end of
    the input), and returns a path only when it is the final file's and
    the file is there with a text. *)
Lemma find_subdomains_frame target_domain (w : World) :
  let r := find_subdomains shell open_w target_domain w in
  stdin r.2 = stdin w
  ∧ (∀ p, p ∈ touched_of (trace r.2) →
          p ∈ touched_of (trace w)
          ∨ p ∈ [tool_output_file target_domain "subfinder";
                 tool_output_file target_domain "amass";
                 temp_subdomain_file target_domain])
  ∧ (∀ p, r.1 = Ok (Some p) →
          p = live_subdomains_file target_domain
          ∧ ∃ text, files r.2 !! p = Some (Text text))
  ∧ r.1 ≠ Raise EOFError.
Proof.
  cbn zeta.
  pose proof (find_subdomains_phases target_domain w) as Hph.
  pose proof (initial_discovery_cases shell target_domain w) as Hin.
  cbn zeta in Hin.
  destruct (initial_discovery shell target_domain w)
    as [[[[unique fl]|]|e] w1] eqn:Hd.
  2,3: rewrite Hph; cbn [fst snd];
       destruct (shell _ (files w) (ext w)) as [[l1 fs1] x1];
       destruct (shell _ fs1 x1) as [[l2 fs2] x2];
       destruct Hin as (w1' & Hin & Hi & Ht);
       (destruct (aborts _ _ "Tool 'subfinder'" l1 fs1);
        [|destruct (unreadable _ l1 fs1);
          [|destruct (aborts _ _ "Tool 'amass'" l2 fs2);
            [|destruct (unreadable _ l2 fs2)]]]);
       destruct Hin as (Hin & _); simplify_eq;
       (split; [done|]); (split; [|done]); intros p Hp; left; by rewrite <-Ht.
  clear Hin.
  destruct Hph as (newly & w2 & Hrec & Hrun & _).
  pose proof (initial_discovery_some shell target_domain w _ _ _ Hd) as Hin.
  cbn zeta in Hin.
  destruct (shell _ (files w) (ext w)) as [[l1 fs1] x1].
  destruct (shell _ fs1 x1) as [[l2 fs2] x2].
  destruct Hin as (_ & _ & _ & _ & Hi1 & _ & Ht1 & _).
  destruct (open_w (temp_subdomain_file target_domain) (ext w2)) as [e|] eqn:Hopen.
  { rewrite (find_subdomains_unwritable _ _ _ _ _ _ _ _ Hd Hrec Hopen).
    cbn [fst snd].
    pose proof (recursive_expansion_runs shell target_domain unique w1)
      as (newly' & w2' & Hrec'' & Hi2 & _ & Ht2 & _).
    rewrite Hrec in Hrec''. injection Hrec'' as _ <-.
    split; [by rewrite Hi2|]. split; [|split; [done|by destruct e]].
    intros p Hp. left. by rewrite <-Ht1, <-Ht2. }
  pose proof (find_subdomains_outcome target_domain w _ _ _ _ _ Hd Hrec Hopen)
    as Hout. cbn zeta in Hout.
  destruct (shell _ _ _) as [[l fs] x].
  destruct Hout as (w' & -> & Hf & _ & Hi & _ & Ht & _).
  cbn [fst snd]. split; [done|]. split; [done|]. split.
  2: { unfold probe_result. by destruct (unreadable _ l fs). }
  intros p Hp. unfold probe_result, unreadable in Hp.
  destruct (tool_ok _ l fs) eqn:Hok; cbn [andb] in Hp.
  2: done.
  unfold tool_ok in Hok. destruct l as [out err rc|e]; [|done].
  apply andb_true_iff in Hok as [_ [c Hc]%bool_decide_eq_true].
  rewrite Hc in Hp. destruct c as [text|]; [|done].
  injection Hp as <-. split; [done|]. exists text.
  rewrite Hf, !lookup_delete_ne; [done|..].
  - intros Heq. apply (live_not_tool_output target_domain "subfinder"); auto.
  - intros Heq. apply (live_not_tool_output target_domain "amass"); auto.
  - intros Heq. by apply (live_not_temp target_domain).
Qed.

(** The first half of a pass through the menu: the banner and the prompt. *)
Lemma menu_step_prompt target_domain (w : World) answer rest :
  stdin w = answer :: rest →
  menu_step shell open_w target_domain w =
  (let w1 := advance w rest (menu_banner ++ [EvInput PromptChoice answer]) in
   let choice := Py.strip answer in
   if decide (choice = "1") then
     bind (find_subdomains shell open_w target_domain)
       (λ f, bind (if Py.truthy f
                   then print (MsgFindingCompleted (default "" f))
                   else print MsgFindingFailed) (λ _, ret false)) w1
   else if decide (choice = "2") then
     bind (screenshot_subdomains shell target_domain)
       (λ _, bind (print MsgScreenshotFinished) (λ _, ret false)) w1
   else if decide (choice = "3") then
     (Ok true, advance w1 rest [EvPrint MsgGoodbye])
   else (Ok false, advance w1 rest [EvPrint MsgInvalidChoice])).
Proof.
  intros Hin. unfold menu_step.
  do 4 (unfold bind at 1; cbn [print log files ext stdin trace]).
  unfold bind at 1. unfold input. cbn [files ext stdin trace]. rewrite Hin.
  cbn zeta. unfold advance, menu_banner. cbn [files ext stdin trace].
  rewrite <-!(assoc_L (++)). cbn [app].
  repeat case_decide; try done.
  all: unfold bind, print, log, ret; cbn [files ext stdin trace].
  all: by rewrite <-!(assoc_L (++)).
Qed.

(** A pass that asks for another one has used up a line of input. *)
Lemma menu_step_consumes target_domain (w w' : World) :
  menu_step shell open_w target_domain w = (Ok false, w') →
  (length (stdin w') < length (stdin w))%nat.
Proof.
  destruct (stdin w) as [|answer rest] eqn:Hin.
  - unfold menu_step.
    do 4 (unfold bind at 1; cbn [print log files ext stdin trace]).
    unfold bind at 1. unfold input. cbn [files ext stdin trace].
    by rewrite Hin.
  - rewrite (menu_step_prompt _ _ _ _ Hin). cbn zeta.
    repeat case_decide.
    + unfold bind at 1.
      pose proof (find_subdomains_frame target_domain
                    (advance w rest (menu_banner ++ [EvInput PromptChoice answer])))
        as (Hi & _).
      destruct (find_subdomains _ _ _ _) as [[r|e] w1]; [|done].
      unfold bind at 1. cbn [snd] in Hi.
      destruct (Py.truthy r); cbn [print log ret]; intros [= <-];
        cbn [stdin]; rewrite Hi; cbn; lia.
    + unfold bind at 1.
      pose proof (screenshot_stdin shell target_domain
                    (advance w rest (menu_banner ++ [EvInput PromptChoice answer])))
        as Hs.
      destruct (screenshot_subdomains _ _ _) as [[[]|e] w1]; [|done].
      unfold bind at 1. cbn [print log ret]. intros [= <-].
      cbn in *. lia.
    + done.
    + intros [= <-]. cbn. lia.
Qed.

(** With more passes allowed than lines of input left, the loop ends by
    itself: by the exit choice, or by an error at the end of the input. *)
Lemma menu_loop_total target_domain fuel :
  ∀ w : World, (length (stdin w) < fuel)%nat →
    (menu_loop shell open_w fuel target_domain w).1 ≠ Ok false.
Proof.
  induction fuel as [|fuel IH]; intros w Hlt; [lia|].
  cbn [menu_loop]. unfold bind at 1.
  destruct (menu_step shell open_w target_domain w) as [[[|]|e] w'] eqn:Hs;
    [done| |done].
  apply IH. apply menu_step_consumes in Hs. lia.
Qed.

Lemma main_total (w : World) : (main shell open_w w).1 ≠ Ok false.
Proof.
  unfold main.
  do 3 (unfold bind at 1; cbn [print log files ext stdin trace]).
  unfold bind at 1. unfold input. cbn [files ext stdin trace].
  destruct (stdin w) as [|answer rest]; [done|].
  case_decide.
  - unfold bind at 1. by cbn [print log ret].
  - apply menu_loop_total. cbn. lia.
Qed.

(** The abort on the error text: when a tool fails its success test with
    "not found" in the error text handed back, the run ends there with no
    result, having launched nothing further and touched no file. *)
Lemma not_found_in_stderr_aborts target_domain (w : World) :
  let c1 := subfinder_command target_domain in
  let f1 := tool_output_file target_domain "subfinder" in
  let '(l1, fs1, x1) := shell c1 (files w) (ext w) in
  aborts f1 c1 "Tool 'subfinder'" l1 fs1 →
  ∃ w', find_subdomains shell open_w target_domain w = (Ok None, w')
        ∧ files w' = fs1 ∧ ext w' = x1
        ∧ commands_of (trace w') = commands_of (trace w) ++ [c1]
        ∧ touched_of (trace w') = touched_of (trace w).
Proof.
  cbn zeta.
  pose proof (initial_discovery_cases shell target_domain w) as Hin.
  pose proof (find_subdomains_phases target_domain w) as Hph.
  cbn zeta in Hin.
  destruct (shell _ (files w) (ext w)) as [[l1 fs1] x1].
  destruct (shell _ fs1 x1) as [[l2 fs2] x2].
  intros Hab. destruct Hin as (w' & Hin & _ & Ht).
  destruct (aborts _ _ "Tool 'subfinder'" l1 fs1); [|done].
  destruct Hin as (Hin & Hf & Hx & Hc). rewrite Hin in Hph.
  by exists w'.
Qed.

Lemma second_not_found_in_stderr_aborts target_domain (w : World) :
  let c1 := subfinder_command target_domain in
  let c2 := amass_command target_domain in
  let f1 := tool_output_file target_domain "subfinder" in
  let f2 := tool_output_file target_domain "amass" in
  let '(l1, fs1, x1) := shell c1 (files w) (ext w) in
  let '(l2, fs2, x2) := shell c2 fs1 x1 in
  ¬ aborts f1 c1 "Tool 'subfinder'" l1 fs1 →
  ¬ unreadable f1 l1 fs1 →
  aborts f2 c2 "Tool 'amass'" l2 fs2 →
  ∃ w', find_subdomains shell open_w target_domain w = (Ok None, w')
        ∧ files w' = fs2 ∧ ext w' = x2
        ∧ commands_of (trace w') = commands_of (trace w) ++ [c1; c2]
        ∧ touched_of (trace w') = touched_of (trace w).
Proof.
  cbn zeta.
  pose proof (initial_discovery_cases shell target_domain w) as Hin.
  pose proof (find_subdomains_phases target_domain w) as Hph.
  cbn zeta in Hin.
  destruct (shell _ (files w) (ext w)) as [[l1 fs1] x1].
  destruct (shell _ fs1 x1) as [[l2 fs2] x2].
  intros Hab1 Hur1 Hab2. destruct Hin as (w' & Hin & _ & Ht).
  destruct (aborts _ _ "Tool 'subfinder'" l1 fs1); [done|].
  destruct (unreadable _ l1 fs1); [done|].
  destruct (aborts _ _ "Tool 'amass'" l2 fs2); [|done].
  destruct Hin as (Hin & Hf & Hx & Hc). rewrite Hin in Hph.
  by exists w'.
Qed.

End WholeRun.

(** * The properties of the specification *)

(** The trimmed lines read from a tool's output file are the trimmed
    lines of the text the tool left there, when it exited with code
    zero; there are none otherwise. *)
Lemma trimmed_lines_read f l fs sub :
  sub ∈ trimmed (lines_read f l fs) ↔ line_of_output f l fs sub.
Proof.
  unfold trimmed, lines_read, line_of_output, tool_ok, text_at.
  rewrite elem_of_list_to_set, list_elem_of_fmap. split.
  - intros (line & -> & Hline).
    destruct l as [out err rc|e]; [|by apply elem_of_nil in Hline].
    destruct (rc =? 0) eqn:Hrc; [|by apply elem_of_nil in Hline].
    apply Z.eqb_eq in Hrc as ->.
    destruct (fs !! f) as [[text|]|] eqn:Hf; cbn in Hline;
      [by exists out, err, text, line|by apply elem_of_nil in Hline..].
  - intros (out & err & text & line & -> & Hf & Hline & ->).
    exists line. split; [done|]. by rewrite Hf.
Qed.

(** C1, as amended.  After initial discovery the set is the target
    domain together with the trimmed lines read from the two tools'
    output files, and a file is read only when its tool exited with code
    zero and left it: a name is in the set exactly when it is the target
    domain or a trimmed line of the text such a tool left.  When both
    tools exit with code zero and leave their files, the set is the
    trimmed union of the two files' lines and the target domain.  On the
    example host the set is a.example.com, b.example.com, example.com:
    three members. *)
Theorem initial_discovery_union :
  (∀ (Ext : Type)
     (shell : string → gmap string File → Ext
              → Launch * gmap string File * Ext)
     (target_domain : string) (w : @World Ext) unique fl w',
     initial_discovery shell target_domain w = (Ok (Some (unique, fl)), w') →
     let f1 := tool_output_file target_domain "subfinder" in
     let f2 := tool_output_file target_domain "amass" in
     let '(l1, fs1, x1) :=
       shell (subfinder_command target_domain) (files w) (ext w) in
     let '(l2, fs2, x2) := shell (amass_command target_domain) fs1 x1 in
     target_domain ∈ unique
     ∧ unique = {[target_domain]}
                ∪ (trimmed (lines_read f1 l1 fs1)
                   ∪ trimmed (lines_read f2 l2 fs2))
     ∧ (∀ sub, sub ∈ unique ↔
               sub = target_domain
               ∨ line_of_output f1 l1 fs1 sub
               ∨ line_of_output f2 l2 fs2 sub)
     ∧ (∀ out1 err1 c1 out2 err2 c2,
          l1 = Completed out1 err1 0 → fs1 !! f1 = Some (Text c1) →
          l2 = Completed out2 err2 0 → fs2 !! f2 = Some (Text c2) →
          unique = {[target_domain]}
                   ∪ (trimmed (Py.iter_lines c1)
                      ∪ trimmed (Py.iter_lines c2))))
  ∧ (∃ fl w',
       initial_discovery Demo.shell_ok "example.com" (Demo.empty_world tt)
         = (Ok (Some ({["a.example.com"; "b.example.com"; "example.com"]}, fl)),
            w')
       ∧ size ({["a.example.com"; "b.example.com"; "example.com"]}
                 : gset string) = 3%nat).
Proof.
  split.
  - intros Ext shell target_domain w unique fl w' Hrun. cbn zeta.
    pose proof (initial_discovery_some shell target_domain w _ _ _ Hrun) as Hc.
    cbn zeta in Hc.
    destruct (shell _ (files w) (ext w)) as [[l1 fs1] x1].
    destruct (shell _ fs1 x1) as [[l2 fs2] x2].
    destruct Hc as (-> & _).
    split; [set_solver|]. split; [done|]. split.
    + intros sub. rewrite !elem_of_union, elem_of_singleton.
      by rewrite !trimmed_lines_read.
    + intros out1 err1 c1 out2 err2 c2 -> H1 -> H2.
      unfold lines_read, tool_ok, text_at. by rewrite H1, H2.
  - eexists _, _. split; [vm_compute; reflexivity|]. by vm_compute.
Qed.

(** C1 as stated fails: on a host where subfinder writes part of its
    output and then exits with code 1 while amass works, both output
    files are there after initial discovery, partial.example.com is a
    line of subfinder's, and the set holds b.example.com and example.com
    only. *)
Lemma failed_tool_file_is_left_out :
  let r := initial_discovery Hosts.shell_subfinder_crash Demo.target
             (Demo.empty_world tt) in
  r.1 = Ok (Some ({["b.example.com"; "example.com"]}, Demo.initial_files))
  ∧ files r.2 !! tool_output_file Demo.target "subfinder"
    = Some (Text ("partial.example.com" +:+ nl))
  ∧ files r.2 !! tool_output_file Demo.target "amass"
    = Some (Text ("b.example.com" +:+ nl))
  ∧ Py.strip ("partial.example.com" +:+ nl) = "partial.example.com"
  ∧ "partial.example.com" ∉ ({["b.example.com"; "example.com"]} : gset string).
Proof.
  cbv zeta. split; [vm_compute; reflexivity|].
  split; [vm_compute; reflexivity|]. split; [vm_compute; reflexivity|].
  split; [reflexivity|]. set_solver.
Qed.

(** C2. Evaluation at the failing input.  A missing binary that shows as
    a failed launch does not abort the run: on a host where every launch
    raises [FileNotFoundError] the run goes on to launch amass and the
    probe and writes the full-set file before it returns no result; on a
    host where only the first launch fails that way the run ends with a
    result and a live-subdomains file. *)
Theorem launch_failure_not_aborted :
  (let r := find_subdomains Demo.shell_no_launcher Demo.open_flat Demo.target
              (Demo.empty_world tt) in
   r.1 = Ok None
   ∧ commands_of (trace r.2) =
       [subfinder_command Demo.target; amass_command Demo.target;
        httpx_command Demo.target]
   ∧ written_of (trace r.2) =
       [(temp_subdomain_file Demo.target, "example.com" +:+ nl)])
  ∧ (let r := find_subdomains Demo.shell_late_launcher Demo.open_flat
                Demo.target (Demo.empty_world 0%nat) in
     r.1 = Ok (Some (live_subdomains_file Demo.target))
     ∧ files r.2 !! live_subdomains_file Demo.target
       = Some (Text ("a.example.com" +:+ nl))).
Proof. repeat split; vm_compute; reflexivity. Qed.

(** C3. Evaluation at the failing input.  A blank line in a tool's output
    file puts the empty text into the set, and the full-set file then
    starts with a blank line. *)
Theorem blank_line_reaches_full_set_file :
  let r := find_subdomains Demo.shell_blank_line Demo.open_flat Demo.target
             (Demo.empty_world tt) in
  let text := nl +:+ "a.example.com" +:+ nl +:+ "example.com" +:+ nl in
  written_of (trace r.2) = [(temp_subdomain_file Demo.target, text)]
  ∧ Py.iter_lines text = [nl; "a.example.com" +:+ nl; "example.com" +:+ nl]
  ∧ Py.strip nl = "".
Proof. repeat split; vm_compute; reflexivity. Qed.

(** C4. Once initial discovery has handed on its set, expansion launches
    exactly the two enumeration commands of every member of that set
    other than the target domain, each member once, and the rest of the
    run launches nothing after them but the probe (and not even the
    probe when the full-set file cannot be opened for writing): nothing
    found during expansion is expanded. *)
Theorem expansion_one_level :
  ∀ (Ext : Type)
    (shell : string → gmap string File → Ext
             → Launch * gmap string File * Ext)
    (open_w : string → Ext → option OpenError)
    (target_domain : string) (w : @World Ext) unique fl w1,
    initial_discovery shell target_domain w = (Ok (Some (unique, fl)), w1) →
    ∃ newly_found w2,
      recursive_expansion shell target_domain unique w1
        = (Ok (unique ∪ newly_found), w2)
      ∧ commands_of (trace w2) =
          commands_of (trace w)
          ++ [subfinder_command target_domain; amass_command target_domain]
          ++ (expansion_targets target_domain unique ≫= expansion_commands)
      ∧ commands_of (trace (find_subdomains shell open_w target_domain w).2) =
          commands_of (trace w2)
          ++ match open_w (temp_subdomain_file target_domain) (ext w2) with
             | None => [httpx_command target_domain]
             | Some _ => []
             end
      ∧ NoDup (expansion_targets target_domain unique)
      ∧ (∀ sub, sub ∈ expansion_targets target_domain unique
                ↔ sub ∈ unique ∧ sub ≠ target_domain)
      ∧ target_domain ∉ expansion_targets target_domain unique.
Proof.
  intros Ext shell open_w target_domain w unique fl w1 Hd.
  destruct (recursive_expansion_runs shell target_domain unique w1)
    as (newly & w2 & Hrec & _ & Hc2 & _).
  pose proof (initial_discovery_some shell target_domain w _ _ _ Hd) as Hin.
  cbn zeta in Hin.
  destruct (shell _ (files w) (ext w)) as [[l1 fs1] x1].
  destruct (shell _ fs1 x1) as [[l2 fs2] x2].
  destruct Hin as (_ & _ & _ & _ & _ & Hc1 & _).
  destruct (expansion_targets_spec target_domain unique) as [Hnd Hmem].
  exists newly, w2. split; [done|]. split.
  { by rewrite Hc2, Hc1, <-(assoc_L (++)). }
  split; [|split; [done|split; [done|]]].
  - destruct (open_w (temp_subdomain_file target_domain) (ext w2))
      as [e|] eqn:Hopen.
    + rewrite (find_subdomains_unwritable shell open_w _ _ _ _ _ _ _ _
                 Hd Hrec Hopen). cbn [snd]. by rewrite app_nil_r.
    + pose proof (find_subdomains_outcome shell open_w target_domain w
                    _ _ _ _ _ Hd Hrec Hopen) as Hout. cbn zeta in Hout.
      destruct (shell _ _ _) as [[l fs] x].
      destruct Hout as (w' & -> & _ & _ & _ & Hc & _). cbn [snd].
      by rewrite Hc, Hc2, <-(assoc_L (++)).
  - rewrite Hmem. naive_solver.
Qed.

(** C5, as amended.  Once initial discovery has handed on its set and the
    full-set file has been written, the run ends with the three
    intermediate files gone and the final file's path holding what the
    probe left there.  When the probe exits with code zero and the final
    file is there, the final file is still there afterwards, and its
    path is returned when the file holds text (the count of its lines
    raises when its bytes do not decode).  Otherwise no result is
    returned. *)
Theorem live_filter_outcome :
  ∀ (Ext : Type)
    (shell : string → gmap string File → Ext
             → Launch * gmap string File * Ext)
    (open_w : string → Ext → option OpenError)
    (target_domain : string) (w : @World Ext) unique fl w1 unique' w2,
    initial_discovery shell target_domain w = (Ok (Some (unique, fl)), w1) →
    recursive_expansion shell target_domain unique w1 = (Ok unique', w2) →
    open_w (temp_subdomain_file target_domain) (ext w2) = None →
    let f1 := tool_output_file target_domain "subfinder" in
    let f2 := tool_output_file target_domain "amass" in
    let temp := temp_subdomain_file target_domain in
    let live := live_subdomains_file target_domain in
    let pw := probe_world target_domain unique' w2 in
    let '(l, fs, x) := shell (httpx_command target_domain) (files pw) (ext pw) in
    ∃ w',
      find_subdomains shell open_w target_domain w
        = (probe_result live l fs, w')
      ∧ files w' !! f1 = None
      ∧ files w' !! f2 = None
      ∧ files w' !! temp = None
      ∧ files w' !! live = fs !! live
      ∧ (tool_ok live l fs → is_Some (files w' !! live))
      ∧ (∀ text, tool_ok live l fs → fs !! live = Some (Text text) →
                 probe_result live l fs = Ok (Some live))
      ∧ (tool_ok live l fs → fs !! live = Some Undecodable →
         probe_result live l fs = Raise UnicodeDecodeError)
      ∧ (¬ tool_ok live l fs → probe_result live l fs = Ok None).
Proof.
  intros Ext shell open_w target_domain w unique fl w1 unique' w2
    Hd Hrec Hopen.
  pose proof (find_subdomains_outcome shell open_w target_domain w
                _ _ _ _ _ Hd Hrec Hopen) as Hout. cbn zeta in *.
  destruct (shell _ _ _) as [[l fs] x].
  destruct Hout as (w' & Hrun & Hf & _).
  assert (Hlive : files w' !! live_subdomains_file target_domain
                  = fs !! live_subdomains_file target_domain).
  { rewrite Hf, !lookup_delete_ne; [done|symmetry..].
    - apply live_not_tool_output; auto.
    - apply live_not_tool_output; auto.
    - apply live_not_temp. }
  exists w'. split; [done|]. rewrite Hlive, Hf.
  split; [|split; [|split; [|split; [done|split; [|split; [|split]]]]]].
  - rewrite lookup_delete_ne, lookup_delete_ne, lookup_delete_eq; [done|..].
    + unfold tool_output_file. by intros ?%(inj (String.app _)).
    + unfold tool_output_file, temp_subdomain_file.
      by intros ?%(inj (String.app _)).
  - rewrite lookup_delete_ne, lookup_delete_eq; [done|].
    unfold tool_output_file, temp_subdomain_file.
    by intros ?%(inj (String.app _)).
  - by rewrite lookup_delete_eq.
  - unfold tool_ok. destruct l as [out err rc|e]; [|done].
    intros [_ Hex%bool_decide_eq_true]%Is_true_true%andb_true_iff. done.
  - intros text Hok%Is_true_true Htext. unfold probe_result, unreadable.
    by rewrite Hok, Htext.
  - intros Hok%Is_true_true Hbad. unfold probe_result, unreadable.
    by rewrite Hok, Hbad.
  - intros Hok%Is_true_false. unfold probe_result, unreadable.
    by rewrite Hok.
Qed.

(** C5 as stated fails: on a host where the probe writes its output file
    and then exits with code 1, the run returns no result and the final
    file is there afterwards; and on a host where the probe exits with
    code 0 and leaves a final file whose bytes do not decode, the run
    raises instead of returning the path. *)
Lemma failed_probe_leaves_final_file :
  (let r := find_subdomains Demo.shell_probe_crash Demo.open_flat Demo.target
              (Demo.empty_world tt) in
   r.1 = Ok None
   ∧ commands_of (trace r.2) =
       [subfinder_command Demo.target; amass_command Demo.target;
        httpx_command Demo.target]
   ∧ files r.2 !! live_subdomains_file Demo.target
     = Some (Text ("example.com" +:+ nl)))
  ∧ (let r := find_subdomains Hosts.shell_garbled_probe Demo.open_flat
                Demo.target (Demo.empty_world tt) in
     r.1 = Raise UnicodeDecodeError
     ∧ commands_of (trace r.2) =
         [subfinder_command Demo.target; amass_command Demo.target;
          httpx_command Demo.target]
     ∧ map_to_list (files r.2)
       = [(live_subdomains_file Demo.target, Undecodable)]).
Proof. repeat split; vm_compute; reflexivity. Qed.

(** C6. [run_command] always returns its triple, whatever the launch
    does: the exit code and error text of a completed launch as they are,
    code 127 for a [FileNotFoundError], code 1 and the exception's text
    for any other exception. *)
Theorem run_command_returns :
  ∀ (Ext : Type)
    (shell : string → gmap string File → Ext
             → Launch * gmap string File * Ext)
    (command error_message : string) (w : @World Ext),
    ∃ stdout stderr returncode w',
      run_command shell command error_message w
        = (Ok (stdout, stderr, returncode), w')
      ∧ match (shell command (files w) (ext w)).1.1 with
        | Completed out err rc =>
            stderr = err ∧ returncode = rc
            ∧ (stdout = Some out ∨ stdout = None ∧ rc ≠ 0)
        | Failed FileNotFoundError =>
            (stdout, stderr, returncode) = (None, "FileNotFoundError", 127)
        | Failed (OtherException msg) =>
            (stdout, stderr, returncode) = (None, msg, 1)
        | Failed EOFError =>
            (stdout, stderr, returncode) = (None, "", 1)
        end.
Proof.
  intros Ext shell command error_message w. rewrite run_command_eq.
  destruct (shell command (files w) (ext w)) as [[l fs] x]. cbn [fst].
  destruct l as [out err rc|[ |msg| ]]; cbn [outcome_of].
  - destruct (negb (rc =? 0)) eqn:Hrc; cbn [andb].
    + destruct (Py.contains _ _).
      * eexists _, _, _, _. split; [reflexivity|].
        apply negb_true_iff, Z.eqb_neq in Hrc. auto.
      * eexists _, _, _, _. split; [reflexivity|]. auto.
    + eexists _, _, _, _. split; [reflexivity|]. auto.
  - by eexists _, _, _, _.
  - by eexists _, _, _, _.
  - by eexists _, _, _, _.
Qed.

(** C7. When the file the screenshot step settles on is not there, the
    step prints its error and returns: it launches nothing and leaves the
    files alone; the menu pass it was called from prints its closing line
    and the loop goes on with the next pass. *)
Theorem screenshot_missing_input :
  ∀ (Ext : Type)
    (shell : string → gmap string File → Ext
             → Launch * gmap string File * Ext)
    (open_w : string → Ext → option OpenError)
    (target_domain : string) (w : @World Ext) (fuel : nat)
    (choice answer : string) (rest : list string),
    Py.strip choice = "2" →
    stdin w = choice :: answer :: rest →
    files w !! chosen_input_file target_domain answer = None →
    let prompt := PromptScreenshotFile (target_domain +:+ "_subdomains.txt") in
    let missing :=
      EvPrint (MsgInputFileMissing (chosen_input_file target_domain answer)) in
    let w0 := advance w (answer :: rest)
                (menu_banner ++ [EvInput PromptChoice choice]) in
    let w1 := advance w0 rest [EvInput prompt answer; missing] in
    screenshot_subdomains shell target_domain w0 = (Ok tt, w1)
    ∧ commands_of (trace w1) = commands_of (trace w)
    ∧ touched_of (trace w1) = touched_of (trace w)
    ∧ files w1 = files w ∧ ext w1 = ext w
    ∧ menu_loop shell open_w (S fuel) target_domain w =
        menu_loop shell open_w fuel target_domain
          (advance w1 rest [EvPrint MsgScreenshotFinished]).
Proof.
  intros Ext shell open_w target_domain w fuel choice answer rest
    Hch Hin Hmiss.
  cbn zeta.
  assert (Hs : screenshot_subdomains shell target_domain
                 (advance w (answer :: rest)
                    (menu_banner ++ [EvInput PromptChoice choice]))
               = (Ok tt, advance (advance w (answer :: rest)
                                    (menu_banner ++ [EvInput PromptChoice choice]))
                           rest
                           [EvInput (PromptScreenshotFile
                                       (target_domain +:+ "_subdomains.txt")) answer;
                            EvPrint (MsgInputFileMissing
                                       (chosen_input_file target_domain answer))])).
  { by apply screenshot_missing. }
  split; [exact Hs|]. unfold advance. cbn [files ext stdin trace].
  rewrite !commands_of_app, !touched_of_app. cbn.
  rewrite !app_nil_r. repeat split.
  cbn [menu_loop]. unfold bind at 1.
  rewrite (menu_step_prompt shell open_w _ _ _ _ Hin). cbn zeta. rewrite Hch.
  rewrite decide_False, decide_True by done.
  unfold bind at 1. rewrite Hs.
  unfold bind at 1. cbn [print log ret]. done.
Qed.



(** C10. The expansion phase never stops early and never raises: it
    launches both commands of every target in turn, and a launch that
    failed, exited with a code other than zero or printed nothing adds
    nothing to the newly found set. *)
Theorem expansion_never_aborts :
  ∀ (Ext : Type)
    (shell : string → gmap string File → Ext
             → Launch * gmap string File * Ext)
    (target_domain : string) (total i : nat) (sub : string)
    (subs : list string) (newly_found : gset string) (w : @World Ext),
    sub ≠ target_domain →
    let c1 := "subfinder -d " +:+ sub in
    let c2 := "amass enum -d " +:+ sub in
    let '(l1, fs1, x1) := shell c1 (files w) (ext w) in
    let '(l2, fs2, x2) := shell c2 fs1 x1 in
    let found := contribution c2 "amass" l2
                   (contribution c1 "subfinder" l1 newly_found) in
    (∃ w1,
       recursive_loop shell target_domain total i (sub :: subs) newly_found w
       = recursive_loop shell target_domain total (S i) subs found w1
       ∧ files w1 = fs2 ∧ ext w1 = x2
       ∧ commands_of (trace w1) = commands_of (trace w) ++ [c1; c2])
    ∧ (fruitless l1 → contribution c1 "subfinder" l1 newly_found = newly_found)
    ∧ (fruitless l2 → found = contribution c1 "subfinder" l1 newly_found)
    ∧ (∃ newly_found' w',
         recursive_loop shell target_domain total i (sub :: subs) newly_found w
         = (Ok newly_found', w')
         ∧ commands_of (trace w') =
             commands_of (trace w)
             ++ (filter (λ s, s ≠ target_domain) (sub :: subs)
                   ≫= expansion_commands))
    ∧ (∀ unique (w0 : @World Ext), ∃ newly w',
         recursive_expansion shell target_domain unique w0
         = (Ok (unique ∪ newly), w')
         ∧ commands_of (trace w') =
             commands_of (trace w0)
             ++ (expansion_targets target_domain unique ≫= expansion_commands)).
Proof.
  intros Ext shell target_domain total i sub subs newly_found w Hne.
  cbn zeta.
  pose proof (recursive_loop_cons shell target_domain total i sub subs
                newly_found w Hne) as Hstep. cbn zeta in Hstep.
  destruct (shell _ (files w) (ext w)) as [[l1 fs1] x1].
  destruct (shell _ fs1 x1) as [[l2 fs2] x2].
  split; [|split; [|split; [|split]]].
  - eexists. split; [exact Hstep|]. cbn [files ext trace].
    rewrite !commands_of_app, !commands_of_prints. cbn.
    by rewrite !app_nil_r, <-!(assoc_L (++)).
  - apply fruitless_contribution.
  - apply fruitless_contribution.
  - destruct (recursive_loop_runs shell target_domain total (sub :: subs)
                i newly_found w) as (n' & w' & Hrun & _ & Hc & _).
    by exists n', w'.
  - intros unique w0.
    destruct (recursive_expansion_runs shell target_domain unique w0)
      as (newly & w' & Hrun & _ & Hc & _).
    by exists newly, w'.
Qed.

(** * The properties on the concrete hosts *)

(** Initial discovery and expansion on the working host. *)
Lemma discovery_on_shell_ok :
  initial_discovery Demo.shell_ok Demo.target (Demo.empty_world tt)
  = (Ok (Some (Demo.discovered, Demo.initial_files)), Demo.after_discovery).
Proof. vm_compute. reflexivity. Defined.

Lemma expansion_on_shell_ok :
  recursive_expansion Demo.shell_ok Demo.target Demo.discovered
    Demo.after_discovery
  = (Ok Demo.expanded, Demo.after_expansion).
Proof. vm_compute. reflexivity. Defined.

(** The full-set file of the example domain can be opened for writing. *)
Lemma full_set_file_opens :
  Demo.open_flat (temp_subdomain_file Demo.target) (ext Demo.after_expansion)
  = None.
Proof. reflexivity. Defined.

(** C1, as amended, on the working host. *)
Lemma initial_discovery_union_witness :
  initial_discovery Demo.shell_ok Demo.target (Demo.empty_world tt)
  = (Ok (Some (Demo.discovered, Demo.initial_files)), Demo.after_discovery)
  ∧ Demo.target ∈ Demo.discovered.
Proof.
  split; [exact discovery_on_shell_ok|].
  pose proof (proj1 initial_discovery_union unit Demo.shell_ok Demo.target
                _ _ _ _ discovery_on_shell_ok) as H.
  cbv zeta in H.
  destruct (Demo.shell_ok _ _ _) as [[l1 fs1] x1].
  destruct (Demo.shell_ok _ _ _) as [[l2 fs2] x2].
  exact (proj1 H).
Defined.

(** C4 on the working host. *)
Lemma expansion_one_level_witness :
  initial_discovery Demo.shell_ok Demo.target (Demo.empty_world tt)
  = (Ok (Some (Demo.discovered, Demo.initial_files)), Demo.after_discovery)
  ∧ NoDup (expansion_targets Demo.target Demo.discovered)
  ∧ Demo.target ∉ expansion_targets Demo.target Demo.discovered.
Proof.
  split; [exact discovery_on_shell_ok|].
  destruct (expansion_one_level unit Demo.shell_ok Demo.open_flat Demo.target
              _ _ _ _ discovery_on_shell_ok)
    as (newly & w2 & _ & _ & _ & Hnd & _ & Hnot).
  split; [exact Hnd|exact Hnot].
Defined.

(** C5, as amended, on the working host. *)
Lemma live_filter_outcome_witness :
  initial_discovery Demo.shell_ok Demo.target (Demo.empty_world tt)
  = (Ok (Some (Demo.discovered, Demo.initial_files)), Demo.after_discovery)
  ∧ recursive_expansion Demo.shell_ok Demo.target Demo.discovered
      Demo.after_discovery
    = (Ok Demo.expanded, Demo.after_expansion)
  ∧ Demo.open_flat (temp_subdomain_file Demo.target)
      (ext Demo.after_expansion) = None
  ∧ ∃ r w',
      find_subdomains Demo.shell_ok Demo.open_flat Demo.target
        (Demo.empty_world tt) = (r, w')
      ∧ files w' !! temp_subdomain_file Demo.target = None.
Proof.
  split; [exact discovery_on_shell_ok|].
  split; [exact expansion_on_shell_ok|].
  split; [exact full_set_file_opens|].
  pose proof (live_filter_outcome unit Demo.shell_ok Demo.open_flat Demo.target
                _ _ _ _ _ _ discovery_on_shell_ok expansion_on_shell_ok
                full_set_file_opens) as H.
  cbv zeta in H.
  destruct (Demo.shell_ok _ _ _) as [[l fs] x].
  destruct H as (w' & Hrun & _ & _ & Htemp & _).
  eexists _, w'. split; [exact Hrun|exact Htemp].
Defined.

(** C7 at a menu prompt answered with the screenshot step, no file there. *)
Lemma screenshot_missing_input_witness :
  Py.strip " 2" = "2"
  ∧ stdin Demo.at_menu = [" 2"; ""; "3"]
  ∧ files Demo.at_menu !! chosen_input_file Demo.target "" = None
  ∧ commands_of
      (trace (advance
                (advance Demo.at_menu [""; "3"]
                   (menu_banner ++ [EvInput PromptChoice " 2"]))
                ["3"]
                [EvInput (PromptScreenshotFile
                            (Demo.target +:+ "_subdomains.txt")) "";
                 EvPrint (MsgInputFileMissing
                            (chosen_input_file Demo.target ""))]))
    = commands_of (trace Demo.at_menu).
Proof.
  assert (H1 : Py.strip " 2" = "2") by reflexivity.
  assert (H2 : stdin Demo.at_menu = [" 2"; ""; "3"]) by reflexivity.
  assert (H3 : files Demo.at_menu !! chosen_input_file Demo.target "" = None)
    by (vm_compute; reflexivity).
  split; [exact H1|]. split; [exact H2|]. split; [exact H3|].
  exact (proj1 (proj2 (screenshot_missing_input unit Demo.shell_ok
                         Demo.open_flat Demo.target Demo.at_menu 1 " 2" ""
                         ["3"] H1 H2 H3))).
Defined.



(** C10 on the host where every command fails. *)
Lemma expansion_never_aborts_witness :
  "a.example.com" ≠ Demo.target
  ∧ fruitless (Completed "" "" 1)
  ∧ contribution "subfinder -d a.example.com" "subfinder"
      (Completed "" "" 1) ∅ = ∅
  ∧ ∃ newly_found' w',
      recursive_loop Demo.shell_failing Demo.target 1 0
        ["a.example.com"] ∅ (Demo.empty_world tt)
      = (Ok newly_found', w').
Proof.
  assert (H1 : "a.example.com" ≠ Demo.target) by discriminate.
  assert (H2 : fruitless (Completed "" "" 1)) by (left; discriminate).
  split; [exact H1|]. split; [exact H2|].
  pose proof (expansion_never_aborts unit Demo.shell_failing Demo.target
                1 0 "a.example.com" [] ∅ (Demo.empty_world tt) H1) as H.
  cbv beta iota zeta delta [Demo.shell_failing] in H.
  destruct H as (_ & Hnone & _ & (n' & w' & Hrun & _) & _).
  split; [exact (Hnone H2)|].
  exists n', w'. exact Hrun.
Defined.

(** A final file left by an earlier run, on a host where every command
    fails and on a host where every command exits with code zero and
    does nothing: the file is there, unchanged, after both runs, and the
    second run returns its path. *)
Example stale_file_runs :
  (let r := find_subdomains Demo.shell_failing Demo.open_flat Demo.target
              Demo.stale_world in
   r.1 = Ok None
   ∧ files r.2 !! live_subdomains_file Demo.target
     = Some (Text ("old.example.com" +:+ nl)))
  ∧ (let r := find_subdomains Demo.shell_idle Demo.open_flat Demo.target
                Demo.stale_world in
     r.1 = Ok (Some (live_subdomains_file Demo.target))
     ∧ files r.2 !! live_subdomains_file Demo.target
       = Some (Text ("old.example.com" +:+ nl))).
Proof. repeat split; vm_compute; reflexivity. Qed.

(** A whole session on the working host: an invalid choice, the
    screenshot step without its input file, a discovery run, exit. *)
Example session_example :
  let r := main Demo.shell_ok Demo.open_flat
             (mkWorld ∅ tt ["example.com"; "9"; "2"; ""; "1"; "3"] []) in
  r.1 = Ok true
  ∧ stdin r.2 = []
  ∧ commands_of (trace r.2) =
      [subfinder_command Demo.target; amass_command Demo.target;
       "subfinder -d a.example.com"; "amass enum -d a.example.com";
       "subfinder -d b.example.com"; "amass enum -d b.example.com";
       httpx_command Demo.target]
  ∧ map_to_list (files r.2)
    = [(live_subdomains_file Demo.target, Text ("a.example.com" +:+ nl))].
Proof. repeat split; vm_compute; reflexivity. Qed.

(** A target domain with a "/" in it, on the host where every command
    fails and no directory is there: the open of line 103 raises
    [FileNotFoundError] after the two tools were launched; the probe is
    not launched and nothing is written. *)
Example slash_in_domain_raises :
  let r := find_subdomains Demo.shell_failing Demo.open_flat
             Hosts.slash_target (Demo.empty_world tt) in
  r.1 = Raise FileNotFoundError
  ∧ commands_of (trace r.2) =
      [subfinder_command Hosts.slash_target; amass_command Hosts.slash_target]
  ∧ written_of (trace r.2) = [].
Proof. repeat split; vm_compute; reflexivity. Qed.

(** The same from the menu: with a URL typed for the domain and choice 1,
    the exception leaves [main], and the third line of input is never
    read. *)
Example url_for_domain_ends_session :
  let r := main Demo.shell_failing Demo.open_flat Hosts.url_session in
  r.1 = Raise FileNotFoundError
  ∧ stdin r.2 = ["3"].
Proof. repeat split; vm_compute; reflexivity. Qed.

(** An output file whose bytes do not decode, left by a tool that exits
    with code 0: the read of lines 54-56 raises, amass is not launched. *)
Example garbled_tool_file_raises :
  let r := find_subdomains Hosts.shell_garbled_tool Demo.open_flat Demo.target
             (Demo.empty_world tt) in
  r.1 = Raise UnicodeDecodeError
  ∧ commands_of (trace r.2) = [subfinder_command Demo.target].
Proof. repeat split; vm_compute; reflexivity. Qed.

(** * Further properties *)

(** ** Trimming and line splitting *)

Lemma rstrip_cons c s :
  Py.rstrip (String c s) =
  match Py.rstrip s with
  | EmptyString =>
      if Py.is_space c then EmptyString else String c EmptyString
  | r => String c r
  end.
Proof. reflexivity. Qed.

Lemma rstrip_idem s : Py.rstrip (Py.rstrip s) = Py.rstrip s.
Proof.
  induction s as [|c s IH]; [done|]. rewrite rstrip_cons.
  destruct (Py.rstrip s) as [|a r] eqn:Hr.
  - destruct (Py.is_space c) eqn:Hc; [done|]. cbn. by rewrite Hc.
  - by rewrite rstrip_cons, IH.
Qed.

Lemma rstrip_keeps_head c t :
  Py.is_space c = false → ∃ r, Py.rstrip (String c t) = String c r.
Proof.
  intros Hc. rewrite rstrip_cons. destruct (Py.rstrip t); rewrite ?Hc; eauto.
Qed.

Lemma lstrip_head s :
  Py.lstrip s = EmptyString
  ∨ ∃ c t, Py.lstrip s = String c t ∧ Py.is_space c = false.
Proof.
  induction s as [|c s IH]; [by left|]. cbn [Py.lstrip].
  destruct (Py.is_space c) eqn:Hc; [done|]. right. eauto.
Qed.

(** Trimming twice is trimming once. *)
Lemma strip_idem s : Py.strip (Py.strip s) = Py.strip s.
Proof.
  unfold Py.strip.
  destruct (lstrip_head s) as [->|(c & t & -> & Hc)]; [done|].
  destruct (rstrip_keeps_head c t Hc) as [r Hr]. rewrite Hr.
  cbn [Py.lstrip]. rewrite Hc, <-Hr. apply rstrip_idem.
Qed.

Lemma one_line_lstrip s : one_line s → one_line (Py.lstrip s).
Proof.
  induction s as [|c s IH]; [done|]. intros Hs. cbn [Py.lstrip].
  destruct (Py.is_space c); [|done]. apply IH.
  cbn [one_line] in Hs. by apply andb_prop_elim in Hs as [_ Hs].
Qed.

Lemma one_line_rstrip s : one_line s → one_line (Py.rstrip s).
Proof.
  induction s as [|c s IH]; [done|]. intros Hs. cbn [one_line] in Hs.
  apply andb_prop_elim in Hs as [Hc Hs]. rewrite rstrip_cons.
  specialize (IH Hs). destruct (Py.rstrip s) as [|a r].
  - destruct (Py.is_space c); [done|]. cbn [one_line].
    apply andb_prop_intro. by split.
  - cbn [one_line] in *. apply andb_prop_intro. by split.
Qed.

Lemma rstrip_app_nl b : Py.rstrip (b +:+ nl) = Py.rstrip b.
Proof.
  induction b as [|c b IH]; [done|].
  change (String c b +:+ nl) with (String c (b +:+ nl)).
  by rewrite !rstrip_cons, IH.
Qed.

Lemma lstrip_app_nl b :
  one_line b →
  Py.lstrip (b +:+ nl) = EmptyString
  ∨ ∃ b', one_line b' ∧ Py.lstrip (b +:+ nl) = b' +:+ nl.
Proof.
  induction b as [|c b IH]; [by left|]. intros Hb.
  change (String c b +:+ nl) with (String c (b +:+ nl)).
  cbn [Py.lstrip]. destruct (Py.is_space c).
  - apply IH. cbn [one_line] in Hb. by apply andb_prop_elim in Hb as [_ Hb].
  - right. by exists (String c b).
Qed.

(** A line as a file hands it out, trimmed, has no line break left. *)
Lemma strip_file_line l :
  (one_line l ∨ ∃ b, one_line b ∧ l = b +:+ nl) → one_line (Py.strip l).
Proof.
  unfold Py.strip. intros [Hl|(b & Hb & ->)].
  - by apply one_line_rstrip, one_line_lstrip.
  - destruct (lstrip_app_nl b Hb) as [->|(b' & Hb' & ->)]; [done|].
    rewrite rstrip_app_nl. by apply one_line_rstrip.
Qed.

Lemma push_char_elem c ls l :
  l ∈ Py.push_char c ls →
  (ls = [] ∧ l = String c EmptyString)
  ∨ (∃ l0 ls', ls = l0 :: ls' ∧ (l = String c l0 ∨ l ∈ ls')).
Proof.
  destruct ls as [|l0 ls']; cbn [Py.push_char].
  - intros ->%list_elem_of_singleton. by left.
  - intros [->|Hl]%elem_of_cons; right; eauto.
Qed.

Lemma iter_lines_shape content :
  ∀ l, l ∈ Py.iter_lines content →
       one_line l ∨ ∃ b, one_line b ∧ l = b +:+ nl.
Proof.
  assert (Hnl : ∀ l, l = nl → one_line l ∨ ∃ b, one_line b ∧ l = b +:+ nl).
  { intros l ->. right. by exists EmptyString. }
  remember (S (String.length content)) as n eqn:Hn.
  assert (Hlt : (String.length content < n)%nat) by lia. clear Hn.
  revert content Hlt. induction n as [|n IH]; intros content Hlt; [cbn [String.length] in *; lia|].
  destruct content as [|c s]; intros l Hl; [by apply elem_of_nil in Hl|].
  cbn [String.length] in Hlt.
  cbn [Py.iter_lines] in Hl.
  destruct (Ascii.eqb c Py.LF) eqn:Hlf.
  { apply elem_of_cons in Hl as [->|Hl]; [by apply Hnl|].
    apply (IH s); [cbn [String.length] in *; lia|done]. }
  destruct (Ascii.eqb c Py.CR) eqn:Hcr.
  { destruct s as [|c' s'].
    - apply list_elem_of_singleton in Hl. by apply Hnl.
    - destruct (Ascii.eqb c' Py.LF);
        (apply elem_of_cons in Hl as [->|Hl]; [by apply Hnl|]).
      + apply (IH s'); [cbn [String.length] in *; lia|done].
      + apply (IH (String c' s')); [cbn [String.length] in *; lia|done]. }
  apply push_char_elem in Hl as [[_ ->]|(l0 & ls' & Hls & [->|Hl])].
  - left. cbn [one_line]. by rewrite Hlf, Hcr.
  - destruct (IH s) with (l := l0) as [H0|(b & Hb & ->)];
      [cbn [String.length] in *; lia|rewrite Hls; set_solver| |].
    + left. cbn [one_line]. by rewrite Hlf, Hcr.
    + right. exists (String c b). split; [|done].
      cbn [one_line]. by rewrite Hlf, Hcr.
  - apply (IH s); [cbn [String.length] in *; lia|rewrite Hls; set_solver].
Qed.

Lemma splitlines_one_line text :
  ∀ l, l ∈ Py.splitlines text → one_line l.
Proof.
  remember (S (String.length text)) as n eqn:Hn.
  assert (Hlt : (String.length text < n)%nat) by lia. clear Hn.
  revert text Hlt. induction n as [|n IH]; intros text Hlt; [cbn [String.length] in *; lia|].
  destruct text as [|c s]; intros l Hl; [by apply elem_of_nil in Hl|].
  cbn [String.length] in Hlt.
  cbn [Py.splitlines] in Hl.
  destruct (Py.is_linebreak c) eqn:Hbr.
  { destruct s as [|c' s'].
    - by apply list_elem_of_singleton in Hl as ->.
    - destruct (Ascii.eqb c Py.CR && Ascii.eqb c' Py.LF);
        (apply elem_of_cons in Hl as [->|Hl]; [done|]).
      + apply (IH s'); [cbn [String.length] in *; lia|done].
      + apply (IH (String c' s')); [cbn [String.length] in *; lia|done]. }
  assert (Hc : negb (Ascii.eqb c Py.LF) && negb (Ascii.eqb c Py.CR) = true).
  { destruct (Ascii.eqb c Py.LF) eqn:Hlf.
    - apply Ascii.eqb_eq in Hlf as ->. by vm_compute in Hbr.
    - destruct (Ascii.eqb c Py.CR) eqn:Hcr; [|done].
      apply Ascii.eqb_eq in Hcr as ->. by vm_compute in Hbr. }
  apply push_char_elem in Hl as [[_ ->]|(l0 & ls' & Hls & [->|Hl])].
  - cbn [one_line]. by rewrite Hc.
  - cbn [one_line]. rewrite Hc. cbn.
    apply (IH s); [cbn [String.length] in *; lia|rewrite Hls; set_solver].
  - apply (IH s); [cbn [String.length] in *; lia|rewrite Hls; set_solver].
Qed.

(** ** What gets into the set *)

Lemma trimmed_elem x lines :
  x ∈ trimmed lines ↔ ∃ l, l ∈ lines ∧ x = Py.strip l.
Proof.
  unfold trimmed. rewrite elem_of_list_to_set, list_elem_of_fmap.
  naive_solver.
Qed.

(** A trimmed line of a tool's output file has no line break in it and
    no white space around it. *)
Lemma line_of_output_shape f l fs sub :
  line_of_output f l fs sub → one_line sub ∧ Py.strip sub = sub.
Proof.
  intros (out & err & text & line & _ & _ & Hline & ->).
  split; [|apply strip_idem].
  apply strip_file_line. by eapply iter_lines_shape.
Qed.

Lemma add_stdout_lines_elem x newly_found lines :
  x ∈ add_stdout_lines newly_found lines
  ↔ x ∈ newly_found
    ∨ (x ≠ EmptyString ∧ ∃ l, l ∈ lines ∧ x = Py.strip l).
Proof.
  unfold add_stdout_lines. revert newly_found.
  induction lines as [|l lines IH]; intros newly_found; cbn [foldl].
  - split; [by left|]. intros [?|(_ & l & []%elem_of_nil & _)]. done.
  - rewrite IH. case_decide as Hl.
    + split.
      * intros [?|(? & l' & ? & ?)]; [by left|]. right. split; [done|].
        exists l'. split; [by right|done].
      * intros [?|(Hx & l' & [->|?]%elem_of_cons & ->)]; [by left|done|].
        right. eauto.
    + rewrite elem_of_union, elem_of_singleton. split.
      * intros [[->|?]|(? & l' & ? & ?)].
        -- right. split; [done|]. exists l. split; [by left|done].
        -- by left.
        -- right. split; [done|]. exists l'. split; [by right|done].
      * intros [?|(Hx & l' & [->|?]%elem_of_cons & ->)];
          [by left; right|by left; left|].
        right. eauto.
Qed.

(** What a launch of the expansion loop adds is a trimmed line of what
    the launch printed, the launch having exited with code zero; it is
    not empty and has no line break; what was there stays. *)
Lemma contribution_elem command label l newly_found x :
  x ∈ contribution command label l newly_found →
  x ∈ newly_found
  ∨ (x ≠ EmptyString ∧ one_line x ∧ Py.strip x = x ∧ line_of_stdout l x).
Proof.
  unfold contribution, outcome_of, line_of_stdout.
  destruct l as [out err rc|[ |msg| ]]; cbn [fst]; [|by left..].
  destruct (rc =? 0) eqn:Hrc; cbn [negb andb fst].
  2: { destruct (Py.contains _ _); cbn [fst]; rewrite Hrc; by left. }
  apply Z.eqb_eq in Hrc as ->. cbn [Z.eqb andb default].
  destruct (Py.truthy (Some out)); [|by left].
  intros [?|(Hx & line & Hline & ->)]%add_stdout_lines_elem; [by left|].
  right. split; [done|]. split; [|split; [apply strip_idem|]].
  - apply strip_file_line. left. by eapply splitlines_one_line.
  - by exists out, err, line.
Qed.

Lemma contribution_subset command label l newly_found :
  newly_found ⊆ contribution command label l newly_found.
Proof.
  unfold contribution.
  destruct (outcome_of command label l).1 as [[stdout stderr] rc].
  destruct (_ && _); [|done].
  intros x Hx. apply add_stdout_lines_elem. by left.
Qed.

Section MoreFacts.

Context {Ext : Type}.
Variable shell :
  string → gmap string File → Ext → Launch * gmap string File * Ext.

Local Abbreviation World := (@World Ext).

Lemma captured_from_later (w w1 : World) command x :
  via_shell shell w w1 →
  captured_from shell w1 command x → captured_from shell w command x.
Proof.
  intros Hv (w0 & Hv0 & Hline). exists w0. split; [|done].
  by eapply via_shell_trans.
Qed.

(** Every name the expansion loop adds was printed by a launch of one of
    the two commands of a target of the loop. *)
Lemma recursive_loop_members target_domain total subs :
  ∀ i newly_found (w : World) newly_found' w',
    recursive_loop shell target_domain total i subs newly_found w
      = (Ok newly_found', w') →
    newly_found ⊆ newly_found'
    ∧ ∀ x, x ∈ newly_found' →
           x ∈ newly_found
           ∨ (x ≠ EmptyString ∧ one_line x ∧ Py.strip x = x
              ∧ ∃ sub command,
                  sub ∈ subs ∧ sub ≠ target_domain
                  ∧ command ∈ expansion_commands sub
                  ∧ captured_from shell w command x).
Proof.
  induction subs as [|sub subs IH]; intros i newly_found w newly_found' w'.
  - cbn. intros [= <- <-]. split; [done|]. by left.
  - destruct (decide (sub = target_domain)) as [->|Hne].
    + rewrite recursive_loop_skip. intros [Hsub Hmem]%IH. split; [done|].
      intros x [Hx|(H1 & H2 & H3 & s & c & Hs & Hrest)]%Hmem; [by left|].
      right. do 3 (split; [done|]). exists s, c. split; [by right|done].
    + rewrite recursive_loop_cons by done. cbn zeta.
      destruct (shell _ (files w) (ext w)) as [[l1 fs1] x1] eqn:Hs1.
      destruct (shell _ fs1 x1) as [[l2 fs2] x2] eqn:Hs2.
      match goal with
      | |- recursive_loop _ _ _ _ _ _ ?w0 = _ → _ => set (w1 := w0)
      end.
      assert (Hv0 : via_shell shell w (mkWorld fs1 x1 [] [])).
      { by eapply via_shell_step. }
      assert (Hv1 : via_shell shell w w1).
      { eapply via_shell_trans; [exact Hv0|].
        by eapply (via_shell_step _ _ (mkWorld fs1 x1 [] [])). }
      intros [Hsub Hmem]%IH. split.
      * etrans; [|exact Hsub].
        etrans; [|apply contribution_subset]. apply contribution_subset.
      * intros x [Hx|(H1 & H2 & H3 & s & c & Hs & Hns & Hc & Hcap)]%Hmem.
        -- apply contribution_elem in Hx as [Hx|(H1 & H2 & H3 & Hline)].
           ++ apply contribution_elem in Hx as [Hx|(H1 & H2 & H3 & Hline)];
                [by left|].
              right. do 3 (split; [done|]).
              exists sub, ("subfinder -d " +:+ sub).
              split; [by left|]. split; [done|].
              split; [by left|]. exists w.
              split; [apply via_shell_refl|]. by rewrite Hs1.
           ++ right. do 3 (split; [done|]).
              exists sub, ("amass enum -d " +:+ sub).
              split; [by left|]. split; [done|].
              split; [by right; left|]. exists (mkWorld fs1 x1 [] []).
              split; [done|]. cbn [files ext]. by rewrite Hs2.
        -- right. do 3 (split; [done|]). exists s, c.
           split; [by right|]. split; [done|]. split; [done|].
           by eapply captured_from_later.
Qed.

(** Expansion only adds to the set, and every name it adds was printed
    by a launch of one of the two commands of a member of the initial
    set other than the target domain. *)
Lemma recursive_expansion_members target_domain unique (w : World) unique' w' :
  recursive_expansion shell target_domain unique w = (Ok unique', w') →
  unique ⊆ unique'
  ∧ ∀ x, x ∈ unique' →
         x ∈ unique
         ∨ (x ≠ EmptyString ∧ one_line x ∧ Py.strip x = x
            ∧ ∃ sub command,
                sub ∈ unique ∧ sub ≠ target_domain
                ∧ command ∈ expansion_commands sub
                ∧ captured_from shell w command x).
Proof.
  unfold recursive_expansion.
  unfold bind at 1. cbn [print log].
  unfold bind at 1.
  destruct (recursive_loop shell _ _ _ _ _ _) as [[newly|e] w1] eqn:Hloop;
    [|done].
  apply recursive_loop_members in Hloop as [_ Hmem].
  unfold bind at 1. cbn [print log].
  unfold bind at 1. cbn [print log ret]. intros [= <- <-].
  split; [set_solver|].
  intros x [Hx|Hx]%elem_of_union; [by left|].
  apply Hmem in Hx
    as [[]%not_elem_of_empty|(H1 & H2 & H3 & s & c & Hs & Hns & Hc & Hcap)].
  right. do 3 (split; [done|]). exists s, c.
  split; [by apply elem_of_elements|]. split; [done|]. split; [done|].
  eapply captured_from_later; [|exact Hcap]. by apply via_shell_same.
Qed.

(** After initial discovery every member but the target domain is a
    trimmed line of a file that was read. *)
Lemma initial_discovery_members target_domain (w : World) unique fl w1 :
  initial_discovery shell target_domain w = (Ok (Some (unique, fl)), w1) →
  let '(l1, fs1, x1) :=
    shell (subfinder_command target_domain) (files w) (ext w) in
  let '(l2, fs2, x2) := shell (amass_command target_domain) fs1 x1 in
  target_domain ∈ unique
  ∧ ∀ x, x ∈ unique →
         x = target_domain
         ∨ ((line_of_output (tool_output_file target_domain "subfinder")
               l1 fs1 x
             ∨ line_of_output (tool_output_file target_domain "amass")
                 l2 fs2 x)
            ∧ one_line x ∧ Py.strip x = x).
Proof.
  intros Hd.
  pose proof (initial_discovery_some shell target_domain w _ _ _ Hd) as Hin.
  cbn zeta in Hin.
  destruct (shell _ (files w) (ext w)) as [[l1 fs1] x1].
  destruct (shell _ fs1 x1) as [[l2 fs2] x2].
  destruct Hin as (-> & _). split; [set_solver|].
  intros x [->%elem_of_singleton|Hx]%elem_of_union; [by left|]. right.
  apply elem_of_union in Hx as [Hx%trimmed_lines_read|Hx%trimmed_lines_read].
  - split; [by left|]. by eapply line_of_output_shape.
  - split; [by right|]. by eapply line_of_output_shape.
Qed.

End MoreFacts.

Section RunFacts.

Context {Ext : Type}.
Variable shell :
  string → gmap string File → Ext → Launch * gmap string File * Ext.

Local Abbreviation World := (@World Ext).

(** The screenshot step with its input file in place. *)
Lemma screenshot_present target_domain (w : World) answer rest :
  stdin w = answer :: rest →
  is_Some (files w !! chosen_input_file target_domain answer) →
  let command :=
    eyewitness_command (chosen_input_file target_domain answer)
      ("screenshots_" +:+ target_domain) in
  let '(l, fs, x) := shell command (files w) (ext w) in
  let '(_, stderr, returncode) := (outcome_of command "eyewitness" l).1 in
  ∃ w',
    screenshot_subdomains shell target_domain w = (Ok tt, w')
    ∧ files w' = fs ∧ ext w' = x ∧ stdin w' = rest
    ∧ commands_of (trace w') = commands_of (trace w) ++ [command]
    ∧ touched_of (trace w') = touched_of (trace w)
    ∧ last (trace w') =
        Some (EvPrint (if returncode =? 0
                       then MsgScreenshotsDone ("screenshots_" +:+ target_domain)
                       else MsgScreenshotsFailed (Py.strip stderr))).
Proof.
  intros Hin Hex. cbn zeta.
  remember (screenshot_subdomains shell target_domain w) as res eqn:Hres.
  unfold screenshot_subdomains in Hres.
  fold (chosen_input_file target_domain answer) in Hres.
  unfold bind at 1 in Hres. unfold input in Hres. rewrite Hin in Hres.
  fold (chosen_input_file target_domain answer) in Hres.
  unfold bind at 1 in Hres. unfold path_exists in Hres. cbn [files] in Hres.
  rewrite bool_decide_true in Hres by done. cbn [negb] in Hres.
  do 2 (unfold bind at 1 in Hres; cbn [print log files ext stdin trace] in Hres).
  unfold bind at 1 in Hres. rewrite run_command_eq in Hres.
  cbn [files ext stdin trace] in Hres.
  fold (eyewitness_command (chosen_input_file target_domain answer)
          ("screenshots_" +:+ target_domain)) in Hres.
  destruct (shell _ (files w) (ext w)) as [[l fs] x].
  destruct (outcome_of _ "eyewitness" l) as [[[o e] r] m]. cbn [fst].
  exists res.2. destruct (r =? 0).
  - subst res. unfold print, log. cbn [snd files ext stdin trace].
    rewrite last_snoc, !commands_of_app, !touched_of_app,
      commands_of_prints, touched_of_prints. cbn. by rewrite !app_nil_r.
  - unfold bind at 1 in Hres. cbn [print log] in Hres.
    assert (Hres' : res = (Ok tt, (res.2))).
    { rewrite Hres. by destruct (Py.contains _ _). }
    split; [done|]. clear Hres'. subst res.
    destruct (Py.contains _ _); unfold ret; cbn [snd files ext stdin trace].
    all: rewrite last_snoc, !commands_of_app, !touched_of_app,
           commands_of_prints, touched_of_prints; cbn.
    all: by rewrite !app_nil_r.
Qed.

(** The screenshot step either returns or stops at the end of the
    input. *)
Lemma screenshot_result target_domain (w : World) :
  (∃ w', screenshot_subdomains shell target_domain w = (Ok tt, w'))
  ∨ (screenshot_subdomains shell target_domain w = (Raise EOFError, w)
     ∧ stdin w = []).
Proof.
  destruct (stdin w) as [|answer rest] eqn:Hin.
  - right. split; [|done]. unfold screenshot_subdomains.
    unfold bind at 1. unfold input. by rewrite Hin.
  - left.
    destruct (files w !! chosen_input_file target_domain answer) as [c|] eqn:Hf.
    + pose proof (screenshot_present target_domain w answer rest Hin) as Hp.
      rewrite Hf in Hp. specialize (Hp (mk_is_Some _ _ eq_refl)).
      cbn zeta in Hp.
      destruct (shell _ (files w) (ext w)) as [[l fs] x].
      destruct (outcome_of _ "eyewitness" l).1 as [[o e] r].
      destruct Hp as (w' & Hp & _). eauto.
    + rewrite (screenshot_missing shell _ _ _ _ Hin Hf). eauto.
Qed.

(** The live filter on a probe that exits with code zero and leaves a
    final file that holds text: the last line printed counts the lines
    of that file. *)
Lemma live_filter_reports_count target_domain fl (w : World)
    stdout stderr fs x content :
  live_subdomains_file target_domain ∉ fl →
  shell (httpx_command target_domain) (files w) (ext w)
    = (Completed stdout stderr 0, fs, x) →
  fs !! live_subdomains_file target_domain = Some (Text content) →
  ∃ w',
    live_filter shell target_domain fl w
      = (Ok (Some (live_subdomains_file target_domain)), w')
    ∧ last (trace w')
      = Some (EvPrint (MsgLiveCount (length (Py.iter_lines content))))
    ∧ files w' !! live_subdomains_file target_domain = Some (Text content).
Proof.
  intros Hfl Hs Hlive.
  remember (live_filter shell target_domain fl w) as res eqn:Hres.
  unfold live_filter in Hres.
  unfold bind at 1 in Hres. cbn [print log] in Hres.
  unfold bind at 1 in Hres. rewrite run_command_eq in Hres.
  cbn [files ext stdin trace] in Hres. rewrite Hs in Hres.
  cbn [outcome_of Z.eqb negb andb fmap list_fmap] in Hres.
  unfold bind at 1 in Hres. unfold zero_and_exists in Hres.
  cbn [Z.eqb path_exists files] in Hres.
  rewrite bool_decide_true in Hres by (by rewrite Hlive).
  unfold bind at 1 in Hres. cbn [print log files ext stdin trace] in Hres.
  unfold bind at 1 in Hres.
  match type of Hres with
  | context [cleanup fl ?w0] =>
      destruct (cleanup_runs shell fl w0) as (w1 & Hcl & Hf1 & _)
  end.
  rewrite Hcl in Hres. unfold bind at 1 in Hres.
  rewrite remove_if_exists_eq in Hres.
  unfold bind at 1 in Hres. unfold read_file in Hres.
  cbn [files ext stdin trace] in Hres.
  assert (Hkeep : delete (temp_subdomain_file target_domain) (files w1)
                  !! live_subdomains_file target_domain = Some (Text content)).
  { rewrite lookup_delete_ne by (symmetry; apply live_not_temp).
    rewrite Hf1. cbn [files]. rewrite lookup_foldl_delete.
    by rewrite decide_False. }
  rewrite Hkeep in Hres.
  unfold bind at 1 in Hres. cbn [print log ret] in Hres.
  exists res.2. subst res. unfold ret. cbn [snd files trace].
  split; [done|]. split; [apply last_snoc|done].
Qed.

End RunFacts.

Section MenuFacts.

Context {Ext : Type}.
Variable shell :
  string → gmap string File → Ext → Launch * gmap string File * Ext.
Variable open_w : string → Ext → option OpenError.

Local Abbreviation World := (@World Ext).

Lemma live_truthy target_domain :
  Py.truthy (Some (live_subdomains_file target_domain)) = true.
Proof. unfold live_subdomains_file. by destruct target_domain. Qed.

(** A discovery run picked from the menu: when it returns, the pass
    prints its line and asks for another pass; when it raises, so does
    the pass. *)
Lemma menu_step_discovery target_domain (w : World) answer rest :
  stdin w = answer :: rest →
  Py.strip answer = "1" →
  match find_subdomains shell open_w target_domain
          (advance w rest (menu_banner ++ [EvInput PromptChoice answer])) with
  | (Ok r, w1) =>
      (r = None ∨ r = Some (live_subdomains_file target_domain))
      ∧ stdin w1 = rest
      ∧ menu_step shell open_w target_domain w =
          (Ok false,
           advance w1 rest
             [EvPrint match r with
                      | Some f => MsgFindingCompleted f
                      | None => MsgFindingFailed
                      end])
  | (Raise e, w1) =>
      e ≠ EOFError
      ∧ stdin w1 = rest
      ∧ menu_step shell open_w target_domain w = (Raise e, w1)
  end.
Proof.
  intros Hin Hch. rewrite (menu_step_prompt shell open_w _ _ _ _ Hin).
  cbn zeta. rewrite Hch, decide_True by done.
  pose proof (find_subdomains_frame shell open_w target_domain
                (advance w rest (menu_banner ++ [EvInput PromptChoice answer])))
    as (Hi & _ & Hr & Hne).
  destruct (find_subdomains _ _ _ _) as [[r|e] w1] eqn:Hrun;
    cbn [fst snd] in *.
  - assert (Hr' : r = None ∨ r = Some (live_subdomains_file target_domain)).
    { destruct r as [p|]; [right|by left].
      by destruct (Hr p eq_refl) as [-> _]. }
    split; [done|]. split; [done|].
    unfold bind at 1. rewrite Hrun. unfold bind at 1.
    destruct Hr' as [->| ->].
    + cbn [Py.truthy print log ret]. unfold advance. by rewrite Hi.
    + rewrite live_truthy. cbn [print log ret default]. unfold advance.
      by rewrite Hi.
  - split; [congruence|]. split; [done|].
    unfold bind at 1. by rewrite Hrun.
Qed.

(** How a pass through the menu can end. *)
Lemma menu_step_outcome target_domain (w : World) r w' :
  menu_step shell open_w target_domain w = (r, w') →
  (r = Ok true ∧ last (trace w') = Some (EvPrint MsgGoodbye))
  ∨ (r = Ok false ∧ (length (stdin w') < length (stdin w))%nat)
  ∨ (r = Raise EOFError ∧ stdin w' = [])
  ∨ (∃ e, r = Raise e ∧ e ≠ EOFError).
Proof.
  destruct (stdin w) as [|answer rest] eqn:Hin.
  { unfold menu_step.
    do 4 (unfold bind at 1; cbn [print log files ext stdin trace]).
    unfold bind at 1. unfold input. cbn [files ext stdin trace].
    rewrite Hin. intros [= <- <-]. right. right. left. by cbn. }
  destruct (decide (Py.strip answer = "1")) as [H1|H1].
  { pose proof (menu_step_discovery target_domain w answer rest Hin H1) as Hd.
    destruct (find_subdomains _ _ _ _) as [[r0|e] w1].
    - destruct Hd as (_ & _ & ->). intros [= <- <-].
      right. left. split; [done|]. cbn. lia.
    - destruct Hd as (Hne & _ & ->). intros [= <- <-].
      right. right. right. by exists e. }
  rewrite (menu_step_prompt shell open_w _ _ _ _ Hin). cbn zeta.
  rewrite (decide_False (P := Py.strip answer = "1")) by done.
  repeat case_decide.
  - set (w1 := advance w rest _).
    unfold bind at 1.
    pose proof (screenshot_stdin shell target_domain w1) as Hle.
    destruct (screenshot_result shell target_domain w1)
      as [[w2 Hs]|[Hs Hnil]]; rewrite Hs in *.
    + unfold bind at 1. cbn [print log ret]. intros [= <- <-].
      right. left. split; [done|]. cbn in *. lia.
    + intros [= <- <-]. by right; right; left.
  - intros [= <- <-]. left. split; [done|].
    unfold advance. cbn [trace]. by rewrite last_snoc.
  - intros [= <- <-]. right. left. split; [done|]. cbn. lia.
Qed.

Lemma menu_loop_outcome target_domain fuel :
  ∀ (w : World) r w',
    (length (stdin w) < fuel)%nat →
    menu_loop shell open_w fuel target_domain w = (r, w') →
    (r = Ok true ∧ last (trace w') = Some (EvPrint MsgGoodbye))
    ∨ (r = Raise EOFError ∧ stdin w' = [])
    ∨ (∃ e, r = Raise e ∧ e ≠ EOFError).
Proof.
  induction fuel as [|fuel IH]; intros w r w' Hlt; [lia|].
  cbn [menu_loop]. unfold bind at 1.
  destruct (menu_step shell open_w target_domain w) as [r1 w1] eqn:Hs.
  apply menu_step_outcome in Hs
    as [[-> Hg]|[[-> Hl]|[[-> Hnil]|(e & -> & Hne)]]].
  - intros [= <- <-]. by left.
  - apply IH. lia.
  - intros [= <- <-]. by right; left.
  - intros [= <- <-]. right. right. by exists e.
Qed.

Lemma main_outcome (w : World) r w' :
  main shell open_w w = (r, w') →
  (r = Ok true
   ∧ (last (trace w') = Some (EvPrint MsgGoodbye)
      ∨ last (trace w') = Some (EvPrint MsgDomainEmpty)))
  ∨ (r = Raise EOFError ∧ stdin w' = [])
  ∨ (∃ e, r = Raise e ∧ e ≠ EOFError).
Proof.
  unfold main.
  do 3 (unfold bind at 1; cbn [print log files ext stdin trace]).
  unfold bind at 1. unfold input. cbn [files ext stdin trace].
  destruct (stdin w) as [|answer rest] eqn:Hin.
  { intros [= <- <-]. right. left. by cbn. }
  case_decide.
  - unfold bind at 1. cbn [print log ret]. intros [= <- <-].
    left. split; [done|]. right. cbn [trace]. by rewrite last_snoc.
  - intros Hloop. apply menu_loop_outcome in Hloop as [[-> Hg]|Hr];
      [left; auto|by right|cbn; lia].
Qed.

End MenuFacts.

Section DiscoveryFacts.

Context {Ext : Type}.
Variable shell :
  string → gmap string File → Ext → Launch * gmap string File * Ext.

Local Abbreviation World := (@World Ext).

(** The early return, on a completed launch: the success test fails and
    the error text says "not found". *)
Lemma aborts_completed f command label stdout stderr returncode
    (fs : gmap string File) :
  returncode ≠ 0 ∨ fs !! f = None →
  Py.contains "not found" (Py.lower stderr) = true →
  aborts f command label (Completed stdout stderr returncode) fs = true.
Proof.
  intros Hfail Hnf. unfold aborts, tool_ok, stderr_of, outcome_of.
  rewrite Hnf.
  assert (Hok : (returncode =? 0) && bool_decide (is_Some (fs !! f)) = false).
  { destruct Hfail as [Hrc|Hf].
    - apply Z.eqb_neq in Hrc. by rewrite Hrc.
    - rewrite Hf, bool_decide_false by (by intros [? ?]).
      apply andb_false_r. }
  rewrite Hok. cbn [negb andb].
  by destruct (negb (returncode =? 0)); cbn; rewrite Hnf.
Qed.

(** No early return on a completed launch whose error text does not
    say "not found", nor on one that passes the success test. *)
Lemma no_abort_quiet f command label stdout stderr returncode
    (fs : gmap string File) :
  Py.contains "not found" (Py.lower stderr) = false →
  aborts f command label (Completed stdout stderr returncode) fs = false.
Proof.
  intros Hnf. unfold aborts, stderr_of, outcome_of. rewrite Hnf.
  rewrite andb_false_r. cbn [fst snd]. rewrite Hnf. apply andb_false_r.
Qed.

Lemma no_abort_ok f command label l (fs : gmap string File) :
  tool_ok f l fs = true → aborts f command label l fs = false.
Proof. unfold aborts. by intros ->. Qed.

(** The read raises on no file that holds text, and on no file that is
    not read. *)
Lemma readable_text f l (fs : gmap string File) text :
  fs !! f = Some (Text text) → unreadable f l fs = false.
Proof. unfold unreadable. intros ->. apply andb_false_r. Qed.

Lemma readable_failed f stdout stderr returncode (fs : gmap string File) :
  returncode ≠ 0 →
  unreadable f (Completed stdout stderr returncode) fs = false.
Proof.
  intros Hrc%Z.eqb_neq. unfold unreadable, tool_ok. by rewrite Hrc.
Qed.

Lemma unreadable_garbled f stdout stderr (fs : gmap string File) :
  fs !! f = Some Undecodable →
  unreadable f (Completed stdout stderr 0) fs = true.
Proof. unfold unreadable, tool_ok. by intros ->. Qed.

(** Expansion of a set that holds the target domain alone: nothing is
    launched, the set stays. *)
Lemma recursive_expansion_root target_domain (w : World) :
  ∃ w',
    recursive_expansion shell target_domain {[target_domain]} w
      = (Ok {[target_domain]}, w')
    ∧ files w' = files w ∧ ext w' = ext w ∧ stdin w' = stdin w
    ∧ commands_of (trace w') = commands_of (trace w).
Proof.
  unfold recursive_expansion. rewrite elements_singleton.
  unfold bind at 1. cbn [print log].
  unfold bind at 1. cbn [recursive_loop]. rewrite decide_True by done.
  cbn [ret]. unfold bind at 1. cbn [print log].
  unfold bind at 1. cbn [print log ret].
  rewrite (right_id_L ∅ (∪)).
  eexists. split; [reflexivity|]. cbn [files ext stdin trace].
  rewrite !commands_of_app. cbn. by rewrite !app_nil_r.
Qed.

Lemma full_set_text_root target_domain :
  full_set_text {[target_domain]} = target_domain +:+ nl.
Proof.
  unfold full_set_text. rewrite elements_singleton. reflexivity.
Qed.

End DiscoveryFacts.

(** * Further properties of the program *)

(** X1. Whatever the tools do and however it ends, [find_subdomains]
    reads no input (so it never stops on the end of the input), and
    writes and removes nothing but the three intermediate files; and
    when it returns a path, the path is the final file's and the file is
    there, holding text. *)
Theorem returned_path_is_the_final_file :
  ∀ (Ext : Type)
    (shell : string → gmap string File → Ext
             → Launch * gmap string File * Ext)
    (open_w : string → Ext → option OpenError)
    (target_domain : string) (w : @World Ext),
    let r := find_subdomains shell open_w target_domain w in
    stdin r.2 = stdin w
    ∧ (∀ p, p ∈ touched_of (trace r.2) →
            p ∈ touched_of (trace w)
            ∨ p ∈ [tool_output_file target_domain "subfinder";
                   tool_output_file target_domain "amass";
                   temp_subdomain_file target_domain])
    ∧ (∀ p, r.1 = Ok (Some p) →
            p = live_subdomains_file target_domain
            ∧ ∃ text, files r.2 !! p = Some (Text text))
    ∧ r.1 ≠ Raise EOFError.
Proof. intros. apply find_subdomains_frame. Qed.

(** X2. When subfinder's launch completes with "not found" in its error
    text and fails the success test (a code other than zero, or no
    output file, even with code zero), the run ends there with no
    result: amass and the probe are not launched and no file is written
    or removed. *)
Theorem first_tool_not_found_stops_run :
  ∀ (Ext : Type)
    (shell : string → gmap string File → Ext
             → Launch * gmap string File * Ext)
    (open_w : string → Ext → option OpenError)
    (target_domain : string) (w : @World Ext)
    (stdout stderr : string) (returncode : Z) fs1 x1,
    shell (subfinder_command target_domain) (files w) (ext w)
      = (Completed stdout stderr returncode, fs1, x1) →
    returncode ≠ 0 ∨ fs1 !! tool_output_file target_domain "subfinder" = None →
    Py.contains "not found" (Py.lower stderr) = true →
    ∃ w',
      find_subdomains shell open_w target_domain w = (Ok None, w')
      ∧ files w' = fs1 ∧ ext w' = x1
      ∧ commands_of (trace w') =
          commands_of (trace w) ++ [subfinder_command target_domain]
      ∧ touched_of (trace w') = touched_of (trace w).
Proof.
  intros Ext shell open_w target_domain w stdout stderr returncode fs1 x1
    Hs Hfail Hnf.
  pose proof (not_found_in_stderr_aborts shell open_w target_domain w) as Hab.
  cbn zeta in Hab. rewrite Hs in Hab. apply Hab.
  by rewrite aborts_completed.
Qed.

(** X3. When subfinder succeeds and amass's launch completes with "not
    found" in its error text and fails the success test, the run ends
    with no result right after amass: the probe is not launched and
    nothing is cleaned up, so subfinder's output file stays as amass's
    command left it. *)
Theorem second_tool_not_found_skips_cleanup :
  ∀ (Ext : Type)
    (shell : string → gmap string File → Ext
             → Launch * gmap string File * Ext)
    (open_w : string → Ext → option OpenError)
    (target_domain : string) (w : @World Ext)
    (out1 err1 content1 out2 err2 : string) (rc2 : Z) fs1 x1 fs2 x2,
    shell (subfinder_command target_domain) (files w) (ext w)
      = (Completed out1 err1 0, fs1, x1) →
    fs1 !! tool_output_file target_domain "subfinder" = Some (Text content1) →
    shell (amass_command target_domain) fs1 x1
      = (Completed out2 err2 rc2, fs2, x2) →
    rc2 ≠ 0 ∨ fs2 !! tool_output_file target_domain "amass" = None →
    Py.contains "not found" (Py.lower err2) = true →
    ∃ w',
      find_subdomains shell open_w target_domain w = (Ok None, w')
      ∧ files w' = fs2 ∧ ext w' = x2
      ∧ commands_of (trace w') =
          commands_of (trace w)
          ++ [subfinder_command target_domain; amass_command target_domain]
      ∧ touched_of (trace w') = touched_of (trace w).
Proof.
  intros Ext shell open_w target_domain w out1 err1 content1 out2 err2 rc2
    fs1 x1 fs2 x2 Hs1 Hf1 Hs2 Hfail Hnf.
  pose proof (second_not_found_in_stderr_aborts shell open_w target_domain w)
    as Hab.
  cbn zeta in Hab. rewrite Hs1, Hs2 in Hab. apply Hab.
  - rewrite no_abort_ok; [intros []|]. unfold tool_ok. by rewrite Hf1.
  - rewrite (readable_text _ _ _ _ Hf1). intros [].
  - by rewrite aborts_completed.
Qed.

(** X4. A tool that exits with a code other than zero and no "not
    found" in its error text does not stop discovery, and an output file
    it left is not read: with amass succeeding, the set is the target
    domain and the trimmed lines of amass's file, whatever is at
    subfinder's path. *)
Theorem failed_tool_is_skipped :
  ∀ (Ext : Type)
    (shell : string → gmap string File → Ext
             → Launch * gmap string File * Ext)
    (target_domain : string) (w : @World Ext)
    (out1 err1 out2 err2 content2 : string) (rc1 : Z) fs1 x1 fs2 x2,
    shell (subfinder_command target_domain) (files w) (ext w)
      = (Completed out1 err1 rc1, fs1, x1) →
    rc1 ≠ 0 →
    Py.contains "not found" (Py.lower err1) = false →
    shell (amass_command target_domain) fs1 x1
      = (Completed out2 err2 0, fs2, x2) →
    fs2 !! tool_output_file target_domain "amass" = Some (Text content2) →
    ∃ w1,
      initial_discovery shell target_domain w =
        (Ok (Some ({[target_domain]} ∪ trimmed (Py.iter_lines content2),
                   [tool_output_file target_domain "subfinder";
                    tool_output_file target_domain "amass"])), w1)
      ∧ files w1 = fs2 ∧ ext w1 = x2.
Proof.
  intros Ext shell target_domain w out1 err1 out2 err2 content2 rc1
    fs1 x1 fs2 x2 Hs1 Hrc1 Hnf1 Hs2 Hf2.
  pose proof (initial_discovery_cases shell target_domain w) as Hin.
  cbn zeta in Hin. rewrite Hs1, Hs2 in Hin.
  destruct Hin as (w1 & Hin & _).
  rewrite no_abort_quiet in Hin by done.
  rewrite readable_failed in Hin by done.
  rewrite no_abort_ok in Hin by (unfold tool_ok; by rewrite Hf2).
  rewrite (readable_text _ _ _ _ Hf2) in Hin.
  destruct Hin as (Hin & Hf & Hx & _). exists w1. split; [|done].
  rewrite Hin. do 3 f_equal. f_equal.
  unfold lines_read, tool_ok, text_at.
  apply Z.eqb_neq in Hrc1. rewrite Hrc1, Hf2.
  cbn. unfold trimmed at 1. cbn. by rewrite (left_id_L ∅ (∪)).
Qed.

(** X5. When both tools exit with a code other than zero and no "not
    found" in their error text, the run still goes on: nothing is
    expanded, and when the full-set file can be opened for writing the
    probe is launched on a full-set file that holds the target domain
    alone, the result follows the probe and the intermediate files are
    removed. *)
Theorem silent_failures_probe_the_root :
  ∀ (Ext : Type)
    (shell : string → gmap string File → Ext
             → Launch * gmap string File * Ext)
    (open_w : string → Ext → option OpenError)
    (target_domain : string) (w : @World Ext)
    (out1 err1 out2 err2 : string) (rc1 rc2 : Z) fs1 x1 fs2 x2,
    shell (subfinder_command target_domain) (files w) (ext w)
      = (Completed out1 err1 rc1, fs1, x1) →
    rc1 ≠ 0 →
    Py.contains "not found" (Py.lower err1) = false →
    shell (amass_command target_domain) fs1 x1
      = (Completed out2 err2 rc2, fs2, x2) →
    rc2 ≠ 0 →
    Py.contains "not found" (Py.lower err2) = false →
    open_w (temp_subdomain_file target_domain) x2 = None →
    let temp := temp_subdomain_file target_domain in
    let live := live_subdomains_file target_domain in
    let '(l, fs, x) :=
      shell (httpx_command target_domain)
        (<[temp := Text (target_domain +:+ nl)]> fs2) x2 in
    ∃ w',
      find_subdomains shell open_w target_domain w
        = (probe_result live l fs, w')
      ∧ files w' =
          delete temp
            (delete (tool_output_file target_domain "amass")
               (delete (tool_output_file target_domain "subfinder") fs))
      ∧ ext w' = x
      ∧ commands_of (trace w') =
          commands_of (trace w)
          ++ [subfinder_command target_domain; amass_command target_domain;
              httpx_command target_domain].
Proof.
  intros Ext shell open_w target_domain w out1 err1 out2 err2 rc1 rc2
    fs1 x1 fs2 x2 Hs1 Hrc1 Hnf1 Hs2 Hrc2 Hnf2 Hopen. cbn zeta.
  pose proof (initial_discovery_cases shell target_domain w) as Hin.
  cbn zeta in Hin. rewrite Hs1, Hs2 in Hin.
  destruct Hin as (w1 & Hin & _).
  rewrite !no_abort_quiet in Hin by done.
  rewrite !readable_failed in Hin by done.
  destruct Hin as (Hin & Hf1 & Hx1 & Hc1).
  assert (Hset : {[target_domain]}
                 ∪ (trimmed (lines_read (tool_output_file target_domain "subfinder")
                               (Completed out1 err1 rc1) fs1)
                    ∪ trimmed (lines_read (tool_output_file target_domain "amass")
                                 (Completed out2 err2 rc2) fs2))
                 = ({[target_domain]} : gset string)).
  { unfold lines_read, tool_ok.
    apply Z.eqb_neq in Hrc1, Hrc2. rewrite Hrc1, Hrc2. cbn.
    unfold trimmed. cbn. set_solver. }
  rewrite Hset in Hin.
  destruct (recursive_expansion_root shell target_domain w1)
    as (w2 & Hrec & Hf2 & Hx2 & _ & _).
  assert (Hopen2 : open_w (temp_subdomain_file target_domain) (ext w2) = None).
  { by rewrite Hx2, Hx1. }
  pose proof (find_subdomains_outcome shell open_w target_domain w
                _ _ _ _ _ Hin Hrec Hopen2) as Hout. cbn zeta in Hout.
  unfold probe_world in Hout. cbn [files ext] in Hout.
  rewrite full_set_text_root, Hf2, Hx2, Hf1, Hx1 in Hout.
  destruct (shell (httpx_command target_domain) _ x2) as [[l fs] x].
  destruct Hout as (w' & Hrun & Hf & Hx & _ & Hc & _).
  exists w'. split; [done|]. split; [done|]. split; [done|].
  rewrite Hc, Hc1.
  assert (Hnone : expansion_targets target_domain {[target_domain]} = []).
  { unfold expansion_targets. rewrite elements_singleton. cbn.
    by rewrite decide_False by naive_solver. }
  rewrite Hnone. cbn. by rewrite <-(assoc_L (++)).
Qed.

(** X6. After initial discovery the target domain is in the set, and
    every other member is a trimmed line of the text a tool left in its
    output file, the tool having exited with code zero; such a member
    has no line break in it and no white space around it. *)
Theorem initial_members_are_trimmed_lines :
  ∀ (Ext : Type)
    (shell : string → gmap string File → Ext
             → Launch * gmap string File * Ext)
    (target_domain : string) (w : @World Ext) unique fl w1,
    initial_discovery shell target_domain w = (Ok (Some (unique, fl)), w1) →
    let '(l1, fs1, x1) :=
      shell (subfinder_command target_domain) (files w) (ext w) in
    let '(l2, fs2, x2) := shell (amass_command target_domain) fs1 x1 in
    target_domain ∈ unique
    ∧ ∀ sub, sub ∈ unique →
             sub = target_domain
             ∨ ((line_of_output (tool_output_file target_domain "subfinder")
                   l1 fs1 sub
                 ∨ line_of_output (tool_output_file target_domain "amass")
                     l2 fs2 sub)
                ∧ one_line sub ∧ Py.strip sub = sub).
Proof. intros. by eapply initial_discovery_members. Qed.

(** X7. Expansion only adds to the set, and every member it adds is a
    trimmed line of the output captured from a launch, with exit code
    zero, of one of the two expansion commands of a member of the
    initial set other than the target domain; it is never the empty
    text and has no line break in it. *)
Theorem expansion_adds_clean_names :
  ∀ (Ext : Type)
    (shell : string → gmap string File → Ext
             → Launch * gmap string File * Ext)
    (target_domain : string) (unique : gset string) (w : @World Ext)
    unique' w',
    recursive_expansion shell target_domain unique w = (Ok unique', w') →
    unique ⊆ unique'
    ∧ ∀ sub, sub ∈ unique' →
             sub ∈ unique
             ∨ (sub ≠ EmptyString ∧ one_line sub ∧ Py.strip sub = sub
                ∧ ∃ member command,
                    member ∈ unique ∧ member ≠ target_domain
                    ∧ command ∈ expansion_commands member
                    ∧ captured_from shell w command sub).
Proof. intros. by eapply recursive_expansion_members. Qed.

(** X8. With a target domain that has no line break in it, when the
    full-set file can be opened for writing, the file the probe is
    launched on lists the final set: read back line by line it is the
    members in sorted order, each once, each followed by a line feed,
    the target domain among them. *)
Theorem full_set_file_lists_the_set :
  ∀ (Ext : Type)
    (shell : string → gmap string File → Ext
             → Launch * gmap string File * Ext)
    (open_w : string → Ext → option OpenError)
    (target_domain : string) (w : @World Ext) unique fl w1 unique' w2,
    one_line target_domain →
    initial_discovery shell target_domain w = (Ok (Some (unique, fl)), w1) →
    recursive_expansion shell target_domain unique w1 = (Ok unique', w2) →
    open_w (temp_subdomain_file target_domain) (ext w2) = None →
    let pw := probe_world target_domain unique' w2 in
    let members := Py.sorted (elements unique') in
    find_subdomains shell open_w target_domain w
      = live_filter shell target_domain fl pw
    ∧ (∃ text,
         files pw !! temp_subdomain_file target_domain = Some (Text text)
         ∧ Py.iter_lines text = (λ sub, sub +:+ nl) <$> members)
    ∧ written_of (trace pw)
      = written_of (trace w2)
        ++ [(temp_subdomain_file target_domain, full_set_text unique')]
    ∧ Sorted String.le members
    ∧ NoDup members
    ∧ (∀ sub, sub ∈ members ↔ sub ∈ unique')
    ∧ target_domain ∈ unique'.
Proof.
  intros Ext shell open_w target_domain w unique fl w1 unique' w2
    Htd Hd Hrec Hopen.
  cbn zeta.
  pose proof (find_subdomains_phases shell open_w target_domain w) as Hph.
  rewrite Hd in Hph. destruct Hph as (newly & w2' & Hrec' & Hrun & _).
  rewrite Hrec in Hrec'. injection Hrec' as -> <-. rewrite Hopen in Hrun.
  pose proof (initial_discovery_members shell _ _ _ _ _ Hd) as Hm.
  destruct (shell _ (files w) (ext w)) as [[l1 fs1] x1].
  destruct (shell _ fs1 x1) as [[l2 fs2] x2].
  destruct Hm as [Hin Hinit].
  destruct (recursive_expansion_members shell _ _ _ _ _ Hrec) as [Hsub Hnew].
  destruct (sorted_members (unique ∪ newly)) as (Hsorted & Hnodup & Hmem).
  split; [done|].
  split; [|split; [|split; [done|split; [done|split; [done|]]]]].
  - exists (full_set_text (unique ∪ newly)). split.
    + unfold probe_world. cbn [files]. apply lookup_insert_eq.
    + apply full_set_text_lines. intros sub [Hs|Hs]%Hnew.
      * apply Hinit in Hs as [->|(_ & Hs & _)]; done.
      * by destruct Hs as (_ & Hs & _).
  - unfold probe_world, written_of. cbn [trace]. by rewrite omap_app.
  - by apply Hsub.
Qed.

(** X9. The clean-up loop never fails on a path that is not there:
    whatever the list, it returns, none of the listed paths is there
    afterwards, every other path is as before, and nothing is launched
    or read. *)
Theorem cleanup_tolerates_missing_files :
  ∀ (Ext : Type) (paths : list string) (w : @World Ext),
    ∃ w',
      cleanup paths w = (Ok tt, w')
      ∧ (∀ p, files w' !! p
              = if decide (p ∈ paths) then None else files w !! p)
      ∧ ext w' = ext w ∧ stdin w' = stdin w
      ∧ commands_of (trace w') = commands_of (trace w)
      ∧ (∀ p, p ∈ touched_of (trace w') →
              p ∈ touched_of (trace w) ∨ p ∈ paths).
Proof.
  intros Ext paths w.
  destruct (cleanup_runs (λ _ fs x, (Failed EOFError, fs, x)) paths w)
    as (w' & Hrun & Hf & Hrest).
  exists w'. split; [done|]. split; [|done].
  intros p. rewrite Hf. apply lookup_foldl_delete.
Qed.

(** X10. With its input file in place the screenshot step reads its one
    answer, launches eyewitness once on the chosen file with the
    domain's screenshot directory, writes and removes nothing itself, and
    returns whatever the tool does; its last line says done exactly when
    the exit code handed back is zero. *)
Theorem screenshot_runs_the_tool_once :
  ∀ (Ext : Type)
    (shell : string → gmap string File → Ext
             → Launch * gmap string File * Ext)
    (target_domain : string) (w : @World Ext)
    (answer : string) (rest : list string),
    stdin w = answer :: rest →
    is_Some (files w !! chosen_input_file target_domain answer) →
    let command :=
      eyewitness_command (chosen_input_file target_domain answer)
        ("screenshots_" +:+ target_domain) in
    let '(l, fs, x) := shell command (files w) (ext w) in
    let '(_, stderr, returncode) := (outcome_of command "eyewitness" l).1 in
    ∃ w',
      screenshot_subdomains shell target_domain w = (Ok tt, w')
      ∧ files w' = fs ∧ ext w' = x ∧ stdin w' = rest
      ∧ commands_of (trace w') = commands_of (trace w) ++ [command]
      ∧ touched_of (trace w') = touched_of (trace w)
      ∧ last (trace w') =
          Some (EvPrint
                  (if returncode =? 0
                   then MsgScreenshotsDone ("screenshots_" +:+ target_domain)
                   else MsgScreenshotsFailed (Py.strip stderr))).
Proof. intros. by apply screenshot_present. Qed.

(** X11. [main] returns normally only right after the goodbye line of
    choice 3 or the empty-domain line, and it ends with [EOFError] only
    when standard input is used up; every pass of the menu that asks for
    another one has read a line, so one pass more than there are lines
    of input is never used up. *)
Theorem main_returns_after_goodbye_only :
  ∀ (Ext : Type)
    (shell : string → gmap string File → Ext
             → Launch * gmap string File * Ext)
    (open_w : string → Ext → option OpenError)
    (w : @World Ext),
    let r := main shell open_w w in
    r.1 ≠ Ok false
    ∧ (r.1 = Ok true →
       last (trace r.2) = Some (EvPrint MsgGoodbye)
       ∨ last (trace r.2) = Some (EvPrint MsgDomainEmpty))
    ∧ (r.1 = Raise EOFError → stdin r.2 = []).
Proof.
  intros Ext shell open_w w. cbn zeta.
  split; [apply main_total|].
  destruct (main shell open_w w) as [r w'] eqn:Hm. cbn [fst snd].
  apply main_outcome in Hm as [[-> Hl]|[[-> Hnil]|(e & -> & Hne)]].
  - by split.
  - by split.
  - split; [done|]. intros [= ->]. done.
Qed.

(** X12. Picking choice 1 runs discovery on the world the prompt left.
    When discovery returns, with the final file's path or with nothing,
    the menu goes on with its next pass, only the line printed differs;
    when discovery raises, the exception ends the menu loop there: [main]
    has no handler for it. *)
Theorem menu_goes_on_after_discovery :
  ∀ (Ext : Type)
    (shell : string → gmap string File → Ext
             → Launch * gmap string File * Ext)
    (open_w : string → Ext → option OpenError)
    (target_domain : string) (w : @World Ext) (fuel : nat)
    (answer : string) (rest : list string),
    stdin w = answer :: rest →
    Py.strip answer = "1" →
    match find_subdomains shell open_w target_domain
            (advance w rest (menu_banner ++ [EvInput PromptChoice answer]))
    with
    | (Ok r, w1) =>
        (r = None ∨ r = Some (live_subdomains_file target_domain))
        ∧ stdin w1 = rest
        ∧ menu_loop shell open_w (S fuel) target_domain w =
            menu_loop shell open_w fuel target_domain
              (advance w1 rest
                 [EvPrint match r with
                          | Some f => MsgFindingCompleted f
                          | None => MsgFindingFailed
                          end])
    | (Raise e, w1) =>
        stdin w1 = rest
        ∧ menu_loop shell open_w (S fuel) target_domain w = (Raise e, w1)
    end.
Proof.
  intros Ext shell open_w target_domain w fuel answer rest Hin Hch.
  pose proof (menu_step_discovery shell open_w target_domain w answer rest
                Hin Hch) as Hd.
  destruct (find_subdomains _ _ _ _) as [[r|e] w1].
  - destruct Hd as (Hr & Hi & Hstep). split; [done|]. split; [done|].
    cbn [menu_loop]. unfold bind at 1. by rewrite Hstep.
  - destruct Hd as (_ & Hi & Hstep). split; [done|].
    cbn [menu_loop]. unfold bind at 1. by rewrite Hstep.
Qed.

(** X13. When the full-set file has been written and the probe exits
    with code zero and leaves a final file that holds text, the run
    returns the file's path, the file still holds what the probe wrote,
    and the last line printed is the count of its lines. *)
Theorem successful_run_reports_line_count :
  ∀ (Ext : Type)
    (shell : string → gmap string File → Ext
             → Launch * gmap string File * Ext)
    (open_w : string → Ext → option OpenError)
    (target_domain : string) (w : @World Ext) unique fl w1 unique' w2
    (stdout stderr content : string) fs x,
    initial_discovery shell target_domain w = (Ok (Some (unique, fl)), w1) →
    recursive_expansion shell target_domain unique w1 = (Ok unique', w2) →
    open_w (temp_subdomain_file target_domain) (ext w2) = None →
    shell (httpx_command target_domain)
      (files (probe_world target_domain unique' w2))
      (ext (probe_world target_domain unique' w2))
    = (Completed stdout stderr 0, fs, x) →
    fs !! live_subdomains_file target_domain = Some (Text content) →
    ∃ w',
      find_subdomains shell open_w target_domain w
        = (Ok (Some (live_subdomains_file target_domain)), w')
      ∧ last (trace w')
        = Some (EvPrint (MsgLiveCount (length (Py.iter_lines content))))
      ∧ files w' !! live_subdomains_file target_domain = Some (Text content).
Proof.
  intros Ext shell open_w target_domain w unique fl w1 unique' w2
    stdout stderr content fs x Hd Hrec Hopen Hs Hlive.
  pose proof (find_subdomains_phases shell open_w target_domain w) as Hph.
  rewrite Hd in Hph. destruct Hph as (newly & w2' & Hrec' & -> & _).
  rewrite Hrec in Hrec'. injection Hrec' as -> <-. rewrite Hopen.
  assert (Hfl : fl = [tool_output_file target_domain "subfinder";
                      tool_output_file target_domain "amass"]).
  { pose proof (initial_discovery_some shell target_domain w _ _ _ Hd) as Hin.
    cbn zeta in Hin.
    destruct (shell _ (files w) (ext w)) as [[l1 fs1] x1].
    destruct (shell _ fs1 x1) as [[l2 fs2] x2].
    by destruct Hin as (_ & -> & _). }
  eapply live_filter_reports_count; [|done..].
  rewrite Hfl. apply live_not_initial.
Qed.

(** X14. When the full-set file cannot be opened for writing (its
    directory is not there, say, as with a "/" in the target domain),
    the run ends with the exception of the open, in the world expansion
    left: the probe is not launched, nothing is written and nothing is
    cleaned up. *)
Theorem unwritable_full_set_file_ends_run :
  ∀ (Ext : Type)
    (shell : string → gmap string File → Ext
             → Launch * gmap string File * Ext)
    (open_w : string → Ext → option OpenError)
    (target_domain : string) (w : @World Ext) unique fl w1 unique' w2
    (e : OpenError),
    initial_discovery shell target_domain w = (Ok (Some (unique, fl)), w1) →
    recursive_expansion shell target_domain unique w1 = (Ok unique', w2) →
    open_w (temp_subdomain_file target_domain) (ext w2) = Some e →
    find_subdomains shell open_w target_domain w
      = (Raise (raised_by_open e), w2)
    ∧ commands_of (trace w2) =
        commands_of (trace w)
        ++ [subfinder_command target_domain; amass_command target_domain]
        ++ (expansion_targets target_domain unique ≫= expansion_commands)
    ∧ touched_of (trace w2) = touched_of (trace w).
Proof.
  intros Ext shell open_w target_domain w unique fl w1 unique' w2 e
    Hd Hrec Hopen.
  split; [by eapply find_subdomains_unwritable|].
  destruct (recursive_expansion_runs shell target_domain unique w1)
    as (newly & w2' & Hrec' & _ & Hc2 & Ht2 & _).
  rewrite Hrec in Hrec'. injection Hrec' as _ <-.
  pose proof (initial_discovery_some shell target_domain w _ _ _ Hd) as Hin.
  cbn zeta in Hin.
  destruct (shell _ (files w) (ext w)) as [[l1 fs1] x1].
  destruct (shell _ fs1 x1) as [[l2 fs2] x2].
  destruct Hin as (_ & _ & _ & _ & _ & Hc1 & Ht1 & _).
  split; [by rewrite Hc2, Hc1, <-(assoc_L (++))|].
  by rewrite Ht2, Ht1.
Qed.

(** X15. When subfinder exits with code zero and leaves an output file
    whose bytes do not decode, the read of lines 54-56 raises and the
    run ends there: amass and the probe are not launched and no file is
    written or removed. *)
Theorem undecodable_tool_file_ends_run :
  ∀ (Ext : Type)
    (shell : string → gmap string File → Ext
             → Launch * gmap string File * Ext)
    (open_w : string → Ext → option OpenError)
    (target_domain : string) (w : @World Ext)
    (stdout stderr : string) fs1 x1,
    shell (subfinder_command target_domain) (files w) (ext w)
      = (Completed stdout stderr 0, fs1, x1) →
    fs1 !! tool_output_file target_domain "subfinder" = Some Undecodable →
    ∃ w',
      find_subdomains shell open_w target_domain w
        = (Raise UnicodeDecodeError, w')
      ∧ files w' = fs1 ∧ ext w' = x1
      ∧ commands_of (trace w') =
          commands_of (trace w) ++ [subfinder_command target_domain]
      ∧ touched_of (trace w') = touched_of (trace w).
Proof.
  intros Ext shell open_w target_domain w stdout stderr fs1 x1 Hs Hf.
  pose proof (initial_discovery_cases shell target_domain w) as Hin.
  pose proof (find_subdomains_phases shell open_w target_domain w) as Hph.
  cbn zeta in Hin. rewrite Hs in Hin.
  destruct (shell _ fs1 x1) as [[l2 fs2] x2].
  destruct Hin as (w' & Hin & _ & Ht).
  rewrite no_abort_ok in Hin by (unfold tool_ok; by rewrite Hf).
  rewrite (unreadable_garbled _ _ _ _ Hf) in Hin.
  destruct Hin as (Hin & Hf1 & Hx1 & Hc1). rewrite Hin in Hph.
  by exists w'.
Qed.

(** * The further properties on the concrete hosts *)

(** X2 on the host with nothing installed. *)
Lemma first_tool_not_found_stops_run_witness :
  Hosts.shell_nothing_installed (subfinder_command Demo.target)
    (files (Demo.empty_world tt)) (ext (Demo.empty_world tt))
  = (Completed "" "sh: 1: subfinder: not found" 127, ∅, tt)
  ∧ Py.contains "not found" (Py.lower "sh: 1: subfinder: not found") = true
  ∧ ∃ w',
      find_subdomains Hosts.shell_nothing_installed Demo.open_flat Demo.target
        (Demo.empty_world tt) = (Ok None, w')
      ∧ files w' = ∅.
Proof.
  assert (H1 : Hosts.shell_nothing_installed (subfinder_command Demo.target)
                 (files (Demo.empty_world tt)) (ext (Demo.empty_world tt))
               = (Completed "" "sh: 1: subfinder: not found" 127, ∅, tt))
    by reflexivity.
  assert (H2 : 127 ≠ 0
               ∨ (∅ : gmap string File)
                 !! tool_output_file Demo.target "subfinder" = None)
    by (left; discriminate).
  assert (H3 : Py.contains "not found"
                 (Py.lower "sh: 1: subfinder: not found") = true)
    by reflexivity.
  split; [exact H1|]. split; [exact H3|].
  destruct (first_tool_not_found_stops_run unit Hosts.shell_nothing_installed
              Demo.open_flat Demo.target (Demo.empty_world tt) _ _ _ _ _
              H1 H2 H3)
    as (w' & Hrun & Hf & _).
  exists w'. split; [exact Hrun|exact Hf].
Defined.

(** X3 on the host without amass. *)
Lemma second_tool_not_found_skips_cleanup_witness :
  ∃ w',
    find_subdomains Hosts.shell_no_amass Demo.open_flat Demo.target
      (Demo.empty_world tt) = (Ok None, w')
    ∧ files w' !! tool_output_file Demo.target "subfinder"
      = Some (Text ("a.example.com" +:+ nl)).
Proof.
  set (fs1 := <[tool_output_file Demo.target "subfinder" :=
                  Text ("a.example.com" +:+ nl)]> (∅ : gmap string File)).
  assert (H1 : Hosts.shell_no_amass (subfinder_command Demo.target)
                 (files (Demo.empty_world tt)) (ext (Demo.empty_world tt))
               = (Completed "" "" 0, fs1, tt))
    by (vm_compute; reflexivity).
  assert (H2 : fs1 !! tool_output_file Demo.target "subfinder"
               = Some (Text ("a.example.com" +:+ nl)))
    by (vm_compute; reflexivity).
  assert (H3 : Hosts.shell_no_amass (amass_command Demo.target) fs1 tt
               = (Completed "" "sh: 1: amass: not found" 127, fs1, tt))
    by (vm_compute; reflexivity).
  assert (H4 : 127 ≠ 0 ∨ fs1 !! tool_output_file Demo.target "amass" = None)
    by (left; discriminate).
  assert (H5 : Py.contains "not found"
                 (Py.lower "sh: 1: amass: not found") = true)
    by reflexivity.
  destruct (second_tool_not_found_skips_cleanup unit Hosts.shell_no_amass
              Demo.open_flat Demo.target (Demo.empty_world tt)
              _ _ _ _ _ _ _ _ _ _ H1 H2 H3 H4 H5)
    as (w' & Hrun & Hf & _).
  exists w'. split; [exact Hrun|]. rewrite Hf. exact H2.
Defined.

(** X4 on the host where subfinder gives up half way. *)
Lemma failed_tool_is_skipped_witness :
  ∃ w1,
    initial_discovery Hosts.shell_subfinder_crash Demo.target
      (Demo.empty_world tt)
    = (Ok (Some ({[Demo.target]}
                 ∪ trimmed (Py.iter_lines ("b.example.com" +:+ nl)),
                 Demo.initial_files)), w1)
    ∧ files w1 !! tool_output_file Demo.target "subfinder"
      = Some (Text ("partial.example.com" +:+ nl)).
Proof.
  set (fs1 := <[tool_output_file Demo.target "subfinder" :=
                  Text ("partial.example.com" +:+ nl)]>
                (∅ : gmap string File)).
  set (fs2 := <[tool_output_file Demo.target "amass" :=
                  Text ("b.example.com" +:+ nl)]> fs1).
  assert (H1 : Hosts.shell_subfinder_crash (subfinder_command Demo.target)
                 (files (Demo.empty_world tt)) (ext (Demo.empty_world tt))
               = (Completed "" "timeout" 1, fs1, tt))
    by (vm_compute; reflexivity).
  assert (H2 : 1 ≠ 0) by discriminate.
  assert (H3 : Py.contains "not found" (Py.lower "timeout") = false)
    by reflexivity.
  assert (H4 : Hosts.shell_subfinder_crash (amass_command Demo.target) fs1 tt
               = (Completed "" "" 0, fs2, tt))
    by (vm_compute; reflexivity).
  assert (H5 : fs2 !! tool_output_file Demo.target "amass"
               = Some (Text ("b.example.com" +:+ nl)))
    by (vm_compute; reflexivity).
  destruct (failed_tool_is_skipped unit Hosts.shell_subfinder_crash
              Demo.target (Demo.empty_world tt) _ _ _ _ _ _ _ _ _ _
              H1 H2 H3 H4 H5)
    as (w1 & Hrun & Hf & _).
  exists w1. split; [exact Hrun|]. rewrite Hf. vm_compute. reflexivity.
Defined.

(** X5 on the host where every command fails. *)
Lemma silent_failures_probe_the_root_witness :
  ∃ r w',
    find_subdomains Demo.shell_failing Demo.open_flat Demo.target
      (Demo.empty_world tt) = (r, w')
    ∧ commands_of (trace w') =
        commands_of (trace (Demo.empty_world tt))
        ++ [subfinder_command Demo.target; amass_command Demo.target;
            httpx_command Demo.target].
Proof.
  assert (H1 : Demo.shell_failing (subfinder_command Demo.target)
                 (files (Demo.empty_world tt)) (ext (Demo.empty_world tt))
               = (Completed "" "" 1, ∅, tt)) by reflexivity.
  assert (H2 : 1 ≠ 0) by discriminate.
  assert (H3 : Py.contains "not found" (Py.lower "") = false) by reflexivity.
  assert (H4 : Demo.shell_failing (amass_command Demo.target) ∅ tt
               = (Completed "" "" 1, ∅, tt)) by reflexivity.
  assert (H5 : Demo.open_flat (temp_subdomain_file Demo.target) tt = None)
    by reflexivity.
  pose proof (silent_failures_probe_the_root unit Demo.shell_failing
                Demo.open_flat Demo.target (Demo.empty_world tt)
                _ _ _ _ _ _ _ _ _ _ H1 H2 H3 H4 H2 H3 H5) as H.
  cbv beta iota zeta delta [Demo.shell_failing] in H.
  destruct H as (w' & Hrun & _ & _ & Hc).
  eexists _, w'. split; [exact Hrun|exact Hc].
Defined.

(** X6 on the working host. *)
Lemma initial_members_are_trimmed_lines_witness :
  Demo.target ∈ Demo.discovered
  ∧ ∀ sub, sub ∈ Demo.discovered →
           sub = Demo.target ∨ (one_line sub ∧ Py.strip sub = sub).
Proof.
  pose proof (initial_members_are_trimmed_lines unit Demo.shell_ok Demo.target
                _ _ _ _ discovery_on_shell_ok) as H.
  cbv zeta in H.
  destruct (Demo.shell_ok _ _ _) as [[l1 fs1] x1].
  destruct (Demo.shell_ok _ _ _) as [[l2 fs2] x2].
  destruct H as [Hin Hmem]. split; [exact Hin|].
  intros sub Hsub. destruct (Hmem sub Hsub) as [Heq|[_ Hshape]].
  - left. exact Heq.
  - right. exact Hshape.
Defined.

(** X7 on the working host. *)
Lemma expansion_adds_clean_names_witness :
  Demo.discovered ⊆ Demo.expanded
  ∧ ∀ sub, sub ∈ Demo.expanded →
           sub ∈ Demo.discovered ∨ sub ≠ EmptyString.
Proof.
  destruct (expansion_adds_clean_names unit Demo.shell_ok Demo.target
              _ _ _ _ expansion_on_shell_ok) as [Hsub Hmem].
  split; [exact Hsub|].
  intros sub Hin. destruct (Hmem sub Hin) as [Hold|[Hne _]].
  - left. exact Hold.
  - right. exact Hne.
Defined.

(** X8 on the working host. *)
Lemma full_set_file_lists_the_set_witness :
  one_line Demo.target
  ∧ Sorted String.le (Py.sorted (elements Demo.expanded))
  ∧ Demo.target ∈ Demo.expanded.
Proof.
  assert (H0 : one_line Demo.target) by exact I.
  split; [exact H0|].
  destruct (full_set_file_lists_the_set unit Demo.shell_ok Demo.open_flat
              Demo.target _ _ _ _ _ _ H0 discovery_on_shell_ok
              expansion_on_shell_ok full_set_file_opens)
    as (_ & _ & _ & Hsorted & _ & _ & Hin).
  split; [exact Hsorted|exact Hin].
Defined.

(** X10 on the working host, which has no eyewitness, with the final
    file in place and the default answer. *)
Lemma screenshot_runs_the_tool_once_witness :
  stdin Hosts.with_final_file = [EmptyString]
  ∧ ∃ w',
      screenshot_subdomains Demo.shell_ok Demo.target Hosts.with_final_file
      = (Ok tt, w')
      ∧ stdin w' = [].
Proof.
  assert (H1 : stdin Hosts.with_final_file = [EmptyString]) by reflexivity.
  assert (H2 : is_Some (files Hosts.with_final_file
                        !! chosen_input_file Demo.target EmptyString)).
  { exists (Text ("a.example.com" +:+ nl)). vm_compute. reflexivity. }
  split; [exact H1|].
  pose proof (screenshot_runs_the_tool_once unit Demo.shell_ok Demo.target
                Hosts.with_final_file EmptyString [] H1 H2) as H.
  cbv zeta in H.
  destruct (Demo.shell_ok _ _ _) as [[l fs] x].
  destruct (outcome_of _ "eyewitness" l).1 as [[o e] r].
  destruct H as (w' & Hrun & _ & _ & Hin & _).
  exists w'. split; [exact Hrun|exact Hin].
Defined.

(** X12 on the host where every command fails: with the example domain
    the menu goes on; with a URL typed for the domain the exception ends
    the loop. *)
Lemma menu_goes_on_after_discovery_witness :
  Py.strip " 1" = "1"
  ∧ (∃ w2,
       menu_loop Demo.shell_failing Demo.open_flat 2 Demo.target
         (mkWorld ∅ tt [" 1"; "3"] [])
       = menu_loop Demo.shell_failing Demo.open_flat 1 Demo.target w2
       ∧ stdin w2 = ["3"])
  ∧ (∃ w2,
       menu_loop Demo.shell_failing Demo.open_flat 2 "http://example.com"
         (mkWorld ∅ tt [" 1"; "3"] [])
       = (Raise FileNotFoundError, w2)
       ∧ stdin w2 = ["3"]).
Proof.
  assert (H1 : stdin (mkWorld ∅ tt [" 1"; "3"] [] : @World unit)
               = [" 1"; "3"]) by reflexivity.
  assert (H2 : Py.strip " 1" = "1") by reflexivity.
  split; [exact H2|]. split.
  - pose proof (menu_goes_on_after_discovery unit Demo.shell_failing
                  Demo.open_flat Demo.target (mkWorld ∅ tt [" 1"; "3"] [])
                  1 " 1" ["3"] H1 H2) as H.
    destruct (find_subdomains _ _ _ _) as [[r|e] w1] eqn:Hrun.
    + destruct H as (_ & _ & Hloop).
      eexists. split; [exact Hloop|reflexivity].
    + vm_compute in Hrun. discriminate Hrun.
  - pose proof (menu_goes_on_after_discovery unit Demo.shell_failing
                  Demo.open_flat "http://example.com"
                  (mkWorld ∅ tt [" 1"; "3"] []) 1 " 1" ["3"] H1 H2) as H.
    destruct (find_subdomains _ _ _ _) as [[r|e] w1] eqn:Hrun.
    + vm_compute in Hrun. discriminate Hrun.
    + destruct H as (Hi & Hloop).
      assert (He : e = FileNotFoundError).
      { vm_compute in Hrun. injection Hrun as He _. symmetry. exact He. }
      exists w1. split; [rewrite Hloop, He; reflexivity|exact Hi].
Defined.

(** X13 on the working host. *)
Lemma successful_run_reports_line_count_witness :
  ∃ w',
    find_subdomains Demo.shell_ok Demo.open_flat Demo.target
      (Demo.empty_world tt)
    = (Ok (Some (live_subdomains_file Demo.target)), w')
    ∧ last (trace w')
      = Some (EvPrint (MsgLiveCount
                         (length (Py.iter_lines ("a.example.com" +:+ nl))))).
Proof.
  assert (H3 : Demo.shell_ok (httpx_command Demo.target)
                 (files (probe_world Demo.target Demo.expanded
                           Demo.after_expansion))
                 (ext (probe_world Demo.target Demo.expanded
                         Demo.after_expansion))
               = (Completed "" "" 0,
                  <[live_subdomains_file Demo.target :=
                      Text ("a.example.com" +:+ nl)]>
                    (files (probe_world Demo.target Demo.expanded
                              Demo.after_expansion)), tt))
    by reflexivity.
  destruct (successful_run_reports_line_count unit Demo.shell_ok
              Demo.open_flat Demo.target
              _ _ _ _ _ _ _ _ ("a.example.com" +:+ nl) _ _
              discovery_on_shell_ok expansion_on_shell_ok
              full_set_file_opens H3 (lookup_insert_eq _ _ _))
    as (w' & Hrun & Hlast & _).
  exists w'. split; [exact Hrun|exact Hlast].
Defined.

(** X14 on the host where every command fails, with a "/" in the target
    domain. *)
Lemma unwritable_full_set_file_ends_run_witness :
  Demo.open_flat (temp_subdomain_file Hosts.slash_target) tt
  = Some NoSuchDirectory
  ∧ ∃ w2,
      find_subdomains Demo.shell_failing Demo.open_flat Hosts.slash_target
        (Demo.empty_world tt) = (Raise FileNotFoundError, w2)
      ∧ touched_of (trace w2) = [].
Proof.
  assert (H1 : initial_discovery Demo.shell_failing Hosts.slash_target
                 (Demo.empty_world tt)
               = (Ok (Some ({[Hosts.slash_target]},
                            [tool_output_file Hosts.slash_target "subfinder";
                             tool_output_file Hosts.slash_target "amass"])),
                  (initial_discovery Demo.shell_failing Hosts.slash_target
                     (Demo.empty_world tt)).2))
    by (vm_compute; reflexivity).
  assert (H2 : recursive_expansion Demo.shell_failing Hosts.slash_target
                 {[Hosts.slash_target]}
                 (initial_discovery Demo.shell_failing Hosts.slash_target
                    (Demo.empty_world tt)).2
               = (Ok {[Hosts.slash_target]},
                  (recursive_expansion Demo.shell_failing Hosts.slash_target
                     {[Hosts.slash_target]}
                     (initial_discovery Demo.shell_failing Hosts.slash_target
                        (Demo.empty_world tt)).2).2))
    by (vm_compute; reflexivity).
  assert (H3 : Demo.open_flat (temp_subdomain_file Hosts.slash_target)
                 (ext (recursive_expansion Demo.shell_failing
                         Hosts.slash_target {[Hosts.slash_target]}
                         (initial_discovery Demo.shell_failing
                            Hosts.slash_target (Demo.empty_world tt)).2).2)
               = Some NoSuchDirectory)
    by reflexivity.
  split; [reflexivity|].
  destruct (unwritable_full_set_file_ends_run unit Demo.shell_failing
              Demo.open_flat Hosts.slash_target (Demo.empty_world tt)
              _ _ _ _ _ _ H1 H2 H3) as (Hrun & _ & Ht).
  eexists. split; [exact Hrun|exact Ht].
Defined.

(** X15 on the host where subfinder leaves a file that does not decode. *)
Lemma undecodable_tool_file_ends_run_witness :
  ∃ w',
    find_subdomains Hosts.shell_garbled_tool Demo.open_flat Demo.target
      (Demo.empty_world tt) = (Raise UnicodeDecodeError, w')
    ∧ files w' !! tool_output_file Demo.target "subfinder" = Some Undecodable.
Proof.
  set (fs1 := <[tool_output_file Demo.target "subfinder" := Undecodable]>
                (∅ : gmap string File)).
  assert (H1 : Hosts.shell_garbled_tool (subfinder_command Demo.target)
                 (files (Demo.empty_world tt)) (ext (Demo.empty_world tt))
               = (Completed "" "" 0, fs1, tt))
    by (vm_compute; reflexivity).
  assert (H2 : fs1 !! tool_output_file Demo.target "subfinder"
               = Some Undecodable)
    by (vm_compute; reflexivity).
  destruct (undecodable_tool_file_ends_run unit Hosts.shell_garbled_tool
              Demo.open_flat Demo.target (Demo.empty_world tt) _ _ _ _ H1 H2)
    as (w' & Hrun & Hf & _).
  exists w'. split; [exact Hrun|]. rewrite Hf. exact H2.
Defined.
